(** * finance-news skill: deadline helpers, the Quality Compounder Score,
      the news fetcher and the briefing generator

    A shallow embedding of [scripts/utils.py], [scripts/score.py],
    [scripts/fetch_news.py] and [scripts/briefing.py], followed by the
    properties of these programs.

    Conventions of the embedding.
    - Python floats (statement values, ratios, scores, clock readings) are
      exact rationals [Q]: arithmetic is exact. [Score] embeds [score.py]
      for statements that hold numbers only. [ScoreNaN] embeds it again
      for statements with missing values: a cell is a number or NaN, and
      NaN goes through arithmetic and comparisons as in Python. The two
      embeddings agree on statements of numbers. The infinities are
      outside both.
    - The float power [x ** (1/3)] is a parameter [pow_third] of the scoring
      sections. In [ScoreNaN] it may give NaN (numpy's floats) or a complex
      number (Python's floats) for a negative base, and a complex number
      makes [calculate_score] raise TypeError.
    - Python exceptions are explicit: a raising call returns [Raise e].
    - The clock ([time.monotonic()], [datetime.now()]) is an explicit
      argument [now], read once per call; the cache directory is an
      explicit map from file names to files.
    - A financial statement (a pandas DataFrame) is a table of numbers: the
      period labels and one row of values per line item.
    - A cached payload is a JSON value; the text that [json.dump] writes
      and [json.load] parses is not modelled.
    - The network, the quote tool and the other subprocesses are explicit
      arguments: what a URL delivers, what a run returns. [str.strip] and
      [json.loads] on the output of a subprocess are parameters too. *)

From Stdlib Require Import QArith Qround Qabs Lqa ZArith Lia Bool List.
From Stdlib Require Import String Ascii DecimalString DecimalZ.
From stdpp Require Import gmap strings.
Import ListNotations.

(* ================================================================== *)
(** * Part I: the programs                                             *)
(* ================================================================== *)

(** ** Python values used by the scripts *)

Module Py.

Local Open Scope Q_scope.

(** Comparison operators on numbers, as booleans. *)
Definition ge (a b : Q) : bool := Qle_bool b a.
Definition le (a b : Q) : bool := Qle_bool a b.
Definition gt (a b : Q) : bool := negb (Qle_bool a b).
Definition lt (a b : Q) : bool := negb (Qle_bool b a).
Definition eq (a b : Q) : bool := Qeq_bool a b.

(** Truth value of a number: [if x] holds when [x] is not zero. *)
Definition truthy (x : Q) : bool := negb (Qeq_bool x 0).

(** Truth value of an optional number: [None] and [0] are false. *)
Definition truthy_opt (x : option Q) : bool :=
  match x with
  | Some v => truthy v
  | None => false
  end.

(** [a or b] on optional numbers. *)
Definition or_else (a b : option Q) : option Q :=
  if truthy_opt a then a else b.

(** [int(x)]: truncation toward zero. *)
Definition int (x : Q) : Z := Z.quot (Qnum x) (Z.pos (Qden x)).

(** Rounding to the nearest integer, ties to the even one. *)
Definition round_half_even (x : Q) : Z :=
  let f := Qfloor x in
  let d := x - inject_Z f in
  if lt d (1 # 2) then f
  else if gt d (1 # 2) then (f + 1)%Z
  else if Z.even f then f else (f + 1)%Z.

(** [round(x, 1)]. *)
Definition round1 (x : Q) : Q := inject_Z (round_half_even (x * 10)) / 10.

(** [seq[i]] with Python's negative indices; [None] stands for IndexError. *)
Definition index {A : Type} (l : list A) (i : Z) : option A :=
  let n := Z.of_nat (List.length l) in
  if (0 <=? i)%Z then nth_error l (Z.to_nat i)
  else if (- n <=? i)%Z then nth_error l (Z.to_nat (n + i))
  else None.

(** Exceptions raised by the modelled code. *)
Inductive exn : Type :=
| TimeoutError (msg : string).

Inductive result (A : Type) : Type :=
| Return (a : A)
| Raise (e : exn).

Arguments Return {A} a.
Arguments Raise {A} e.

End Py.

(** ** scripts/utils.py *)

Module Utils.

Local Open Scope Q_scope.

(** [compute_deadline(deadline_sec)], with [now] the reading of
    [time.monotonic()]. *)
Definition compute_deadline (now : Q) (deadline_sec : option Z) : option Q :=
  match deadline_sec with
  | None => None
  | Some s => if (s <=? 0)%Z then None else Some (now + inject_Z s)
  end.

(** [time_left(deadline)]. *)
Definition time_left (now : Q) (deadline : option Q) : option Z :=
  match deadline with
  | None => None
  | Some d => let remaining := Py.int (d - now) in Some remaining
  end.

(** [clamp_timeout(default_timeout, deadline, minimum=1)]. *)
Definition clamp_timeout (now : Q) (default_timeout : Z) (deadline : option Q)
    (minimum : Z) : Py.result Z :=
  let remaining := time_left now deadline in
  match remaining with
  | None => Py.Return default_timeout
  | Some remaining =>
      if (remaining <=? 0)%Z then Py.Raise (Py.TimeoutError "Deadline exceeded")
      else Py.Return (Z.max (Z.min default_timeout remaining) minimum)
  end.

(** The default value of [minimum]. *)
Definition default_minimum : Z := 1.

End Utils.

(** ** scripts/score.py *)

Module Score.

Local Open Scope Q_scope.
Local Open Scope string_scope.

(** [calculate_score(val, min_val, max_val, max_points)]: linear
    interpolation of score. *)
Definition calculate_score (val min_val max_val max_points : Q) : Q :=
  if Py.ge val max_val then max_points
  else if Py.le val min_val then 0
  else ((val - min_val) / (max_val - min_val)) * max_points.

(** A financial statement as the data provider returns it (a pandas
    DataFrame): the period labels, most recent first, and one row of
    period values per line item. In a frame every row is as long as
    [columns]; a table that breaks this is malformed. *)
Record DataFrame : Type := {
  columns : list string;
  rows : list (string * list Q)
}.

(** [df.empty]: no row or no column. *)
Definition empty (df : DataFrame) : bool :=
  match columns df, rows df with
  | [], _ => true
  | _, [] => true
  | _, _ => false
  end.

(** [df.loc[key]] on the rows; [None] stands for KeyError. *)
Fixpoint loc_rows (key : string) (rs : list (string * list Q)) : option (list Q) :=
  match rs with
  | [] => None
  | (k, r) :: rs' => if String.eqb key k then Some r else loc_rows key rs'
  end.

Definition loc (df : DataFrame) (key : string) : option (list Q) :=
  loc_rows key (rows df).

(** [key in df.index]. *)
Definition in_index (key : string) (df : DataFrame) : bool :=
  existsb (fun kr => String.eqb key (fst kr)) (rows df).

(** [df.loc[key].iloc[i]]; [None] stands for the exception raised. *)
Definition loc_iloc (df : DataFrame) (key : string) (i : Z) : option Q :=
  match loc df key with
  | Some row => Py.index row i
  | None => None
  end.

(** [get_latest(df, key)]: helper for latest annual data. The bare
    [except] turns every access error into 0. *)
Definition get_latest (df : DataFrame) (key : string) : Q :=
  if in_index key df then
    match loc_iloc df key 0 with
    | Some v => v
    | None => 0
    end
  else 0.

(** [get_historical(df, key, years_back=3)]. *)
Definition get_historical (df : DataFrame) (key : string) (years_back : Z)
    : option Q :=
  if in_index key df then
    let cols := columns df in
    let idx := Z.min years_back (Z.of_nat (List.length cols) - 1) in
    loc_iloc df key idx
  else None.

(** What [yf.Ticker(symbol)] gives access to: the three statements and
    the info dictionary. *)
Record Ticker : Type := {
  financials : DataFrame;
  balance_sheet : DataFrame;
  cashflow : DataFrame;
  info : gmap string Q
}.

(** The data provider, as seen by [analyze_ticker]: building the ticker
    may raise, reading its statements and info may raise, or the data is
    there. The string is [str(e)]. *)
Inductive provided : Type :=
| TickerRaises (e : string)
| FetchRaises (e : string)
| Provided (stock : Ticker).

(** The emoji literals of the recommendation. *)
Inductive emoji : Type := CheckMark | WarningSign | StopSign.

(** One entry of ["metrics"]. The formatted ["display"] string of [value]
    is left out. *)
Record MetricResult : Type := {
  name : option string;
  value : Q;
  score : Q;
  max : Q
}.

(** The dictionary returned for an analyzed symbol. [price] is [None]
    where the code reports ['N/A']. *)
Record ScoreReport : Type := {
  symbol : string;
  price : option Q;
  total : Q;
  recommendation : string;
  rec_emoji : emoji;
  ROIC : MetricResult;
  FCF_Margin : MetricResult;
  Growth : MetricResult;
  Valuation : MetricResult
}.

(** The result of [analyze_ticker]: [{"error": msg}] or a report. *)
Inductive analysis : Type :=
| Error (msg : string)
| Report (r : ScoreReport).

(** The local variables of [analyze_ticker] once the four factors are
    scored, at full precision. *)
Record Factors : Type := {
  roic : Q;
  score_roic : Q;
  fcf_margin : Q;
  score_margin : Q;
  fcf_growth : Q;
  growth_metric : string;
  score_growth : Q;
  fcf_yield : Q;
  score_val : Q;
  total_score : Q
}.

(** The recommendation for a total score. *)
Definition recommend (total_score : Q) : string * emoji :=
  if Py.ge total_score 70 then ("BUY / ACCUMULATE", CheckMark)
  else if Py.ge total_score 50 then ("HOLD", WarningSign)
  else ("PASS / SELL", StopSign).

Section Scoring.

(** The float power [x ** (1/3)]. *)
Variable pow_third : Q -> Q.

(** Factor 1: ROIC = NOPAT / invested capital. *)
Definition compute_roic (income_stmt balance : DataFrame) : Q :=
  let ebit := get_latest income_stmt "Ebit" in
  let ebit := if Py.eq ebit 0 then get_latest income_stmt "Operating Income" else ebit in
  let tax_provision := get_latest income_stmt "Tax Provision" in
  let pretax_income := get_latest income_stmt "Pretax Income" in
  let tax_rate :=
    if Py.truthy pretax_income && negb (Py.eq pretax_income 0)
    then tax_provision / pretax_income else 0.21 in
  let nopat := ebit * (1 - tax_rate) in
  let total_assets := get_latest balance "Total Assets" in
  let current_liabs := get_latest balance "Current Liabilities" in
  let invested_capital := total_assets - current_liabs in
  if Py.truthy invested_capital then nopat / invested_capital * 100 else 0.

(** Current free cash flow. *)
Definition compute_fcf (cash_flow : DataFrame) : Q :=
  let ocf := get_latest cash_flow "Operating Cash Flow" in
  let capex := get_latest cash_flow "Capital Expenditure" in
  ocf - Qabs capex.

(** Factor 2: FCF margin. *)
Definition compute_fcf_margin (fcf revenue : Q) : Q :=
  if Py.truthy revenue then fcf / revenue * 100 else 0.

(** Factor 3: growth, with its metric label. *)
Definition compute_growth (cash_flow income_stmt : DataFrame) (fcf revenue : Q)
    : Q * string :=
  let ocf_3y := get_historical cash_flow "Operating Cash Flow" 3 in
  let capex_3y := get_historical cash_flow "Capital Expenditure" 3 in
  let fcf_growth := 0 in
  let growth_metric := "FCF CAGR (3y)" in
  match ocf_3y with
  | Some ocf_3y =>
      let fcf_3y :=
        ocf_3y - Qabs (if Py.truthy_opt capex_3y then default 0 capex_3y else 0) in
      if Py.gt fcf_3y 0 && Py.gt fcf 0 then
        ((pow_third (fcf / fcf_3y) - 1) * 100, growth_metric)
      else
        (* Fallback to revenue *)
        let rev_3y := get_historical income_stmt "Total Revenue" 3 in
        match rev_3y with
        | Some r =>
            if Py.truthy r && Py.gt r 0 then
              ((pow_third (revenue / r) - 1) * 100, "Rev CAGR (3y) [FCF invalid]")
            else (fcf_growth, growth_metric)
        | None => (fcf_growth, growth_metric)
        end
  | None => (fcf_growth, growth_metric)
  end.

(** The market capitalisation: the reported one, or price times shares. *)
Definition compute_market_cap (info : gmap string Q) : option Q :=
  let market_cap := info !! "marketCap" in
  if negb (Py.truthy_opt market_cap) then
    let price := Py.or_else (info !! "currentPrice") (info !! "previousClose") in
    let shares := info !! "sharesOutstanding" in
    match price, shares with
    | Some p, Some s => if Py.truthy p && Py.truthy s then Some (p * s) else market_cap
    | _, _ => market_cap
    end
  else market_cap.

(** Factor 4: FCF yield. *)
Definition compute_fcf_yield (fcf : Q) (market_cap : option Q) : Q :=
  match market_cap with
  | Some m => if Py.truthy m then fcf / m * 100 else 0
  | None => 0
  end.

(** The body of [analyze_ticker] from the ROIC factor to [total_score]. *)
Definition score_factors (stock : Ticker) : Factors :=
  let income_stmt := financials stock in
  let balance := balance_sheet stock in
  let cash_flow := cashflow stock in
  let roic := compute_roic income_stmt balance in
  let score_roic := calculate_score roic 10 20 35 in
  let fcf := compute_fcf cash_flow in
  let revenue := get_latest income_stmt "Total Revenue" in
  let fcf_margin := compute_fcf_margin fcf revenue in
  let score_margin := calculate_score fcf_margin 10 25 25 in
  let '(fcf_growth, growth_metric) := compute_growth cash_flow income_stmt fcf revenue in
  let score_growth := calculate_score fcf_growth 5 15 20 in
  let market_cap := compute_market_cap (info stock) in
  let fcf_yield := compute_fcf_yield fcf market_cap in
  let score_val := calculate_score fcf_yield 2 4 20 in
  let total_score := score_roic + score_margin + score_growth + score_val in
  {| roic := roic; score_roic := score_roic;
     fcf_margin := fcf_margin; score_margin := score_margin;
     fcf_growth := fcf_growth; growth_metric := growth_metric;
     score_growth := score_growth;
     fcf_yield := fcf_yield; score_val := score_val;
     total_score := total_score |}.

(** The dictionary [analyze_ticker] returns on success. *)
Definition report (ticker_symbol : string) (stock : Ticker) (f : Factors)
    : ScoreReport :=
  let '(rec, rec_emoji) := recommend (total_score f) in
  {| symbol := ticker_symbol;
     price := info stock !! "currentPrice";
     total := Py.round1 (total_score f);
     recommendation := rec;
     rec_emoji := rec_emoji;
     ROIC := {| name := None; value := roic f;
                score := Py.round1 (score_roic f); max := 35 |};
     FCF_Margin := {| name := None; value := fcf_margin f;
                      score := Py.round1 (score_margin f); max := 25 |};
     Growth := {| name := Some (growth_metric f); value := fcf_growth f;
                  score := Py.round1 (score_growth f); max := 20 |};
     Valuation := {| name := Some "FCF Yield"; value := fcf_yield f;
                     score := Py.round1 (score_val f); max := 20 |} |}.

(** [analyze_ticker(ticker_symbol)], with [yf] the data provider. *)
Definition analyze_ticker (yf : string -> provided) (ticker_symbol : string)
    : analysis :=
  match yf ticker_symbol with
  | TickerRaises e => Error e
  | FetchRaises e => Error ("Failed to fetch data: " ++ e)
  | Provided stock =>
      if empty (financials stock) || empty (balance_sheet stock)
         || empty (cashflow stock)
      then Error "Missing financial statements"
      else Report (report ticker_symbol stock (score_factors stock))
  end.

(** What [main] prints for one symbol: the error line, or the report
    block of the symbol. *)
Inductive printed : Type :=
| ErrorLine (ticker msg : string)
| ReportBlock (r : ScoreReport).

(** The loop of [main] over [tickers], [out] being what was printed so
    far. An error prints its line and the loop continues. *)
Fixpoint main_loop (yf : string -> provided) (tickers : list string)
    (out : list printed) : list printed :=
  match tickers with
  | [] => out
  | ticker :: rest =>
      let data := analyze_ticker yf ticker in
      match data with
      | Error msg => main_loop yf rest (out ++ [ErrorLine ticker msg])
      | Report r => main_loop yf rest (out ++ [ReportBlock r])
      end
  end.

(** [main] on [sys.argv[1:]]: without arguments the usage message is
    printed and the process exits with status 1 ([None]). *)
Definition main (yf : string -> provided) (argv : list string)
    : option (list printed) :=
  match argv with
  | [] => None
  | _ => Some (main_loop yf argv [])
  end.

End Scoring.

End Score.

(** ** Floats with NaN *)

Module Float.

Local Open Scope Q_scope.

(** A float as a cell of a statement holds it: a number, or NaN, the
    marker of a missing value. Numbers are exact rationals. The
    infinities are left out: every division of [score.py] is guarded
    against a zero divisor. *)
Inductive float : Type :=
| Num (q : Q)
| NaN.

(** Arithmetic: NaN propagates. *)
Definition add (a b : float) : float :=
  match a, b with
  | Num x, Num y => Num (x + y)
  | _, _ => NaN
  end.

Definition sub (a b : float) : float :=
  match a, b with
  | Num x, Num y => Num (x - y)
  | _, _ => NaN
  end.

Definition mul (a b : float) : float :=
  match a, b with
  | Num x, Num y => Num (x * y)
  | _, _ => NaN
  end.

Definition div (a b : float) : float :=
  match a, b with
  | Num x, Num y => Num (x / y)
  | _, _ => NaN
  end.

Definition abs (a : float) : float :=
  match a with
  | Num x => Num (Qabs x)
  | NaN => NaN
  end.

(** Comparisons: every ordering and [==] is false on NaN, [!=] is true. *)
Definition ge (a b : float) : bool :=
  match a, b with
  | Num x, Num y => Py.ge x y
  | _, _ => false
  end.

Definition le (a b : float) : bool :=
  match a, b with
  | Num x, Num y => Py.le x y
  | _, _ => false
  end.

Definition gt (a b : float) : bool :=
  match a, b with
  | Num x, Num y => Py.gt x y
  | _, _ => false
  end.

Definition eq (a b : float) : bool :=
  match a, b with
  | Num x, Num y => Py.eq x y
  | _, _ => false
  end.

Definition ne (a b : float) : bool := negb (eq a b).

(** Truth value: NaN is not zero, so [if x] holds for it. *)
Definition truthy (x : float) : bool :=
  match x with
  | Num q => Py.truthy q
  | NaN => true
  end.

Definition truthy_opt (x : option float) : bool :=
  match x with
  | Some v => truthy v
  | None => false
  end.

(** [a or b] on optional floats. *)
Definition or_else (a b : option float) : option float :=
  if truthy_opt a then a else b.

(** [round(x, 1)]: NaN stays NaN. *)
Definition round1 (x : float) : float :=
  match x with
  | Num q => Num (Py.round1 q)
  | NaN => NaN
  end.

(** [lo <= x <= hi] for a float: a NaN is in no range. *)
Definition within (lo : Q) (x : float) (hi : Q) : Prop :=
  match x with
  | Num q => lo <= q <= hi
  | NaN => False
  end.

(** What [x ** (1/3)] evaluates to, and what is computed from it: a
    float, or a complex number (Python's power of a negative float). *)
Inductive number : Type :=
| Real (x : float)
| Complex.

(** [n - b] and [n * b] for a float [b]: a complex number stays
    complex. *)
Definition minus (n : number) (b : float) : number :=
  match n with
  | Real x => Real (sub x b)
  | Complex => Complex
  end.

Definition times (n : number) (b : float) : number :=
  match n with
  | Real x => Real (mul x b)
  | Complex => Complex
  end.

End Float.

(** ** scripts/score.py on statements with missing values

    [score.py] again, line by line as in [Score], for statements whose
    cells may be NaN and for a power that may be complex. *)

Module ScoreNaN.

Import Float.
Local Open Scope Q_scope.
Local Open Scope string_scope.

(** The result of a call that may raise TypeError; [msg] is [str(e)]. *)
Inductive result (A : Type) : Type :=
| Return (a : A)
| TypeError (msg : string).

Arguments Return {A} a.
Arguments TypeError {A} msg.

Definition bind {A B : Type} (r : result A) (k : A -> result B) : result B :=
  match r with
  | Return a => k a
  | TypeError msg => TypeError msg
  end.

#[local] Notation "'let*' x := r 'in' k" := (bind r (fun x => k))
  (at level 10, x name, r at level 100, k at level 200).

(** [calculate_score(val, min_val, max_val, max_points)]: the first
    comparison raises TypeError on a complex [val]. The bounds and the
    points are the integer literals of the call sites. *)
Definition calculate_score (val : number) (min_val max_val max_points : Q)
    : result float :=
  match val with
  | Complex =>
      TypeError "'>=' not supported between instances of 'complex' and 'int'"
  | Real val =>
      if ge val (Num max_val) then Return (Num max_points)
      else if le val (Num min_val) then Return (Num 0)
      else Return (mul (div (sub val (Num min_val))
                            (sub (Num max_val) (Num min_val)))
                       (Num max_points))
  end.

(** A financial statement: the period labels, most recent first, and one
    row of cells per line item. *)
Record DataFrame : Type := {
  columns : list string;
  rows : list (string * list float)
}.

(** [df.empty]: no row or no column. *)
Definition empty (df : DataFrame) : bool :=
  match columns df, rows df with
  | [], _ => true
  | _, [] => true
  | _, _ => false
  end.

(** [df.loc[key]] on the rows; [None] stands for KeyError. *)
Fixpoint loc_rows (key : string) (rs : list (string * list float))
    : option (list float) :=
  match rs with
  | [] => None
  | (k, r) :: rs' => if String.eqb key k then Some r else loc_rows key rs'
  end.

Definition loc (df : DataFrame) (key : string) : option (list float) :=
  loc_rows key (rows df).

(** [key in df.index]. *)
Definition in_index (key : string) (df : DataFrame) : bool :=
  existsb (fun kr => String.eqb key (fst kr)) (rows df).

(** [df.loc[key].iloc[i]]; [None] stands for the exception raised. *)
Definition loc_iloc (df : DataFrame) (key : string) (i : Z) : option float :=
  match loc df key with
  | Some row => Py.index row i
  | None => None
  end.

(** [get_latest(df, key)]: a missing row gives 0, a missing value in the
    row is returned as it is. *)
Definition get_latest (df : DataFrame) (key : string) : float :=
  if in_index key df then
    match loc_iloc df key 0 with
    | Some v => v
    | None => Num 0
    end
  else Num 0.

(** [get_historical(df, key, years_back=3)]. *)
Definition get_historical (df : DataFrame) (key : string) (years_back : Z)
    : option float :=
  if in_index key df then
    let cols := columns df in
    let idx := Z.min years_back (Z.of_nat (List.length cols) - 1) in
    loc_iloc df key idx
  else None.

(** What [yf.Ticker(symbol)] gives access to. *)
Record Ticker : Type := {
  financials : DataFrame;
  balance_sheet : DataFrame;
  cashflow : DataFrame;
  info : gmap string float
}.

(** The data provider, as seen by [analyze_ticker]. *)
Inductive provided : Type :=
| TickerRaises (e : string)
| FetchRaises (e : string)
| Provided (stock : Ticker).

(** One entry of ["metrics"], without the ["display"] string. *)
Record MetricResult : Type := {
  name : option string;
  value : number;
  score : float;
  max : Q
}.

(** The dictionary returned for an analyzed symbol. *)
Record ScoreReport : Type := {
  symbol : string;
  price : option float;
  total : float;
  recommendation : string;
  rec_emoji : Score.emoji;
  ROIC : MetricResult;
  FCF_Margin : MetricResult;
  Growth : MetricResult;
  Valuation : MetricResult
}.

(** The result of [analyze_ticker]: [{"error": msg}] or a report. *)
Inductive analysis : Type :=
| Error (msg : string)
| Report (r : ScoreReport).

(** The local variables of [analyze_ticker] once the four factors are
    scored. *)
Record Factors : Type := {
  roic : float;
  score_roic : float;
  fcf_margin : float;
  score_margin : float;
  fcf_growth : number;
  growth_metric : string;
  score_growth : float;
  fcf_yield : float;
  score_val : float;
  total_score : float
}.

(** The recommendation for a total score: a NaN total fails both
    comparisons. *)
Definition recommend (total_score : float) : string * Score.emoji :=
  if ge total_score (Num 70) then ("BUY / ACCUMULATE", Score.CheckMark)
  else if ge total_score (Num 50) then ("HOLD", Score.WarningSign)
  else ("PASS / SELL", Score.StopSign).

Section Scoring.

(** The power [x ** (1/3)] of a number: a float for numpy's floats, also
    for a negative base (NaN); a complex number for a negative Python
    float. *)
Variable pow_third : Q -> number.

(** [x ** (1/3)]: the power of NaN is NaN. *)
Definition pow (x : float) : number :=
  match x with
  | Num q => pow_third q
  | NaN => Real NaN
  end.

(** Factor 1: ROIC = NOPAT / invested capital. *)
Definition compute_roic (income_stmt balance : DataFrame) : float :=
  let ebit := get_latest income_stmt "Ebit" in
  let ebit :=
    if eq ebit (Num 0) then get_latest income_stmt "Operating Income" else ebit in
  let tax_provision := get_latest income_stmt "Tax Provision" in
  let pretax_income := get_latest income_stmt "Pretax Income" in
  let tax_rate :=
    if truthy pretax_income && ne pretax_income (Num 0)
    then div tax_provision pretax_income else Num 0.21 in
  let nopat := mul ebit (sub (Num 1) tax_rate) in
  let total_assets := get_latest balance "Total Assets" in
  let current_liabs := get_latest balance "Current Liabilities" in
  let invested_capital := sub total_assets current_liabs in
  if truthy invested_capital
  then mul (div nopat invested_capital) (Num 100) else Num 0.

(** Current free cash flow. *)
Definition compute_fcf (cash_flow : DataFrame) : float :=
  let ocf := get_latest cash_flow "Operating Cash Flow" in
  let capex := get_latest cash_flow "Capital Expenditure" in
  sub ocf (abs capex).

(** Factor 2: FCF margin. *)
Definition compute_fcf_margin (fcf revenue : float) : float :=
  if truthy revenue then mul (div fcf revenue) (Num 100) else Num 0.

(** Factor 3: growth, with its metric label. *)
Definition compute_growth (cash_flow income_stmt : DataFrame)
    (fcf revenue : float) : number * string :=
  let ocf_3y := get_historical cash_flow "Operating Cash Flow" 3 in
  let capex_3y := get_historical cash_flow "Capital Expenditure" 3 in
  let fcf_growth := Real (Num 0) in
  let growth_metric := "FCF CAGR (3y)" in
  match ocf_3y with
  | Some ocf_3y =>
      let fcf_3y :=
        sub ocf_3y
            (abs (if truthy_opt capex_3y then default (Num 0) capex_3y
                  else Num 0)) in
      if gt fcf_3y (Num 0) && gt fcf (Num 0) then
        (times (minus (pow (div fcf fcf_3y)) (Num 1)) (Num 100), growth_metric)
      else
        (* Fallback to revenue *)
        let rev_3y := get_historical income_stmt "Total Revenue" 3 in
        match rev_3y with
        | Some r =>
            if truthy r && gt r (Num 0) then
              (times (minus (pow (div revenue r)) (Num 1)) (Num 100),
               "Rev CAGR (3y) [FCF invalid]")
            else (fcf_growth, growth_metric)
        | None => (fcf_growth, growth_metric)
        end
  | None => (fcf_growth, growth_metric)
  end.

(** The market capitalisation: the reported one, or price times shares. *)
Definition compute_market_cap (info : gmap string float) : option float :=
  let market_cap := info !! "marketCap" in
  if negb (truthy_opt market_cap) then
    let price := or_else (info !! "currentPrice") (info !! "previousClose") in
    let shares := info !! "sharesOutstanding" in
    match price, shares with
    | Some p, Some s => if truthy p && truthy s then Some (mul p s) else market_cap
    | _, _ => market_cap
    end
  else market_cap.

(** Factor 4: FCF yield. *)
Definition compute_fcf_yield (fcf : float) (market_cap : option float) : float :=
  match market_cap with
  | Some m => if truthy m then mul (div fcf m) (Num 100) else Num 0
  | None => Num 0
  end.

(** The body of [analyze_ticker] from the ROIC factor to [total_score];
    a TypeError of [calculate_score] ends it. *)
Definition score_factors (stock : Ticker) : result Factors :=
  let income_stmt := financials stock in
  let balance := balance_sheet stock in
  let cash_flow := cashflow stock in
  let roic := compute_roic income_stmt balance in
  let* score_roic := calculate_score (Real roic) 10 20 35 in
  let fcf := compute_fcf cash_flow in
  let revenue := get_latest income_stmt "Total Revenue" in
  let fcf_margin := compute_fcf_margin fcf revenue in
  let* score_margin := calculate_score (Real fcf_margin) 10 25 25 in
  let '(fcf_growth, growth_metric) :=
    compute_growth cash_flow income_stmt fcf revenue in
  let* score_growth := calculate_score fcf_growth 5 15 20 in
  let market_cap := compute_market_cap (info stock) in
  let fcf_yield := compute_fcf_yield fcf market_cap in
  let* score_val := calculate_score (Real fcf_yield) 2 4 20 in
  let total_score := add (add (add score_roic score_margin) score_growth) score_val in
  Return {| roic := roic; score_roic := score_roic;
            fcf_margin := fcf_margin; score_margin := score_margin;
            fcf_growth := fcf_growth; growth_metric := growth_metric;
            score_growth := score_growth;
            fcf_yield := fcf_yield; score_val := score_val;
            total_score := total_score |}.

(** The dictionary [analyze_ticker] returns on success. *)
Definition report (ticker_symbol : string) (stock : Ticker) (f : Factors)
    : ScoreReport :=
  let '(rec, rec_emoji) := recommend (total_score f) in
  {| symbol := ticker_symbol;
     price := info stock !! "currentPrice";
     total := round1 (total_score f);
     recommendation := rec;
     rec_emoji := rec_emoji;
     ROIC := {| name := None; value := Real (roic f);
                score := round1 (score_roic f); max := 35 |};
     FCF_Margin := {| name := None; value := Real (fcf_margin f);
                      score := round1 (score_margin f); max := 25 |};
     Growth := {| name := Some (growth_metric f); value := fcf_growth f;
                  score := round1 (score_growth f); max := 20 |};
     Valuation := {| name := Some "FCF Yield"; value := Real (fcf_yield f);
                     score := round1 (score_val f); max := 20 |} |}.

(** [analyze_ticker(ticker_symbol)], with [yf] the data provider. The
    outer [except Exception] turns an exception of the body into an
    error record. *)
Definition analyze_ticker (yf : string -> provided) (ticker_symbol : string)
    : analysis :=
  match yf ticker_symbol with
  | TickerRaises e => Error e
  | FetchRaises e => Error ("Failed to fetch data: " ++ e)
  | Provided stock =>
      if empty (financials stock) || empty (balance_sheet stock)
         || empty (cashflow stock)
      then Error "Missing financial statements"
      else
        match score_factors stock with
        | Return f => Report (report ticker_symbol stock f)
        | TypeError msg => Error msg
        end
  end.

End Scoring.

(** *** Statements without missing values *)

(** A statement of [Score] as a statement of this module: every cell is
    a number. *)
Definition of_frame (df : Score.DataFrame) : DataFrame :=
  {| columns := Score.columns df;
     rows := map (fun kr => (fst kr, map Num (snd kr))) (Score.rows df) |}.

Definition of_ticker (stock : Score.Ticker) : Ticker :=
  {| financials := of_frame (Score.financials stock);
     balance_sheet := of_frame (Score.balance_sheet stock);
     cashflow := of_frame (Score.cashflow stock);
     info := Num <$> Score.info stock |}.

Definition of_provided (p : Score.provided) : provided :=
  match p with
  | Score.TickerRaises e => TickerRaises e
  | Score.FetchRaises e => FetchRaises e
  | Score.Provided stock => Provided (of_ticker stock)
  end.

(** A power that is a number for every base. *)
Definition real_power (pow_third : Q -> Q) (q : Q) : number :=
  Real (Num (pow_third q)).

Definition of_factors (f : Score.Factors) : Factors :=
  {| roic := Num (Score.roic f); score_roic := Num (Score.score_roic f);
     fcf_margin := Num (Score.fcf_margin f);
     score_margin := Num (Score.score_margin f);
     fcf_growth := Real (Num (Score.fcf_growth f));
     growth_metric := Score.growth_metric f;
     score_growth := Num (Score.score_growth f);
     fcf_yield := Num (Score.fcf_yield f); score_val := Num (Score.score_val f);
     total_score := Num (Score.total_score f) |}.

Definition of_metric (m : Score.MetricResult) : MetricResult :=
  {| name := Score.name m; value := Real (Num (Score.value m));
     score := Num (Score.score m); max := Score.max m |}.

Definition of_report (r : Score.ScoreReport) : ScoreReport :=
  {| symbol := Score.symbol r;
     price := Num <$> Score.price r;
     total := Num (Score.total r);
     recommendation := Score.recommendation r;
     rec_emoji := Score.rec_emoji r;
     ROIC := of_metric (Score.ROIC r);
     FCF_Margin := of_metric (Score.FCF_Margin r);
     Growth := of_metric (Score.Growth r);
     Valuation := of_metric (Score.Valuation r) |}.

Definition of_analysis (a : Score.analysis) : analysis :=
  match a with
  | Score.Error msg => Error msg
  | Score.Report r => Report (of_report r)
  end.

End ScoreNaN.

(** ** scripts/fetch_news.py: the cache of fetched news *)

Module FetchNews.

Local Open Scope string_scope.
Local Open Scope Z_scope.

(** A naive local [datetime], as [datetime.now()] and
    [datetime.fromtimestamp] return it. *)
Record datetime : Type := {
  year : Z;
  month : Z;
  day : Z;
  hour : Z;
  minute : Z;
  second : Z;
  microsecond : Z
}.

(** The ranges of the fields of a datetime whose year prints with four
    digits. *)
Definition valid (t : datetime) : Prop :=
  1000 <= year t <= 9999 /\ 1 <= month t <= 12 /\ 1 <= day t <= 31 /\
  0 <= hour t <= 23 /\ 0 <= minute t <= 59 /\ 0 <= second t <= 59 /\
  0 <= microsecond t <= 999999.

(** The proleptic Gregorian ordinal of a date, as the datetime module
    computes it. *)
Definition is_leap (y : Z) : bool :=
  (y mod 4 =? 0) && (negb (y mod 100 =? 0) || (y mod 400 =? 0)).

Definition days_before_year (y : Z) : Z :=
  let y := y - 1 in y * 365 + y / 4 - y / 100 + y / 400.

Definition days_before_month (y m : Z) : Z :=
  nth (Z.to_nat m) [0; 0; 31; 59; 90; 120; 151; 181; 212; 243; 273; 304; 334] 0
  + (if (2 <? m) && is_leap y then 1 else 0).

Definition toordinal (t : datetime) : Z :=
  days_before_year (year t) + days_before_month (year t) (month t) + day t.

(** Microseconds from the start of the calendar to [t]. *)
Definition to_microseconds (t : datetime) : Z :=
  (((toordinal t * 24 + hour t) * 60 + minute t) * 60 + second t) * 1000000
  + microsecond t.

(** [a - b], a [timedelta], in microseconds. *)
Definition minus (a b : datetime) : Z := to_microseconds a - to_microseconds b.

(** [timedelta(minutes=m)] in microseconds. *)
Definition timedelta_minutes (m : Z) : Z := m * 60 * 1000000.

(** Decimal digits and zero-padded fields of [strftime] and [isoformat]. *)
Definition digit (n : Z) : ascii := ascii_of_nat (48 + Z.to_nat n).

Definition pad2 (n : Z) : string :=
  String (digit (n / 10)) (String (digit (n mod 10)) "").

Definition pad4 (n : Z) : string :=
  String (digit (n / 1000)) (String (digit (n / 100 mod 10)) (pad2 (n mod 100))).

Definition pad6 (n : Z) : string :=
  pad2 (n / 10000) ++ pad4 (n mod 10000).

(** [t.strftime('%Y%m%d_%H')]. *)
Definition strftime_hour (t : datetime) : string :=
  pad4 (year t) ++ pad2 (month t) ++ pad2 (day t) ++ "_" ++ pad2 (hour t).

(** [t.isoformat()]. *)
Definition isoformat (t : datetime) : string :=
  pad4 (year t) ++ "-" ++ pad2 (month t) ++ "-" ++ pad2 (day t) ++ "T"
  ++ pad2 (hour t) ++ ":" ++ pad2 (minute t) ++ ":" ++ pad2 (second t)
  ++ (if microsecond t =? 0 then "" else "." ++ pad6 (microsecond t)).

(** JSON values: what [json.dump] writes and [json.load] reads back. *)
#[local] Unset Elimination Schemes.
Inductive json : Type :=
| JNull
| JBool (b : bool)
| JNum (q : Q)
| JStr (s : string)
| JArr (items : list json)
| JObj (members : list (string * json)).
#[local] Set Elimination Schemes.

(** The truth value of a loaded JSON value ([if cached:]). *)
Definition truthy (v : json) : bool :=
  match v with
  | JNull => false
  | JBool b => b
  | JNum q => Py.truthy q
  | JStr s => negb (String.eqb s "")
  | JArr items => negb (Nat.eqb (List.length items) 0)
  | JObj members => negb (Nat.eqb (List.length members) 0)
  end.

(** A file of the cache directory: its modification time and the JSON
    value it holds. The text written by [json.dump] and parsed by
    [json.load] is not modelled: the file holds the value. *)
Record cache_file : Type := {
  st_mtime : datetime;
  content : json
}.

(** [CACHE_DIR / f"{cache_key}.json"], the name of the file of a key. *)
Definition cache_path (cache_key : string) : string := cache_key ++ ".json".

(** [get_cached_news(cache_key)]: get cached news if fresh
    (< 15 minutes). [cache_dir] maps the names of the files of the cache
    directory to the files. *)
Definition get_cached_news (now : datetime) (cache_dir : gmap string cache_file)
    (cache_key : string) : option json :=
  match cache_dir !! cache_path cache_key with
  | Some cache_file =>
      let mtime := st_mtime cache_file in
      if minus now mtime <? timedelta_minutes 15 then Some (content cache_file)
      else None
  | None => None
  end.

(** [save_cache(cache_key, data)]: the file is written at [now]. *)
Definition save_cache (now : datetime) (cache_dir : gmap string cache_file)
    (cache_key : string) (data : json) : gmap string cache_file :=
  <[cache_path cache_key := {| st_mtime := now; content := data |}]> cache_dir.

(** What a call of [fetch_all_news] did: it printed the cached payload,
    or it fetched the feeds anew, saved and printed the news. *)
Inductive outcome : Type :=
| Cached (cached : json)
| Fetched (news : json).

(** The cache key of [fetch_all_news]. *)
Definition all_news_key (now : datetime) : string :=
  "all_news_" ++ strftime_hour now.

(** The dictionary [news] that [fetch_all_news] builds: the time of the
    fetch and, under ['sources'], what the configured RSS feeds
    delivered. *)
Definition make_news (now : datetime) (feeds : list (string * json)) : json :=
  JObj [("fetched_at", JStr (isoformat now)); ("sources", JObj feeds)].

(** [fetch_all_news(args)]: [force] is [args.force], [feeds] is what the
    configured RSS feeds deliver to this call. The result is what the call
    did and the cache directory it leaves. *)
Definition fetch_all_news (force : bool) (now : datetime)
    (feeds : list (string * json)) (cache_dir : gmap string cache_file)
    : outcome * gmap string cache_file :=
  let cache_key := all_news_key now in
  let cached :=
    if negb force then get_cached_news now cache_dir cache_key else None in
  let fetch_and_save :=
    let news := make_news now feeds in
    (Fetched news, save_cache now cache_dir cache_key news) in
  match cached with
  | Some c => if truthy c then (Cached c, cache_dir) else fetch_and_save
  | None => fetch_and_save
  end.

(** *** Feeds, quotes and the news built from them *)

(** [seq[:stop]], with Python's negative [stop]. *)
Definition slice_to {A : Type} (l : list A) (stop : Z) : list A :=
  if 0 <=? stop then firstn (Z.to_nat stop) l
  else firstn (Z.to_nat (Z.of_nat (List.length l) + stop)) l.

(** A Python dictionary with string keys, in insertion order. *)
Definition dict : Type := list (string * json).

(** [d.get(key)] on a dictionary in insertion order. *)
Fixpoint dict_get {V : Type} (key : string) (d : list (string * V)) : option V :=
  match d with
  | [] => None
  | (k, v) :: d' => if String.eqb key k then Some v else dict_get key d'
  end.

(** [d[key] = v]: the value of an existing key is replaced in place, a
    new key is added at the end. *)
Fixpoint dict_set {V : Type} (key : string) (v : V) (d : list (string * V))
    : list (string * V) :=
  match d with
  | [] => [(key, v)]
  | (k, w) :: d' =>
      if String.eqb key k then (k, v) :: d' else (k, w) :: dict_set key v d'
  end.

(** A child of an [<item>] element as [item.find] and [.text] show it:
    no such child, a child without text, or a child with its text. *)
Inductive child : Type :=
| Missing
| NoText
| Text (s : string).

(** An [<item>] element of a feed. *)
Record item : Type := {
  title : child;
  link : child;
  pubDate : child;
  description : child
}.

(** [c.text if c is not None else '']. *)
Definition text_or_empty (c : child) : json :=
  match c with
  | Missing => JStr ""
  | NoText => JNull
  | Text s => JStr s
  end.

(** [(c.text or '')[:200] if c is not None else '']. *)
Definition text_prefix (c : child) : json :=
  match c with
  | Missing => JStr ""
  | NoText => JStr (substring 0 200 "")
  | Text s => JStr (substring 0 200 (if String.eqb s "" then "" else s))
  end.

(** The dictionary [fetch_rss] appends for an item. *)
Definition article_of (i : item) : dict :=
  [("title", text_or_empty (title i));
   ("link", text_or_empty (link i));
   ("date", text_or_empty (pubDate i));
   ("description", text_prefix (description i))].

(** [fetch_rss(url, limit)]: fetch and parse RSS feed. [web url] is the
    list of the [<item>] elements of the document at [url], in document
    order, and [None] when the request or the parser raises; the error is
    printed and the result is the empty list. *)
Definition fetch_rss (web : string -> option (list item)) (url : string)
    (limit : Z) : list dict :=
  match web url with
  | Some items => map article_of (slice_to items limit)
  | None => []
  end.

(** [fetch_ticker_news(symbol, limit)]: news for a specific ticker via
    Yahoo Finance RSS. *)
Definition fetch_ticker_news (web : string -> option (list item))
    (symbol : string) (limit : Z) : list dict :=
  let url := "https://feeds.finance.yahoo.com/rss/2.0/headline?s=" ++ symbol
             ++ "&region=US&lang=en-US" in
  fetch_rss web url limit.

(** [fetch_market_data(symbols)]: [quote symbol] is what running
    [openbb-quote symbol] gives, its return code and standard output, and
    [None] when running it raises; [loads] is [json.loads], [None] when it
    raises. Every exception is printed and the loop goes on. *)
Definition fetch_market_data (quote : string -> option (Z * string))
    (loads : string -> option json) (symbols : list string)
    : gmap string json :=
  fold_left
    (fun results symbol =>
       match quote symbol with
       | Some (returncode, stdout) =>
           if returncode =? 0 then
             match loads stdout with
             | Some data => <[symbol := data]> results
             | None => results
             end
           else results
       | None => results
       end)
    symbols ∅.

(** One market of the configuration: its name, its index symbols and the
    names of the indices. *)
Record market : Type := {
  market_name : string;
  indices : list string;
  index_names : list (string * string)
}.

(** The source configuration that [load_sources] reads: under
    ['rss_feeds'] each source with its feeds (feed name to URL, and the
    display name under ['name']), under ['markets'] each region. *)
Record sources : Type := {
  rss_feeds : list (string * list (string * string));
  markets : list (string * market)
}.

(** The articles of one source in [fetch_all_news]: every feed but the
    entry ['name'] is fetched, and each article is tagged with the name of
    its feed. *)
Definition source_articles (web : string -> option (list item)) (limit : Z)
    (feeds : list (string * string)) : list dict :=
  flat_map
    (fun feed =>
       let '(feed_name, feed_url) := feed in
       if String.eqb feed_name "name" then []
       else map (dict_set "feed" (JStr feed_name)) (fetch_rss web feed_url limit))
    feeds.

(** The value of [news['sources']] that [fetch_all_news] builds from the
    configured feeds. *)
Definition collect_sources (web : string -> option (list item)) (limit : Z)
    (rss_feeds : list (string * list (string * string))) : list (string * json) :=
  fold_left
    (fun news_sources source =>
       let '(source_id, feeds) := source in
       dict_set source_id
         (JObj [("name", JStr (default source_id (dict_get "name" feeds)));
                ("articles", JArr (map JObj (source_articles web limit feeds)))])
         news_sources)
    rss_feeds [].

(** [fetch_all_news(args)] on the configuration: the feeds are those of
    the configured sources, fetched with [args.limit]. *)
Definition fetch_all_news_configured (web : string -> option (list item))
    (config : sources) (force : bool) (limit : Z) (now : datetime)
    (cache_dir : gmap string cache_file) : outcome * gmap string cache_file :=
  fetch_all_news force now (collect_sources web limit (rss_feeds config)) cache_dir.

(** The indices of one market in [fetch_market_news]: an index is listed
    when its quote could be fetched, under its configured name or, without
    one, its symbol. *)
Definition market_indices (quote : string -> option (Z * string))
    (loads : string -> option json) (config : market) : dict :=
  fold_left
    (fun listed symbol =>
       let data := fetch_market_data quote loads [symbol] in
       match data !! symbol with
       | Some d =>
           dict_set symbol
             (JObj [("name", JStr (default symbol (dict_get symbol (index_names config))));
                    ("data", d)])
             listed
       | None => listed
       end)
    (indices config) [].

(** The truth value of an optional string: [None] and [''] are false. *)
Definition nonempty (s : option string) : bool :=
  match s with
  | Some s => negb (String.eqb s "")
  | None => false
  end.

(** [feeds.get('top') or feeds.get('markets') or list(feeds.values())[1]];
    [None] stands for the IndexError of the last alternative. *)
Definition headline_feed (feeds : list (string * string)) : option string :=
  if nonempty (dict_get "top" feeds) then dict_get "top" feeds
  else if nonempty (dict_get "markets" feeds) then dict_get "markets" feeds
  else nth_error (map snd feeds) 1.

(** The headlines of [fetch_market_news]: five articles at most from CNBC
    and from Yahoo, where configured, each tagged with the name of its
    source; [None] when choosing a feed raises. *)
Fixpoint headlines_from (web : string -> option (list item))
    (rss_feeds : list (string * list (string * string)))
    (wanted : list string) (headlines : list dict) : option (list dict) :=
  match wanted with
  | [] => Some headlines
  | source :: rest =>
      match dict_get source rss_feeds with
      | Some feeds =>
          match headline_feed feeds with
          | Some feed_url =>
              let articles := fetch_rss web feed_url 5 in
              let tagged :=
                map (dict_set "source" (JStr (default source (dict_get "name" feeds))))
                  articles in
              headlines_from web rss_feeds rest (headlines ++ tagged)
          | None => None
          end
      | None => headlines_from web rss_feeds rest headlines
      end
  end.

Definition headlines (web : string -> option (list item))
    (rss_feeds : list (string * list (string * string))) : option (list dict) :=
  headlines_from web rss_feeds ["cnbc"; "yahoo"] [].

(** [s.split(',')]. *)
Fixpoint split_commas (s : string) : list string :=
  match s with
  | EmptyString => [""]
  | String c s' =>
      if Ascii.eqb c "," then "" :: split_commas s'
      else match split_commas s' with
           | [] => [String c ""]
           | field :: fields => String c field :: fields
           end
  end.

(** The stocks of [fetch_portfolio_news] for the symbols that the
    portfolio script printed: an empty symbol is skipped, every other one
    gets its quote (an empty object without one) and its articles. *)
Definition portfolio_stocks (web : string -> option (list item))
    (quote : string -> option (Z * string)) (loads : string -> option json)
    (limit : Z) (symbols : list string) : dict :=
  fold_left
    (fun stocks symbol =>
       if String.eqb symbol "" then stocks
       else
         let articles := fetch_ticker_news web symbol limit in
         let quotes := fetch_market_data quote loads [symbol] in
         dict_set symbol
           (JObj [("quote", default (JObj []) (quotes !! symbol));
                  ("articles", JArr (map JObj articles))])
           stocks)
    symbols [].

(** What [fetch_portfolio_news] builds. [portfolio] is the return code
    and the standard output of the portfolio script and [strip] is
    [str.strip]. A return code other than 0 ends the process with status 1
    ([None]); otherwise the result is the number of symbols that the
    header of the text output reports and the stocks. *)
Definition fetch_portfolio_news (strip : string -> string)
    (web : string -> option (list item))
    (quote : string -> option (Z * string)) (loads : string -> option json)
    (limit : Z) (portfolio : Z * string) : option (nat * dict) :=
  let '(returncode, stdout) := portfolio in
  if negb (returncode =? 0) then None
  else
    let symbols := split_commas (strip stdout) in
    Some (List.length symbols, portfolio_stocks web quote loads limit symbols).

End FetchNews.


(** ** scripts/briefing.py *)

Module Briefing.

Local Open Scope string_scope.
Local Open Scope list_scope.
Local Open Scope Z_scope.

(** The process as [ensure_venv] sees it: its environment, [sys.prefix]
    and [sys.base_prefix], its arguments [sys.argv], the path of the
    interpreter of the local venv and whether that file exists. *)
Record process : Type := {
  environ : gmap string string;
  prefix : string;
  base_prefix : string;
  argv : list string;
  venv_python : string;
  venv_python_exists : bool
}.

(** What [ensure_venv] does: return, return after the warning that the
    venv is missing, or replace the process by [path] run with [args] in
    the environment [env]. *)
Inductive venv_action : Type :=
| Proceed
| WarnMissing
| Execvpe (path : string) (args : list string) (env : gmap string string).

(** [ensure_venv()]: re-exec inside local venv if available and not
    already active. *)
Definition ensure_venv (p : process) : venv_action :=
  if decide (environ p !! "FINANCE_NEWS_VENV_BOOTSTRAPPED" = Some "1") then Proceed
  else if negb (String.eqb (prefix p) (base_prefix p)) then Proceed
  else if negb (venv_python_exists p) then WarnMissing
  else
    let env := <["FINANCE_NEWS_VENV_BOOTSTRAPPED" := "1"]> (environ p) in
    Execvpe (venv_python p) (venv_python p :: argv p) env.

(** The parsed command line of [briefing.py]. [time] is [None] when
    [--time] is not given. *)
Record args : Type := {
  time : option string;
  style : string;
  lang : string;
  send : bool;
  group : string;
  json : bool;
  deadline : option Z;
  llm : bool;
  model : string;
  fast : bool;
  debug : bool
}.

(** [str(n)] of an integer. *)
Definition str (n : Z) : string := NilZero.string_of_int (Z.to_int n).

(** The briefing type: [args.time], or by the hour of the clock. *)
Definition briefing_time (a : args) (hour : Z) : string :=
  if FetchNews.nonempty (time a) then default "" (time a)
  else if hour <? 12 then "morning" else "evening".

(** The command that generates the briefing. [executable] is
    [sys.executable] and [script] the path of [summarize.py]. *)
Definition summarize_cmd (executable script : string) (a : args)
    (briefing_time : string) : list string :=
  let cmd := [executable; script;
              "--time"; briefing_time;
              "--style"; style a;
              "--lang"; lang a] in
  let cmd :=
    match deadline a with
    | Some d => cmd ++ ["--deadline"; str d]
    | None => cmd
    end in
  let cmd := if fast a then cmd ++ ["--fast"] else cmd in
  let cmd := if llm a then (cmd ++ ["--llm"]) ++ ["--model"; model a] else cmd in
  let cmd := if debug a then cmd ++ ["--debug"] else cmd in
  let cmd := if json a then cmd ++ ["--json"] else cmd in
  cmd.

(** The timeout of the subprocess, in seconds. *)
Definition subprocess_timeout (a : args) : Z :=
  let timeout := match deadline a with Some d => d | None => 300 end in
  let timeout := Z.max 1 timeout in
  match deadline a with
  | Some _ => timeout + 5
  | None => timeout
  end.

(** How [subprocess.run] ends: it raises (the timeout expired, or the
    program could not be started), or the program ran to its end. *)
Inductive completed : Type :=
| RunRaises
| Completed (returncode : Z) (stdout stderr : string).

(** How [generate_and_send] ends: an exception goes up to the caller,
    the process exits with a status, or the briefing is returned. *)
Inductive ending : Type :=
| Raised
| Exit (status : Z)
| Returned (briefing : string).

(** What [generate_and_send] did besides: what it printed to standard
    output, and the message and group it called [send_to_whatsapp]
    with. *)
Record effects : Type := {
  printed : option string;
  sent : option (FetchNews.json * string)
}.

(** What [json.loads] does with a text: it returns the parsed value, it
    raises JSONDecodeError, or it raises another exception (a plain
    ValueError for an integer of too many digits, a RecursionError for
    too deep a nesting). *)
Inductive loaded : Type :=
| Loaded (v : FetchNews.json)
| JSONDecodeError
| OtherError.

(** [generate_and_send(args)] after the subprocess has ended with [run];
    [strip] is [str.strip] and [loads] is [json.loads]. Of the exceptions
    of the send block only JSONDecodeError is caught. *)
Definition generate_and_send (strip : string -> string)
    (loads : string -> loaded) (a : args) (run : completed)
    : ending * effects :=
  match run with
  | RunRaises => (Raised, {| printed := None; sent := None |})
  | Completed returncode stdout stderr =>
      if negb (returncode =? 0) then (Exit 1, {| printed := None; sent := None |})
      else
        let briefing := strip stdout in
        if send a && negb (String.eqb (group a) "") then
          if json a then
            match loads briefing with
            | Loaded (FetchNews.JObj data) =>
                let message := default (FetchNews.JStr "") (FetchNews.dict_get "summary" data) in
                if FetchNews.truthy message then
                  (Returned briefing,
                   {| printed := Some briefing; sent := Some (message, group a) |})
                else
                  (Returned briefing, {| printed := Some briefing; sent := None |})
            | Loaded _ => (Raised, {| printed := Some briefing; sent := None |})
            | JSONDecodeError =>
                (Returned briefing, {| printed := Some briefing; sent := None |})
            | OtherError => (Raised, {| printed := Some briefing; sent := None |})
            end
          else
            (Returned briefing,
             {| printed := Some briefing;
                sent := Some (FetchNews.JStr briefing, group a) |})
        else (Returned briefing, {| printed := Some briefing; sent := None |})
  end.

(** [send_to_whatsapp(message, group_name)]: [clawdbot] is the return
    code of the message tool, [None] when running it raises. The result is
    whether the message was sent. *)
Definition send_to_whatsapp (clawdbot : option Z) : bool :=
  match clawdbot with
  | Some returncode => returncode =? 0
  | None => false
  end.

End Briefing.

(** ** Sample data *)

Module Examples.

Import Score.
Local Open Scope Q_scope.
Local Open Scope string_scope.

(** Four annual periods, most recent first. *)
Definition periods : list string := ["2023"; "2022"; "2021"; "2020"].

(** An income statement whose revenue grew from 100 to 800. *)
Definition income : DataFrame :=
  {| columns := periods;
     rows := [("Total Revenue", [800; 400; 200; 100]);
              ("Ebit", [200; 90; 40; 20]);
              ("Tax Provision", [40; 18; 8; 4]);
              ("Pretax Income", [200; 90; 40; 20])] |}.

Definition balance : DataFrame :=
  {| columns := periods;
     rows := [("Total Assets", [1000; 900; 800; 700]);
              ("Current Liabilities", [200; 200; 200; 200])] |}.

(** A cash-flow statement with both rows of the free cash flow, which
    grew eightfold, from 17.5 to 140. *)
Definition cash_flow : DataFrame :=
  {| columns := periods;
     rows := [("Operating Cash Flow", [150; 120; 100; 27.5]);
              ("Capital Expenditure", [-10; -10; -10; -10])] |}.

(** A cash-flow statement whose operating cash flow fell below the
    capital expenditure three periods back. *)
Definition cash_flow_negative_base : DataFrame :=
  {| columns := periods;
     rows := [("Operating Cash Flow", [150; 120; 100; 5]);
              ("Capital Expenditure", [-10; -10; -10; -10])] |}.

(** A cash-flow statement without the row "Operating Cash Flow". *)
Definition cash_flow_no_ocf : DataFrame :=
  {| columns := periods;
     rows := [("Capital Expenditure", [-10; -10; -10; -10])] |}.

(** A statement with two periods only. *)
Definition income_two_periods : DataFrame :=
  {| columns := ["2023"; "2022"];
     rows := [("Total Revenue", [800; 400])] |}.

(** A statement without columns. *)
Definition no_statement : DataFrame := {| columns := []; rows := [] |}.

Definition quote : gmap string Q :=
  <["marketCap" := 10000]> (<["currentPrice" := 50]> ∅).

Definition stock : Ticker :=
  {| financials := income; balance_sheet := balance;
     cashflow := cash_flow; info := quote |}.

Definition stock_negative_base : Ticker :=
  {| financials := income; balance_sheet := balance;
     cashflow := cash_flow_negative_base; info := quote |}.

Definition stock_no_ocf : Ticker :=
  {| financials := income; balance_sheet := balance;
     cashflow := cash_flow_no_ocf; info := quote |}.

Definition stock_no_balance : Ticker :=
  {| financials := income; balance_sheet := no_statement;
     cashflow := cash_flow; info := quote |}.

(** A provider that knows three symbols: one with data, one whose fetch
    raises, one without balance sheet. *)
Definition provider (ticker_symbol : string) : provided :=
  if String.eqb ticker_symbol "GOOD" then Provided stock
  else if String.eqb ticker_symbol "NOBAL" then Provided stock_no_balance
  else FetchRaises "HTTP Error 404".

(** A stand-in for the float power [x ** (1/3)]: exact on the cubes of
    0, 1, 2 and 3, the identity elsewhere. *)
Definition cube_root (x : Q) : Q :=
  if Py.eq x 0 then 0
  else if Py.eq x 1 then 1
  else if Py.eq x 8 then 2
  else if Py.eq x 27 then 3
  else x.

(** Clock readings of one morning. *)
Definition at_time (h m s : Z) : FetchNews.datetime :=
  {| FetchNews.year := 2024; FetchNews.month := 3; FetchNews.day := 1;
     FetchNews.hour := h; FetchNews.minute := m; FetchNews.second := s;
     FetchNews.microsecond := 0 |}.

(** What a feed delivers: one source with one article. *)
Definition feeds (title : string) : list (string * FetchNews.json) :=
  [("cnbc",
    FetchNews.JObj
      [("name", FetchNews.JStr "CNBC");
       ("articles",
        FetchNews.JArr [FetchNews.JObj [("title", FetchNews.JStr title)]])])].

(** A description of 250 characters. *)
Definition long_text : string :=
  String.concat "" (repeat "0123456789" 25).

(** A feed of three items: a complete one with a long description, one
    with an empty title and no link, one with a title only. *)
Definition feed_items : list FetchNews.item :=
  [ {| FetchNews.title := FetchNews.Text "Stocks rally";
       FetchNews.link := FetchNews.Text "https://example.com/1";
       FetchNews.pubDate := FetchNews.Text "Fri, 01 Mar 2024 10:00:00 GMT";
       FetchNews.description := FetchNews.Text long_text |};
    {| FetchNews.title := FetchNews.NoText;
       FetchNews.link := FetchNews.Missing;
       FetchNews.pubDate := FetchNews.Text "Fri, 01 Mar 2024 09:00:00 GMT";
       FetchNews.description := FetchNews.NoText |};
    {| FetchNews.title := FetchNews.Text "Bonds slip";
       FetchNews.link := FetchNews.Missing;
       FetchNews.pubDate := FetchNews.Missing;
       FetchNews.description := FetchNews.Missing |} ].

(** The web: one feed that answers, every other request fails. *)
Definition web (url : string) : option (list FetchNews.item) :=
  if String.eqb url "https://example.com/top.xml" then Some feed_items
  else None.

(** The quote tool: two symbols with a quote, one that ends with code 1;
    running it for any other symbol raises. *)
Definition quote_tool (symbol : string) : option (Z * string) :=
  if String.eqb symbol "^GSPC" then Some (0%Z, "5000")
  else if String.eqb symbol "AAPL" then Some (0%Z, "190")
  else if String.eqb symbol "^DJI" then Some (1%Z, "")
  else None.

(** [json.loads] on the outputs of the quote tool. *)
Definition loads (s : string) : option FetchNews.json :=
  if String.eqb s "5000" then Some (FetchNews.JNum 5000)
  else if String.eqb s "190" then Some (FetchNews.JNum 190)
  else None.

(** The feeds of two sources. *)
Definition cnbc_feeds : list (string * string) :=
  [("name", "CNBC"); ("top", "https://example.com/top.xml");
   ("world", "https://example.com/world.xml")].

Definition yahoo_feeds : list (string * string) :=
  [("name", "Yahoo Finance"); ("markets", "https://example.com/markets.xml")].

Definition us_market : FetchNews.market :=
  {| FetchNews.market_name := "US Markets";
     FetchNews.indices := ["^GSPC"; "^DJI"];
     FetchNews.index_names := [("^GSPC", "S&P 500")] |}.

Definition config : FetchNews.sources :=
  {| FetchNews.rss_feeds := [("cnbc", cnbc_feeds); ("yahoo", yahoo_feeds)];
     FetchNews.markets := [("us", us_market)] |}.

(** [str.strip] on the sample outputs, which have no blanks around
    them. *)
Definition strip (s : string) : string := s.

(** The command line of [briefing.py] without options. *)
Definition plain_args : Briefing.args :=
  {| Briefing.time := None; Briefing.style := "briefing";
     Briefing.lang := "en"; Briefing.send := false;
     Briefing.group := "120363421796203667@g.us"; Briefing.json := false;
     Briefing.deadline := None; Briefing.llm := false;
     Briefing.model := "claude"; Briefing.fast := false;
     Briefing.debug := false |}.

(** [--send --json --llm --model gemini --deadline 20]. *)
Definition send_json_args : Briefing.args :=
  {| Briefing.time := None; Briefing.style := "briefing";
     Briefing.lang := "en"; Briefing.send := true;
     Briefing.group := "120363421796203667@g.us"; Briefing.json := true;
     Briefing.deadline := Some 20%Z; Briefing.llm := true;
     Briefing.model := "gemini"; Briefing.fast := false;
     Briefing.debug := false |}.

(** [json.loads] on three outputs of the generator: an object with a
    summary, a number, and a nesting too deep to parse. *)
Definition loads_briefing (s : string) : Briefing.loaded :=
  if String.eqb s "BRIEFING" then
    Briefing.Loaded (FetchNews.JObj [("summary", FetchNews.JStr "Markets up")])
  else if String.eqb s "42" then Briefing.Loaded (FetchNews.JNum 42)
  else if String.eqb s "DEEP" then Briefing.OtherError
  else Briefing.JSONDecodeError.

(** A process outside a virtual environment, with the venv in place. *)
Definition fresh_process : Briefing.process :=
  {| Briefing.environ := <["HOME" := "/home/user"]> ∅;
     Briefing.prefix := "/usr";
     Briefing.base_prefix := "/usr";
     Briefing.argv := ["briefing.py"; "--send"];
     Briefing.venv_python := "/repo/venv/bin/python3";
     Briefing.venv_python_exists := true |}.


(** *** Statements with missing values *)

(** [x ** (1/3)] on numpy's floats: NaN for a negative base. *)
Definition cube_root_numpy (x : Q) : Float.number :=
  if Py.lt x 0 then Float.Real Float.NaN
  else Float.Real (Float.Num (cube_root x)).

(** [x ** (1/3)] on Python's floats: complex for a negative base. *)
Definition cube_root_python (x : Q) : Float.number :=
  if Py.lt x 0 then Float.Complex else Float.Real (Float.Num (cube_root x)).

(** A balance sheet whose latest total assets are missing. *)
Definition balance_gap : ScoreNaN.DataFrame :=
  {| ScoreNaN.columns := periods;
     ScoreNaN.rows :=
       [("Total Assets", Float.NaN :: map Float.Num [900; 800; 700]);
        ("Current Liabilities", map Float.Num [200; 200; 200; 200])] |}.

(** An income statement whose latest revenue is negative. *)
Definition income_negative : ScoreNaN.DataFrame :=
  {| ScoreNaN.columns := periods;
     ScoreNaN.rows :=
       [("Total Revenue", map Float.Num [-800; 400; 200; 100]);
        ("Ebit", map Float.Num [200; 90; 40; 20]);
        ("Tax Provision", map Float.Num [40; 18; 8; 4]);
        ("Pretax Income", map Float.Num [200; 90; 40; 20])] |}.

(** An income statement without operating income whose latest tax
    provision is missing. *)
Definition income_tax_gap : ScoreNaN.DataFrame :=
  {| ScoreNaN.columns := periods;
     ScoreNaN.rows :=
       [("Total Revenue", map Float.Num [800; 400; 200; 100]);
        ("Tax Provision", Float.NaN :: map Float.Num [18; 8; 4]);
        ("Pretax Income", map Float.Num [200; 90; 40; 20])] |}.

Definition stock_gap : ScoreNaN.Ticker :=
  {| ScoreNaN.financials := ScoreNaN.of_frame income;
     ScoreNaN.balance_sheet := balance_gap;
     ScoreNaN.cashflow := ScoreNaN.of_frame cash_flow;
     ScoreNaN.info := Float.Num <$> quote |}.

Definition stock_negative_revenue : ScoreNaN.Ticker :=
  {| ScoreNaN.financials := income_negative;
     ScoreNaN.balance_sheet := ScoreNaN.of_frame balance;
     ScoreNaN.cashflow := ScoreNaN.of_frame cash_flow_negative_base;
     ScoreNaN.info := Float.Num <$> quote |}.

(** A provider of the sample symbols of [provider], of "GAP" with the
    missing total assets and of "LOSS" with the negative revenue. *)
Definition provider_gap (ticker_symbol : string) : ScoreNaN.provided :=
  if String.eqb ticker_symbol "GAP" then ScoreNaN.Provided stock_gap
  else if String.eqb ticker_symbol "LOSS"
       then ScoreNaN.Provided stock_negative_revenue
  else ScoreNaN.of_provided (provider ticker_symbol).
End Examples.

(* ================================================================== *)
(** * Part II: properties                                              *)
(* ================================================================== *)

(** ** Numbers *)

Section PyFacts.

Local Open Scope Q_scope.

Lemma ge_true (a b : Q) : Py.ge a b = true <-> b <= a.
Proof. unfold Py.ge. apply Qle_bool_iff. Qed.

Lemma ge_false (a b : Q) : Py.ge a b = false <-> a < b.
Proof.
  unfold Py.ge. split; intros H.
  - apply Qnot_le_lt. intros Hle. apply Qle_bool_iff in Hle. congruence.
  - apply not_true_is_false. intros Hle. apply Qle_bool_iff in Hle. lra.
Qed.

Lemma le_true (a b : Q) : Py.le a b = true <-> a <= b.
Proof. unfold Py.le. apply Qle_bool_iff. Qed.

Lemma le_false (a b : Q) : Py.le a b = false <-> b < a.
Proof. apply (ge_false b a). Qed.

Lemma gt_true (a b : Q) : Py.gt a b = true <-> b < a.
Proof.
  unfold Py.gt. rewrite negb_true_iff. apply (ge_false b a).
Qed.

Lemma gt_false (a b : Q) : Py.gt a b = false <-> a <= b.
Proof.
  unfold Py.gt. rewrite negb_false_iff. apply Qle_bool_iff.
Qed.

Lemma lt_true (a b : Q) : Py.lt a b = true <-> a < b.
Proof. apply (gt_true b a). Qed.

Lemma lt_false (a b : Q) : Py.lt a b = false <-> b <= a.
Proof. apply (gt_false b a). Qed.

Lemma truthy_true (x : Q) : Py.truthy x = true <-> ~ x == 0.
Proof.
  unfold Py.truthy. rewrite negb_true_iff. split; intros H.
  - intros Heq. apply Qeq_bool_iff in Heq. congruence.
  - apply not_true_is_false. intros Heq. apply Qeq_bool_iff in Heq. tauto.
Qed.

(** [int] truncates toward zero: below one it is at most zero, and on
    [0 <= x < 1] it is zero. *)
Lemma int_below_one (x : Q) : x < 1 -> (Py.int x <= 0)%Z.
Proof.
  destruct x as [n d]. unfold Qlt, Py.int. simpl. intros H.
  destruct (Z_lt_le_dec n 0) as [Hneg | Hpos].
  - replace n with (- (- n))%Z by lia.
    rewrite Z.quot_opp_l by lia.
    assert (0 <= - n ÷ Z.pos d)%Z by (apply Z.quot_pos; lia).
    lia.
  - rewrite Z.quot_small by lia. lia.
Qed.

Lemma int_unit_interval (x : Q) : 0 <= x -> x < 1 -> Py.int x = 0%Z.
Proof.
  destruct x as [n d]. unfold Qle, Qlt, Py.int. simpl. intros H0 H1.
  apply Z.quot_small. lia.
Qed.

Lemma int_nonpositive (x : Q) : x <= 0 -> (Py.int x <= 0)%Z.
Proof. intros H. apply int_below_one. lra. Qed.

(** [int] gives the same integer for equal rationals, whatever their
    fractions. *)
Lemma int_compat (x y : Q) : x == y -> Py.int x = Py.int y.
Proof.
  destruct x as [n d], y as [m e]. unfold Qeq, Py.int. simpl. intros H.
  rewrite <- (Z.quot_mul_cancel_r n (Z.pos d) (Z.pos e)) by lia.
  rewrite <- (Z.quot_mul_cancel_r m (Z.pos e) (Z.pos d)) by lia.
  rewrite H. f_equal. lia.
Qed.

Lemma int_inject_Z (z : Z) : Py.int (inject_Z z) = z.
Proof. unfold Py.int. simpl. apply Z.quot_1_r. Qed.

Lemma int_nonneg_floor (x : Q) : 0 <= x -> Py.int x = Qfloor x.
Proof.
  destruct x as [n d]. unfold Qle, Py.int, Qfloor. simpl. intros H.
  apply Z.quot_div_nonneg; lia.
Qed.

Lemma int_neg_floor (x : Q) : x <= 0 -> Py.int x = (- Qfloor (- x))%Z.
Proof.
  destruct x as [n d]. unfold Qle, Py.int, Qfloor, Qopp. simpl. intros H.
  replace n with (- (- n))%Z at 1 by lia.
  rewrite Z.quot_opp_l by lia. f_equal.
  apply Z.quot_div_nonneg; lia.
Qed.

(** [int] is monotonic. *)
Lemma int_monotone (x y : Q) : x <= y -> (Py.int x <= Py.int y)%Z.
Proof.
  intros Hxy.
  destruct (Qlt_le_dec x 0) as [Hx | Hx]; destruct (Qlt_le_dec y 0) as [Hy | Hy].
  - rewrite !int_neg_floor by lra.
    assert (Qfloor (- y) <= Qfloor (- x))%Z by (apply Qfloor_resp_le; lra). lia.
  - rewrite (int_neg_floor x), (int_nonneg_floor y) by lra.
    assert (0 <= Qfloor y)%Z by (rewrite <- (Qfloor_Z 0); now apply Qfloor_resp_le).
    assert (0 <= Qfloor (- x))%Z
      by (rewrite <- (Qfloor_Z 0); apply Qfloor_resp_le;
          change (inject_Z 0) with 0; lra).
    lia.
  - lra.
  - rewrite !int_nonneg_floor by lra. now apply Qfloor_resp_le.
Qed.

(** At one or above, [int] is the number of whole units. *)
Lemma int_whole_units (x : Q) :
  1 <= x -> (1 <= Py.int x)%Z /\ inject_Z (Py.int x) <= x < inject_Z (Py.int x) + 1.
Proof.
  intros Hx. rewrite int_nonneg_floor by lra. split.
  - rewrite <- (Qfloor_Z 1). now apply Qfloor_resp_le.
  - pose proof (Qfloor_le x) as Hlo. pose proof (Qlt_floor x) as Hhi.
    rewrite inject_Z_plus in Hhi. change (inject_Z 1) with 1 in Hhi.
    split; assumption.
Qed.

End PyFacts.

(** ** scripts/utils.py *)

Section UtilsSpec.

Import Utils.
Local Open Scope Q_scope.

Lemma time_left_bounded (now d : Q) :
  time_left now (Some d) = Some (Py.int (d - now)).
Proof. reflexivity. Qed.

(** C3, amended. [clamp_timeout]: an unbounded deadline returns
    [default_timeout] unchanged. With a bounded deadline the remaining
    time is counted in whole seconds, truncated: with less than one
    second to the deadline the count is zero or less and the
    deadline-exceeded [TimeoutError] is raised; with one second or more
    the result is [max(min(default_timeout, remaining), minimum)] for the
    whole seconds [remaining] left, which is never below [minimum],
    whatever the remaining budget. *)
Theorem clamp_timeout_spec (now : Q) (default_timeout minimum : Z) :
  clamp_timeout now default_timeout None minimum = Py.Return default_timeout
  /\ (forall d : Q, d - now < 1 ->
        clamp_timeout now default_timeout (Some d) minimum
        = Py.Raise (Py.TimeoutError "Deadline exceeded"))
  /\ (forall d : Q, 1 <= d - now ->
        exists remaining : Z,
          time_left now (Some d) = Some remaining
          /\ (1 <= remaining)%Z
          /\ inject_Z remaining <= d - now < inject_Z remaining + 1
          /\ clamp_timeout now default_timeout (Some d) minimum
             = Py.Return (Z.max (Z.min default_timeout remaining) minimum)
          /\ (minimum <= Z.max (Z.min default_timeout remaining) minimum)%Z
          /\ ((remaining < minimum)%Z ->
              clamp_timeout now default_timeout (Some d) minimum
              = Py.Return minimum))
  /\ (forall (d : Q) (remaining : Z),
        time_left now (Some d) = Some remaining ->
        ((remaining <= 0)%Z ->
           clamp_timeout now default_timeout (Some d) minimum
           = Py.Raise (Py.TimeoutError "Deadline exceeded"))
        /\ ((0 < remaining)%Z ->
           clamp_timeout now default_timeout (Some d) minimum
           = Py.Return (Z.max (Z.min default_timeout remaining) minimum)
           /\ (minimum <= Z.max (Z.min default_timeout remaining) minimum)%Z
           /\ ((remaining < minimum)%Z ->
               clamp_timeout now default_timeout (Some d) minimum
               = Py.Return minimum))).
Proof.
  assert (Hcount : forall (d : Q) (remaining : Z),
            time_left now (Some d) = Some remaining ->
            ((remaining <= 0)%Z ->
               clamp_timeout now default_timeout (Some d) minimum
               = Py.Raise (Py.TimeoutError "Deadline exceeded"))
            /\ ((0 < remaining)%Z ->
               clamp_timeout now default_timeout (Some d) minimum
               = Py.Return (Z.max (Z.min default_timeout remaining) minimum)
               /\ (minimum <= Z.max (Z.min default_timeout remaining) minimum)%Z
               /\ ((remaining < minimum)%Z ->
                   clamp_timeout now default_timeout (Some d) minimum
                   = Py.Return minimum))).
  { intros d remaining Hleft. unfold clamp_timeout. rewrite Hleft. split.
    - intros Hle. apply Z.leb_le in Hle. now rewrite Hle.
    - intros Hpos. apply Z.leb_gt in Hpos. rewrite Hpos.
      split; [reflexivity | split; [apply Z.le_max_r |]].
      intros Hmin. f_equal. lia. }
  split; [reflexivity | split; [| split; [| exact Hcount]]].
  - intros d Hd.
    destruct (Hcount d (Py.int (d - now)) (time_left_bounded now d)) as [Hraise _].
    apply Hraise. now apply int_below_one.
  - intros d Hd. exists (Py.int (d - now)).
    destruct (int_whole_units (d - now) Hd) as [Hone Hwhole].
    destruct (Hcount d (Py.int (d - now)) (time_left_bounded now d)) as [_ Hreturn].
    destruct Hreturn as (Hclamp & Hmin & Hfloor); [lia |].
    repeat split; try assumption; apply Hwhole.
Qed.

(** A deadline 2.5 s away: a default of 30 s shrinks to the 2 whole
    seconds left, and a minimum of 5 s wins over them. At the deadline
    the call raises. *)
Lemma clamp_timeout_spec_witness :
  clamp_timeout 0 30 (Some 2.5) 1 = Py.Return 2%Z
  /\ clamp_timeout 0 30 (Some 2.5) 5 = Py.Return 5%Z
  /\ clamp_timeout 7 30 (Some 7) 1 = Py.Raise (Py.TimeoutError "Deadline exceeded").
Proof.
  assert (Hmore : 1 <= 2.5 - 0) by (vm_compute; discriminate).
  assert (Hless : 7 - 7 < 1) by reflexivity.
  destruct (clamp_timeout_spec 0 30 1) as (_ & _ & H1 & _).
  destruct (clamp_timeout_spec 0 30 5) as (_ & _ & H5 & _).
  destruct (clamp_timeout_spec 7 30 1) as (_ & H7 & _).
  destruct (H1 2.5 Hmore) as (r1 & Hleft1 & _ & _ & Hshrink & _).
  destruct (H5 2.5 Hmore) as (r5 & Hleft5 & _ & _ & _ & _ & Hfloor).
  injection Hleft1 as <-. injection Hleft5 as <-.
  split; [exact Hshrink | split; [apply Hfloor; reflexivity | exact (H7 7 Hless)]].
Defined.

(** C3, as stated, fails in the last second before the deadline: with
    half a second left, a remaining time above 0, the call does not
    return [max(min(30, remaining), 1)] but raises. *)
Lemma clamp_timeout_raises_with_time_left :
  0 < 0.5 - 0
  /\ clamp_timeout 0 30 (Some 0.5) 1
     = Py.Raise (Py.TimeoutError "Deadline exceeded")
  /\ (forall t : Z, clamp_timeout 0 30 (Some 0.5) 1 <> Py.Return t).
Proof.
  split; [reflexivity | split; [reflexivity | discriminate]].
Qed.

(** C10. [time_left] truncates the remaining time to whole seconds, so
    with less than one second to a bounded deadline [clamp_timeout]
    raises the deadline-exceeded error, also when the deadline has not
    passed yet: the remaining time is then reported as 0. *)
Theorem clamp_timeout_last_second (now d : Q) (default_timeout minimum : Z) :
  d - now < 1 ->
  clamp_timeout now default_timeout (Some d) minimum
  = Py.Raise (Py.TimeoutError "Deadline exceeded")
  /\ (now < d -> time_left now (Some d) = Some 0%Z).
Proof.
  intros Hlt. split.
  - unfold clamp_timeout. rewrite time_left_bounded.
    pose proof (int_below_one _ Hlt) as Hle.
    apply Z.leb_le in Hle. now rewrite Hle.
  - intros Hnow. rewrite time_left_bounded. f_equal.
    apply int_unit_interval; lra.
Qed.

(** Half a second before the deadline. *)
Lemma clamp_timeout_last_second_witness :
  clamp_timeout 10 30 (Some 10.5) 1
  = Py.Raise (Py.TimeoutError "Deadline exceeded")
  /\ time_left 10 (Some 10.5) = Some 0%Z.
Proof.
  assert (H : 10.5 - 10 < 1) by (vm_compute; reflexivity).
  destruct (clamp_timeout_last_second 10 10.5 30 1 H) as [Hraise Hleft].
  split; [exact Hraise | apply Hleft; vm_compute; reflexivity].
Defined.

End UtilsSpec.

(** ** scripts/score.py: the scoring primitive *)

Section CalculateScoreSpec.

Import Score.
Local Open Scope Q_scope.

Variables min_val max_val : Q.
Hypothesis bounds : min_val < max_val.

(** The three branches. *)
Lemma calculate_score_top (val max_points : Q) :
  max_val <= val -> calculate_score val min_val max_val max_points = max_points.
Proof.
  intros H. unfold calculate_score. apply ge_true in H. now rewrite H.
Qed.

Lemma calculate_score_bottom (val max_points : Q) :
  val <= min_val -> calculate_score val min_val max_val max_points = 0.
Proof.
  intros H. unfold calculate_score.
  assert (Hge : Py.ge val max_val = false) by (apply ge_false; lra).
  apply le_true in H. now rewrite Hge, H.
Qed.

Lemma calculate_score_between (val max_points : Q) :
  min_val < val < max_val ->
  calculate_score val min_val max_val max_points
  = (val - min_val) / (max_val - min_val) * max_points.
Proof.
  intros [Hlo Hhi]. unfold calculate_score.
  apply ge_false in Hhi. apply le_false in Hlo. now rewrite Hhi, Hlo.
Qed.

(** The score is the weight times the fraction of the way from the floor
    to the ceiling, the fraction being cut to [0, 1]. *)
Local Abbreviation fraction val := (calculate_score val min_val max_val 1).

Lemma calculate_score_fraction (val max_points : Q) :
  calculate_score val min_val max_val max_points == max_points * fraction val.
Proof.
  destruct (Qlt_le_dec val max_val) as [Hhi | Hhi].
  - destruct (Qlt_le_dec min_val val) as [Hlo | Hlo].
    + rewrite !calculate_score_between by (split; assumption). ring.
    + rewrite !calculate_score_bottom by assumption. ring.
  - rewrite !calculate_score_top by assumption. ring.
Qed.

Lemma width_inverse : (max_val - min_val) * / (max_val - min_val) == 1.
Proof. apply Qmult_inv_r. lra. Qed.

Lemma width_inverse_pos : 0 < / (max_val - min_val).
Proof. apply Qinv_lt_0_compat. lra. Qed.

Lemma fraction_range (val : Q) : 0 <= fraction val <= 1.
Proof.
  pose proof width_inverse as Hinv. pose proof width_inverse_pos as Hpos.
  destruct (Qlt_le_dec val max_val) as [Hhi | Hhi].
  - destruct (Qlt_le_dec min_val val) as [Hlo | Hlo].
    + rewrite calculate_score_between by (split; assumption).
      unfold Qdiv. set (s := / (max_val - min_val)) in *. nra.
    + rewrite calculate_score_bottom by assumption. lra.
  - rewrite calculate_score_top by assumption. lra.
Qed.

(** Between two values the fraction grows, and by no more than the
    slope [1 / (max_val - min_val)] allows. *)
Lemma fraction_slope (v1 v2 : Q) :
  v1 <= v2 ->
  0 <= fraction v2 - fraction v1
  /\ (fraction v2 - fraction v1) * (max_val - min_val) <= v2 - v1.
Proof.
  intros Hle.
  pose proof width_inverse as Hinv. pose proof width_inverse_pos as Hpos.
  destruct (Qlt_le_dec v1 max_val) as [Hhi1 | Hhi1];
    destruct (Qlt_le_dec v2 max_val) as [Hhi2 | Hhi2];
    destruct (Qlt_le_dec min_val v1) as [Hlo1 | Hlo1];
    destruct (Qlt_le_dec min_val v2) as [Hlo2 | Hlo2];
    try lra;
    repeat first
      [ rewrite (calculate_score_top v1) by assumption
      | rewrite (calculate_score_top v2) by assumption
      | rewrite (calculate_score_bottom v1) by assumption
      | rewrite (calculate_score_bottom v2) by assumption
      | rewrite (calculate_score_between v1) by (split; assumption)
      | rewrite (calculate_score_between v2) by (split; assumption) ];
    unfold Qdiv; set (s := / (max_val - min_val)) in *;
    split; nra.
Qed.

Lemma calculate_score_range (val max_points : Q) :
  0 <= max_points ->
  0 <= calculate_score val min_val max_val max_points <= max_points.
Proof.
  intros Hw. rewrite calculate_score_fraction.
  pose proof (fraction_range val). nra.
Qed.

Lemma calculate_score_monotone (max_points v1 v2 : Q) :
  0 <= max_points -> v1 <= v2 ->
  calculate_score v1 min_val max_val max_points
  <= calculate_score v2 min_val max_val max_points.
Proof.
  intros Hw Hle. rewrite (calculate_score_fraction v1), (calculate_score_fraction v2).
  destruct (fraction_slope v1 v2 Hle) as [Hup _]. nra.
Qed.

(** The score moves by at most [|max_points| / (max_val - min_val)] per
    unit of the value. *)
Lemma calculate_score_lipschitz (max_points v1 v2 : Q) :
  Qabs (calculate_score v2 min_val max_val max_points
        - calculate_score v1 min_val max_val max_points)
  * (max_val - min_val)
  <= Qabs max_points * Qabs (v2 - v1).
Proof.
  assert (Hordered : forall a b, a <= b ->
    Qabs (calculate_score b min_val max_val max_points
          - calculate_score a min_val max_val max_points)
    * (max_val - min_val) <= Qabs max_points * (b - a)).
  { intros a b Hab.
    destruct (fraction_slope a b Hab) as [Hup Hslope].
    assert (Hd : calculate_score b min_val max_val max_points
                 - calculate_score a min_val max_val max_points
                 == max_points * (fraction b - fraction a)).
    { rewrite (calculate_score_fraction a), (calculate_score_fraction b). ring. }
    rewrite Hd, Qabs_Qmult, (Qabs_pos (fraction b - fraction a)) by assumption.
    pose proof (Qabs_nonneg max_points). nra. }
  destruct (Qlt_le_dec v2 v1) as [Hlt | Hle].
  - rewrite Qabs_Qminus, (Qabs_Qminus v2 v1).
    rewrite (Qabs_pos (v1 - v2)) by lra. apply Hordered. lra.
  - rewrite (Qabs_pos (v2 - v1)) by lra. now apply Hordered.
Qed.

Lemma calculate_score_continuous (max_points val eps : Q) :
  0 < eps ->
  exists delta, 0 < delta /\
    forall val', Qabs (val' - val) < delta ->
      Qabs (calculate_score val' min_val max_val max_points
            - calculate_score val min_val max_val max_points) < eps.
Proof.
  intros Heps.
  pose proof (Qabs_nonneg max_points) as Hw.
  set (delta := eps * (max_val - min_val) / (Qabs max_points + 1)).
  assert (Hdelta : delta * (Qabs max_points + 1) == eps * (max_val - min_val)).
  { unfold delta. field. lra. }
  exists delta. split.
  - unfold delta. apply Qlt_shift_div_l; [lra | nra].
  - intros val' Hnear.
    pose proof (calculate_score_lipschitz max_points val val') as Hlip.
    pose proof (Qabs_nonneg (val' - val)) as Hd.
    set (S := Qabs (calculate_score val' min_val max_val max_points
                    - calculate_score val min_val max_val max_points)) in *.
    set (D := Qabs (val' - val)) in *.
    set (A := Qabs max_points) in *.
    assert (H1 : D * (A + 1) < delta * (A + 1)) by nra.
    apply Qnot_le_lt. intros Hcontra. nra.
Qed.

(** C2, amended. With [min_val < max_val], [calculate_score] is
    [max_points] from the ceiling upwards, 0 up to the floor and the linear
    interpolation [(val - min_val) / (max_val - min_val) * max_points]
    strictly between them; the interpolation meets both constants at the
    bounds and the score is continuous in [val]; and when
    [max_points] is not negative the score is monotonic non-decreasing in
    [val]. *)
Theorem calculate_score_spec (max_points : Q) :
  (forall val, max_val <= val ->
     calculate_score val min_val max_val max_points = max_points)
  /\ (forall val, val <= min_val ->
     calculate_score val min_val max_val max_points = 0)
  /\ (forall val, min_val < val < max_val ->
     calculate_score val min_val max_val max_points
     = (val - min_val) / (max_val - min_val) * max_points)
  /\ ((min_val - min_val) / (max_val - min_val) * max_points == 0
      /\ (max_val - min_val) / (max_val - min_val) * max_points == max_points)
  /\ (forall val eps, 0 < eps ->
      exists delta, 0 < delta /\
        forall val', Qabs (val' - val) < delta ->
          Qabs (calculate_score val' min_val max_val max_points
                - calculate_score val min_val max_val max_points) < eps)
  /\ (0 <= max_points ->
      forall v1 v2, v1 <= v2 ->
        calculate_score v1 min_val max_val max_points
        <= calculate_score v2 min_val max_val max_points).
Proof.
  repeat split.
  - intros val. apply calculate_score_top.
  - intros val. apply calculate_score_bottom.
  - intros val. apply calculate_score_between.
  - field. lra.
  - field. lra.
  - intros val eps. apply calculate_score_continuous.
  - intros Hw v1 v2. now apply calculate_score_monotone.
Qed.

End CalculateScoreSpec.

Section CalculateScoreExamples.

Import Score.
Local Open Scope Q_scope.

(** The bounds 0 and 1 with 20 points: 0.25 scores 5 points, and the
    score does not fall from 0.25 to 0.75. *)
Lemma calculate_score_spec_witness :
  calculate_score 2 0 1 20 = 20
  /\ calculate_score (-1) 0 1 20 = 0
  /\ calculate_score 0.25 0 1 20 = (0.25 - 0) / (1 - 0) * 20
  /\ calculate_score 0.25 0 1 20 <= calculate_score 0.75 0 1 20.
Proof.
  assert (Hb : 0 < 1) by reflexivity.
  destruct (calculate_score_spec 0 1 Hb 20) as (Htop & Hbot & Hmid & _ & _ & Hmono).
  split; [| split; [| split]].
  - apply Htop. vm_compute. discriminate.
  - apply Hbot. vm_compute. discriminate.
  - apply Hmid. split; reflexivity.
  - apply Hmono; vm_compute; discriminate.
Defined.

(** C2, as stated, fails for a negative weight: with floor 0, ceiling 1
    and weight -1 the score falls from 0 to -1 as the value rises from 0
    to 1. *)
Lemma calculate_score_negative_weight_decreases :
  0 < 1 /\ 0 <= 1
  /\ calculate_score 0 0 1 (-1) = 0
  /\ calculate_score 1 0 1 (-1) = -1
  /\ calculate_score 1 0 1 (-1) < calculate_score 0 0 1 (-1).
Proof.
  repeat split; vm_compute; discriminate.
Defined.

End CalculateScoreExamples.

(** ** scripts/score.py: metric extraction *)

Section ExtractorSpec.

Import Score.
Local Open Scope Q_scope.

Lemma in_index_rows (key : string) (rs : list (string * list Q)) :
  existsb (fun kr => String.eqb key (fst kr)) rs
  = match loc_rows key rs with Some _ => true | None => false end.
Proof.
  induction rs as [| [k r] rs IH]; simpl; [reflexivity |].
  destruct (String.eqb key k); [reflexivity | exact IH].
Qed.

Lemma in_index_present (df : DataFrame) (key : string) (row : list Q) :
  loc df key = Some row -> in_index key df = true.
Proof.
  unfold in_index, loc. intros H. now rewrite in_index_rows, H.
Qed.

Lemma in_index_missing (df : DataFrame) (key : string) :
  loc df key = None <-> in_index key df = false.
Proof.
  unfold in_index, loc. rewrite in_index_rows.
  destruct (loc_rows key (rows df)); split; congruence.
Qed.

Lemma index_from_start {A : Type} (l : list A) (i : Z) :
  (0 <= i)%Z -> Py.index l i = nth_error l (Z.to_nat i).
Proof.
  intros H. unfold Py.index. apply Z.leb_le in H. now rewrite H.
Qed.

Lemma nth_error_oldest {A : Type} (l : list A) (d : A) :
  l <> [] -> nth_error l (List.length l - 1) = Some (List.last l d).
Proof.
  induction l as [| a l IH]; [congruence |]. intros _.
  destruct l as [| b l]; [reflexivity |].
  change (List.last (a :: b :: l) d) with (List.last (b :: l) d).
  rewrite <- IH by discriminate. simpl. now rewrite Nat.sub_0_r.
Qed.

(** [get_latest] on a row that is there. *)
Lemma get_latest_present (df : DataFrame) (key : string) (v : Q) (older : list Q) :
  loc df key = Some (v :: older) -> get_latest df key = v.
Proof.
  intros H. unfold get_latest, loc_iloc.
  now rewrite (in_index_present _ _ _ H), H.
Qed.

Lemma get_latest_missing (df : DataFrame) (key : string) :
  loc df key = None -> get_latest df key = 0.
Proof.
  intros H. unfold get_latest. apply in_index_missing in H. now rewrite H.
Qed.

(** A row without values: the access raises and the result is 0. *)
Lemma get_latest_access_error (df : DataFrame) (key : string) :
  loc df key = Some [] -> get_latest df key = 0.
Proof.
  intros H. unfold get_latest, loc_iloc.
  now rewrite (in_index_present _ _ _ H), H.
Qed.

Lemma get_historical_missing (df : DataFrame) (key : string) (years_back : Z) :
  loc df key = None -> get_historical df key years_back = None.
Proof.
  intros H. unfold get_historical. apply in_index_missing in H. now rewrite H.
Qed.

(** [get_historical] on a row of a well-formed frame: the index is
    [years_back], cut to the last column. *)
Lemma get_historical_present (df : DataFrame) (key : string) (row : list Q)
    (years_back : Z) :
  loc df key = Some row ->
  List.length row = List.length (columns df) ->
  row <> [] ->
  (0 <= years_back)%Z ->
  get_historical df key years_back
  = nth_error row (Nat.min (Z.to_nat years_back) (List.length row - 1)).
Proof.
  intros Hloc Hlen Hne Hpos. unfold get_historical, loc_iloc.
  rewrite (in_index_present _ _ _ Hloc), Hloc. cbv zeta.
  assert (0 < List.length row)%nat by (destruct row; [congruence | simpl; lia]).
  rewrite index_from_start by lia. f_equal. lia.
Qed.

(** C8. [get_latest] returns the value of the most recent period when
    the statement has the row, and 0 when the key is absent or the access
    fails; [get_historical] returns the value [years_back] periods back
    when the statement has that many periods, the value of the oldest
    period when it has fewer, and [None] (absent), never a zero, when the
    key is missing. *)
Theorem extraction_defaults (df : DataFrame) (key : string) :
  (forall v older, loc df key = Some (v :: older) -> get_latest df key = v)
  /\ (loc df key = None -> get_latest df key = 0)
  /\ (loc df key = Some [] -> get_latest df key = 0)
  /\ (forall row years_back,
        loc df key = Some row ->
        List.length row = List.length (columns df) ->
        row <> [] ->
        (0 <= years_back)%Z ->
        ((years_back < Z.of_nat (List.length row))%Z ->
           get_historical df key years_back = nth_error row (Z.to_nat years_back))
        /\ ((Z.of_nat (List.length row) <= years_back)%Z ->
           get_historical df key years_back = Some (List.last row 0))
        /\ get_historical df key years_back <> None)
  /\ (forall years_back,
        loc df key = None ->
        get_historical df key years_back = None
        /\ get_historical df key years_back <> Some 0).
Proof.
  split; [| split; [| split; [| split]]].
  - intros v older. apply get_latest_present.
  - apply get_latest_missing.
  - apply get_latest_access_error.
  - intros row years_back Hloc Hlen Hne Hpos.
    rewrite (get_historical_present df key row years_back Hloc Hlen Hne Hpos).
    assert (0 < List.length row)%nat by (destruct row; [congruence | simpl; lia]).
    split; [| split].
    + intros Hlt. f_equal. lia.
    + intros Hge. rewrite Nat.min_r by lia. now apply nth_error_oldest.
    + apply nth_error_Some. lia.
  - intros years_back Hloc. rewrite (get_historical_missing _ _ _ Hloc).
    split; [reflexivity | discriminate].
Qed.

(** On the sample income statement: the latest revenue is 800, the
    revenue three periods back is 100; with two periods only, three
    periods back is the older of the two; a missing row gives 0 and
    [None]. *)
Lemma extraction_defaults_witness :
  get_latest Examples.income "Total Revenue" = 800
  /\ get_latest Examples.income "Revenue" = 0
  /\ get_historical Examples.income "Total Revenue" 3 = Some 100
  /\ get_historical Examples.income_two_periods "Total Revenue" 3 = Some 400
  /\ get_historical Examples.income "Revenue" 3 = None.
Proof.
  destruct (extraction_defaults Examples.income "Total Revenue")
    as (Hlatest & _ & _ & Hhist & _).
  destruct (extraction_defaults Examples.income "Revenue")
    as (_ & Hzero & _ & _ & Hnone).
  destruct (extraction_defaults Examples.income_two_periods "Total Revenue")
    as (_ & _ & _ & Hshort & _).
  split; [| split; [| split; [| split]]].
  - apply (Hlatest 800 [400; 200; 100]). reflexivity.
  - apply Hzero. reflexivity.
  - destruct (Hhist [800; 400; 200; 100] 3%Z) as (Hnth & _ & _);
      [reflexivity | reflexivity | discriminate | lia |].
    apply Hnth. simpl. lia.
  - destruct (Hshort [800; 400] 3%Z) as (_ & Hold & _);
      [reflexivity | reflexivity | discriminate | lia |].
    apply Hold. simpl. lia.
  - apply Hnone. reflexivity.
Defined.

End ExtractorSpec.

(** ** scripts/score.py: the growth factor *)

Section GrowthSpec.

Import Score.
Local Open Scope Q_scope.
Local Open Scope string_scope.

Variable pow_third : Q -> Q.

(** The free cash flow three periods back, from the two historical
    values. *)
Local Abbreviation fcf_3y_from ocf_3y capex_3y :=
  (ocf_3y - Qabs (if Py.truthy_opt capex_3y then default 0 capex_3y else 0)).

(** Without an operating cash flow three periods back nothing is
    computed: growth is 0 under the primary label, whatever revenue the
    income statement has. *)
Lemma compute_growth_no_baseline (cash_flow income_stmt : DataFrame)
    (fcf revenue : Q) :
  get_historical cash_flow "Operating Cash Flow" 3 = None ->
  compute_growth pow_third cash_flow income_stmt fcf revenue
  = (0, "FCF CAGR (3y)").
Proof.
  intros H. unfold compute_growth. now rewrite H.
Qed.

(** The primary path: both free cash flows strictly positive. *)
Lemma compute_growth_primary (cash_flow income_stmt : DataFrame)
    (fcf revenue ocf_3y : Q) :
  get_historical cash_flow "Operating Cash Flow" 3 = Some ocf_3y ->
  let fcf_3y :=
    fcf_3y_from ocf_3y (get_historical cash_flow "Capital Expenditure" 3) in
  0 < fcf_3y -> 0 < fcf ->
  compute_growth pow_third cash_flow income_stmt fcf revenue
  = ((pow_third (fcf / fcf_3y) - 1) * 100, "FCF CAGR (3y)").
Proof.
  intros H fcf_3y H3 H0. unfold compute_growth. rewrite H.
  apply gt_true in H3, H0. fold fcf_3y. now rewrite H3, H0.
Qed.

(** The fallback: an operating cash flow three periods back exists, one
    of the free cash flows is not positive, and the revenue three periods
    back is positive. *)
Lemma compute_growth_fallback (cash_flow income_stmt : DataFrame)
    (fcf revenue ocf_3y rev_3y : Q) :
  get_historical cash_flow "Operating Cash Flow" 3 = Some ocf_3y ->
  let fcf_3y :=
    fcf_3y_from ocf_3y (get_historical cash_flow "Capital Expenditure" 3) in
  fcf_3y <= 0 \/ fcf <= 0 ->
  get_historical income_stmt "Total Revenue" 3 = Some rev_3y ->
  0 < rev_3y ->
  compute_growth pow_third cash_flow income_stmt fcf revenue
  = ((pow_third (revenue / rev_3y) - 1) * 100, "Rev CAGR (3y) [FCF invalid]").
Proof.
  intros H fcf_3y Hbad Hrev Hpos. unfold compute_growth. rewrite H, Hrev.
  fold fcf_3y.
  assert (Hcond : Py.gt fcf_3y 0 && Py.gt fcf 0 = false).
  { apply andb_false_iff. destruct Hbad as [Hb | Hb]; [left | right];
      now apply gt_false. }
  rewrite Hcond.
  assert (Ht : Py.truthy rev_3y = true) by (apply truthy_true; lra).
  apply gt_true in Hpos. now rewrite Ht, Hpos.
Qed.

(** Neither path: no positive revenue three periods back either. *)
Lemma compute_growth_neither (cash_flow income_stmt : DataFrame)
    (fcf revenue ocf_3y : Q) :
  get_historical cash_flow "Operating Cash Flow" 3 = Some ocf_3y ->
  let fcf_3y :=
    fcf_3y_from ocf_3y (get_historical cash_flow "Capital Expenditure" 3) in
  fcf_3y <= 0 \/ fcf <= 0 ->
  (get_historical income_stmt "Total Revenue" 3 = None
   \/ exists rev_3y, get_historical income_stmt "Total Revenue" 3 = Some rev_3y
                     /\ rev_3y <= 0) ->
  compute_growth pow_third cash_flow income_stmt fcf revenue
  = (0, "FCF CAGR (3y)").
Proof.
  intros H fcf_3y Hbad Hrev. unfold compute_growth. rewrite H. fold fcf_3y.
  assert (Hcond : Py.gt fcf_3y 0 && Py.gt fcf 0 = false).
  { apply andb_false_iff. destruct Hbad as [Hb | Hb]; [left | right];
      now apply gt_false. }
  rewrite Hcond.
  destruct Hrev as [Hnone | (rev_3y & Hsome & Hle)].
  - now rewrite Hnone.
  - rewrite Hsome. apply gt_false in Hle. rewrite Hle.
    now rewrite andb_false_r.
Qed.

(** C1, at the failing input. The sample cash-flow statement without the
    row "Operating Cash Flow" has no free cash flow three periods back,
    and the income statement has the revenue 100 three periods back and
    800 now. [analyze_ticker] does not try the revenue fallback: it reports
    growth 0 under the label "FCF CAGR (3y)" and awards 0 points, where
    the revenue formula gives [(pow_third (800 / 100) - 1) * 100] under
    the fallback label. *)
Theorem growth_skips_fallback_without_baseline :
  get_historical Examples.cash_flow_no_ocf "Operating Cash Flow" 3 = None
  /\ get_historical Examples.income "Total Revenue" 3 = Some 100
  /\ get_latest Examples.income "Total Revenue" = 800
  /\ compute_fcf Examples.cash_flow_no_ocf = -10
  /\ fcf_growth (score_factors pow_third Examples.stock_no_ocf) = 0
  /\ growth_metric (score_factors pow_third Examples.stock_no_ocf)
     = "FCF CAGR (3y)"
  /\ score_growth (score_factors pow_third Examples.stock_no_ocf) = 0.
Proof.
  repeat split; vm_compute; reflexivity.
Qed.

End GrowthSpec.

Section GrowthExamples.

Import Score.
Local Open Scope Q_scope.
Local Open Scope string_scope.

(** The same statements with an operating cash flow that was below the
    capital expenditure three periods back: the revenue fallback is used,
    and with the cube root of 8 being 2 the growth is 100. *)
Example growth_fallback_used :
  compute_growth Examples.cube_root Examples.cash_flow_negative_base
    Examples.income
    (compute_fcf Examples.cash_flow_negative_base)
    (get_latest Examples.income "Total Revenue")
  = ((Examples.cube_root (800 / 100) - 1) * 100, "Rev CAGR (3y) [FCF invalid]")
  /\ (Examples.cube_root (800 / 100) - 1) * 100 == 100.
Proof.
  split.
  - apply (compute_growth_fallback Examples.cube_root
             Examples.cash_flow_negative_base Examples.income _ _ 5 100).
    + reflexivity.
    + left. vm_compute. discriminate.
    + reflexivity.
    + reflexivity.
  - reflexivity.
Qed.

End GrowthExamples.

(** ** scripts/score.py: the composite score and the recommendation *)

Section RoundingFacts.

Local Open Scope Q_scope.

(** Rounding to the nearest integer stays between integer bounds. *)
Lemma round_half_even_between (x : Q) (a b : Z) :
  inject_Z a <= x <= inject_Z b ->
  (a <= Py.round_half_even x <= b)%Z.
Proof.
  intros [Ha Hb].
  assert (Hfa : (a <= Qfloor x)%Z).
  { rewrite <- (Qfloor_Z a). now apply Qfloor_resp_le. }
  assert (Hfb : (Qfloor x <= b)%Z).
  { rewrite <- (Qfloor_Z b). now apply Qfloor_resp_le. }
  pose proof (Qfloor_le x) as Hfloor.
  assert (Hup : ~ x - inject_Z (Qfloor x) < 1 # 2 -> (Qfloor x + 1 <= b)%Z).
  { intros Hhalf.
    destruct (Z.eq_dec (Qfloor x) b) as [Heq | Hne]; [| lia].
    exfalso. apply Hhalf. rewrite Heq in *. lra. }
  unfold Py.round_half_even. cbv zeta.
  destruct (Py.lt (x - inject_Z (Qfloor x)) (1 # 2)) eqn:Hlt; [lia |].
  apply lt_false in Hlt.
  assert ((Qfloor x + 1 <= b)%Z) by (apply Hup; lra).
  destruct (Py.gt (x - inject_Z (Qfloor x)) (1 # 2)); [lia |].
  destruct (Z.even (Qfloor x)); lia.
Qed.

(** [round(x, 1)] keeps a score within [0, m] when [m] is a whole
    number of points. *)
Lemma round1_between (x : Q) (m : Z) :
  0 <= x <= inject_Z m -> 0 <= Py.round1 x <= inject_Z m.
Proof.
  intros [H0 Hm]. unfold Py.round1.
  assert (Hr : (0 <= Py.round_half_even (x * 10) <= m * 10)%Z).
  { apply round_half_even_between. rewrite inject_Z_mult.
    change (inject_Z 0) with 0. change (inject_Z 10) with 10. lra. }
  destruct Hr as [Hr0 Hrm].
  rewrite Zle_Qle in Hr0, Hrm.
  rewrite inject_Z_mult in Hrm.
  change (inject_Z 0) with 0 in Hr0. change (inject_Z 10) with 10 in Hrm.
  set (r := inject_Z (Py.round_half_even (x * 10))) in *.
  split.
  - apply Qle_shift_div_l; lra.
  - apply Qle_shift_div_r; lra.
Qed.

End RoundingFacts.

Section ReportSpec.

Import Score.
Local Open Scope Q_scope.
Local Open Scope string_scope.

Variable pow_third : Q -> Q.

(** The four factor scores and their sum, at full precision. *)
Lemma score_factors_in_range (stock : Ticker) :
  let f := score_factors pow_third stock in
  0 <= score_roic f <= 35
  /\ 0 <= score_margin f <= 25
  /\ 0 <= score_growth f <= 20
  /\ 0 <= score_val f <= 20
  /\ total_score f
     = score_roic f + score_margin f + score_growth f + score_val f
  /\ 0 <= total_score f <= 100.
Proof.
  unfold score_factors.
  destruct (compute_growth pow_third (cashflow stock) (financials stock)
              (compute_fcf (cashflow stock))
              (get_latest (financials stock) "Total Revenue"))
    as [growth label].
  cbn [roic score_roic fcf_margin score_margin fcf_growth growth_metric
       score_growth fcf_yield score_val total_score].
  set (r := compute_roic (financials stock) (balance_sheet stock)).
  set (m := compute_fcf_margin (compute_fcf (cashflow stock))
              (get_latest (financials stock) "Total Revenue")).
  set (y := compute_fcf_yield (compute_fcf (cashflow stock))
              (compute_market_cap (info stock))).
  assert (H1 : 0 <= calculate_score r 10 20 35 <= 35)
    by (apply calculate_score_range; [reflexivity | discriminate]).
  assert (H2 : 0 <= calculate_score m 10 25 25 <= 25)
    by (apply calculate_score_range; [reflexivity | discriminate]).
  assert (H3 : 0 <= calculate_score growth 5 15 20 <= 20)
    by (apply calculate_score_range; [reflexivity | discriminate]).
  assert (H4 : 0 <= calculate_score y 2 4 20 <= 20)
    by (apply calculate_score_range; [reflexivity | discriminate]).
  repeat split; try tauto; lra.
Qed.

(** The fields of the report come from the factors. *)
Lemma report_fields (ticker_symbol : string) (stock : Ticker) (f : Factors) :
  let r := report ticker_symbol stock f in
  symbol r = ticker_symbol
  /\ total r = Py.round1 (total_score f)
  /\ recommendation r = fst (recommend (total_score f))
  /\ score (ROIC r) = Py.round1 (score_roic f) /\ max (ROIC r) = 35
  /\ score (FCF_Margin r) = Py.round1 (score_margin f) /\ max (FCF_Margin r) = 25
  /\ score (Growth r) = Py.round1 (score_growth f) /\ max (Growth r) = 20
  /\ name (Growth r) = Some (growth_metric f)
  /\ score (Valuation r) = Py.round1 (score_val f) /\ max (Valuation r) = 20.
Proof.
  unfold report. destruct (recommend (total_score f)) as [rec e].
  cbn. repeat split.
Qed.

(** A report is returned exactly for a symbol whose data was provided
    with three non-empty statements. *)
Lemma analyze_ticker_report (yf : string -> provided) (ticker_symbol : string)
    (r : ScoreReport) :
  analyze_ticker pow_third yf ticker_symbol = Report r ->
  exists stock,
    yf ticker_symbol = Provided stock
    /\ empty (financials stock) = false
    /\ empty (balance_sheet stock) = false
    /\ empty (cashflow stock) = false
    /\ r = report ticker_symbol stock (score_factors pow_third stock).
Proof.
  unfold analyze_ticker. destruct (yf ticker_symbol) as [e | e | stock];
    try discriminate.
  destruct (empty (financials stock)) eqn:Hincome; [discriminate |].
  destruct (empty (balance_sheet stock)) eqn:Hbalance; [discriminate |].
  destruct (empty (cashflow stock)) eqn:Hcash; [discriminate |].
  intros H. injection H as <-. exists stock. repeat split; assumption.
Qed.

End ReportSpec.

Section ReportExamples.

Import Score.
Local Open Scope Q_scope.
Local Open Scope string_scope.

(** The worked example of the scoring rules: ROIC 25, FCF margin 17.5,
    growth 10 and FCF yield 1 score 35, 12.5, 10 and 0 points, 57.5 in
    all, a HOLD. *)
Example worked_example :
  calculate_score 25 10 20 35 == 35
  /\ calculate_score 17.5 10 25 25 == 12.5
  /\ calculate_score 10 5 15 20 == 10
  /\ calculate_score 1 2 4 20 == 0
  /\ fst (recommend (35 + 12.5 + 10 + 0)) = "HOLD".
Proof.
  repeat split.
Qed.

(** Without market capitalisation, a price of 100 and 1,000,000 shares
    give 100,000,000; a free cash flow of 500,000 then yields 0.5, below
    the floor 2. *)
Example market_cap_reconstruction :
  compute_market_cap (<["currentPrice" := 100]> (<["sharesOutstanding" := 1000000]> ∅))
  = Some (100 * 1000000)
  /\ compute_fcf_yield 500000 (Some (100 * 1000000)) == 0.5
  /\ calculate_score (compute_fcf_yield 500000 (Some (100 * 1000000))) 2 4 20 = 0.
Proof.
  repeat split.
Qed.

End ReportExamples.

(** ** scripts/score.py: missing values *)

Section MissingValues.

Import Float ScoreNaN.
Local Open Scope Q_scope.
Local Open Scope string_scope.

(** On a number [calculate_score] is the interpolation of [Score]. *)
Lemma calculate_score_num (q min_val max_val max_points : Q) :
  calculate_score (Real (Num q)) min_val max_val max_points
  = Return (Num (Score.calculate_score q min_val max_val max_points)).
Proof.
  unfold calculate_score, Score.calculate_score. cbn [ge le sub div mul].
  destruct (Py.ge q max_val); [reflexivity |].
  destruct (Py.le q min_val); reflexivity.
Qed.

(** NaN fails both comparisons and comes out of the interpolation. *)
Lemma calculate_score_nan (min_val max_val max_points : Q) :
  calculate_score (Real NaN) min_val max_val max_points = Return NaN.
Proof. reflexivity. Qed.

(** The score of a float: NaN exactly for NaN, and otherwise a number
    between 0 and the points. *)
Lemma calculate_score_awarded (x s : float) (min_val max_val max_points : Q) :
  min_val < max_val -> 0 <= max_points ->
  calculate_score (Real x) min_val max_val max_points = Return s ->
  (s = NaN <-> x = NaN) /\ (x <> NaN -> within 0 s max_points).
Proof.
  intros Hb Hw. destruct x as [q |].
  - rewrite calculate_score_num. intros H. injection H as <-.
    split; [split; discriminate |]. intros _. cbn [within].
    now apply calculate_score_range.
  - rewrite calculate_score_nan. intros H. injection H as <-.
    split; [tauto | congruence].
Qed.

(** A score is computed for every float. *)
Lemma calculate_score_returns (x : float) (min_val max_val max_points : Q) :
  exists s, calculate_score (Real x) min_val max_val max_points = Return s.
Proof.
  destruct x as [q |]; [rewrite calculate_score_num | rewrite calculate_score_nan];
    eauto.
Qed.

(** [round(x, 1)] keeps NaN and keeps a score within its range. *)
Lemma round1_nan (x : float) : round1 x = NaN <-> x = NaN.
Proof. destruct x; cbn; split; congruence. Qed.

Lemma round1_within (x : float) (m : Z) :
  within 0 x (inject_Z m) -> within 0 (round1 x) (inject_Z m).
Proof. destruct x as [q |]; cbn; [apply round1_between | tauto]. Qed.

(** A sum is NaN exactly when a term is. *)
Lemma add_nan (a b : float) : add a b = NaN <-> a = NaN \/ b = NaN.
Proof.
  destruct a, b; cbn; split; try tauto; try discriminate.
  intros [H | H]; discriminate.
Qed.

Lemma add_within (a b : float) (m n : Q) :
  within 0 a m -> within 0 b n -> within 0 (add a b) (m + n).
Proof. destruct a, b; cbn; try tauto. intros [? ?] [? ?]. split; lra. Qed.

Variable pow_third : Q -> number.

(** What [score_factors] returns: each score is [calculate_score] of its
    ratio, the growth is a float, the total is the sum. *)
Lemma score_factors_return (stock : Ticker) (f : Factors) :
  score_factors pow_third stock = Return f ->
  exists growth,
    fcf_growth f = Real growth
    /\ roic f = compute_roic (financials stock) (balance_sheet stock)
    /\ fcf_margin f
       = compute_fcf_margin (compute_fcf (cashflow stock))
           (get_latest (financials stock) "Total Revenue")
    /\ (fcf_growth f, growth_metric f)
       = compute_growth pow_third (cashflow stock) (financials stock)
           (compute_fcf (cashflow stock))
           (get_latest (financials stock) "Total Revenue")
    /\ fcf_yield f
       = compute_fcf_yield (compute_fcf (cashflow stock))
           (compute_market_cap (info stock))
    /\ calculate_score (Real (roic f)) 10 20 35 = Return (score_roic f)
    /\ calculate_score (Real (fcf_margin f)) 10 25 25 = Return (score_margin f)
    /\ calculate_score (Real growth) 5 15 20 = Return (score_growth f)
    /\ calculate_score (Real (fcf_yield f)) 2 4 20 = Return (score_val f)
    /\ total_score f
       = add (add (add (score_roic f) (score_margin f)) (score_growth f))
           (score_val f).
Proof.
  unfold score_factors.
  destruct (calculate_score_returns
              (compute_roic (financials stock) (balance_sheet stock)) 10 20 35)
    as [s1 H1].
  destruct (calculate_score_returns
              (compute_fcf_margin (compute_fcf (cashflow stock))
                 (get_latest (financials stock) "Total Revenue")) 10 25 25)
    as [s2 H2].
  destruct (calculate_score_returns
              (compute_fcf_yield (compute_fcf (cashflow stock))
                 (compute_market_cap (info stock))) 2 4 20)
    as [s4 H4].
  rewrite H1. cbn [bind]. rewrite H2. cbn [bind].
  destruct (compute_growth pow_third (cashflow stock) (financials stock)
              (compute_fcf (cashflow stock))
              (get_latest (financials stock) "Total Revenue"))
    as [[growth |] label]; [| discriminate].
  destruct (calculate_score_returns growth 5 15 20) as [s3 H3].
  rewrite H3. cbn [bind]. rewrite H4. cbn [bind].
  intros H. injection H as <-. cbn.
  exists growth. repeat split; assumption.
Qed.

(** [score_factors] raises exactly when the growth is complex. *)
Lemma score_factors_raises (stock : Ticker) :
  (exists msg, score_factors pow_third stock = TypeError msg)
  <-> fst (compute_growth pow_third (cashflow stock) (financials stock)
             (compute_fcf (cashflow stock))
             (get_latest (financials stock) "Total Revenue")) = Complex.
Proof.
  unfold score_factors.
  destruct (calculate_score_returns
              (compute_roic (financials stock) (balance_sheet stock)) 10 20 35)
    as [s1 H1].
  destruct (calculate_score_returns
              (compute_fcf_margin (compute_fcf (cashflow stock))
                 (get_latest (financials stock) "Total Revenue")) 10 25 25)
    as [s2 H2].
  destruct (calculate_score_returns
              (compute_fcf_yield (compute_fcf (cashflow stock))
                 (compute_market_cap (info stock))) 2 4 20)
    as [s4 H4].
  rewrite H1. cbn [bind]. rewrite H2. cbn [bind].
  destruct (compute_growth pow_third (cashflow stock) (financials stock)
              (compute_fcf (cashflow stock))
              (get_latest (financials stock) "Total Revenue"))
    as [[growth |] label]; cbn [fst].
  - destruct (calculate_score_returns growth 5 15 20) as [s3 H3].
    rewrite H3. cbn [bind]. rewrite H4. cbn [bind].
    split; [intros [msg H] |]; discriminate.
  - cbn. split; [reflexivity | eauto].
Qed.

(** The fields of the report come from the factors. *)
Lemma report_of_factors (ticker_symbol : string) (stock : Ticker) (f : Factors) :
  let r := report ticker_symbol stock f in
  symbol r = ticker_symbol
  /\ total r = round1 (total_score f)
  /\ recommendation r = fst (recommend (total_score f))
  /\ score (ROIC r) = round1 (score_roic f) /\ max (ROIC r) = 35
  /\ score (FCF_Margin r) = round1 (score_margin f) /\ max (FCF_Margin r) = 25
  /\ score (Growth r) = round1 (score_growth f) /\ max (Growth r) = 20
  /\ name (Growth r) = Some (growth_metric f)
  /\ score (Valuation r) = round1 (score_val f) /\ max (Valuation r) = 20.
Proof.
  unfold report. destruct (recommend (total_score f)) as [rec e].
  cbn. repeat split.
Qed.

(** A report comes from delivered data with three statements that are
    not empty and factors that were scored. *)
Lemma analyze_ticker_reports (yf : string -> provided) (ticker_symbol : string)
    (r : ScoreReport) :
  analyze_ticker pow_third yf ticker_symbol = Report r
  <-> exists stock f,
        yf ticker_symbol = Provided stock
        /\ empty (financials stock) = false
        /\ empty (balance_sheet stock) = false
        /\ empty (cashflow stock) = false
        /\ score_factors pow_third stock = Return f
        /\ r = report ticker_symbol stock f.
Proof.
  unfold analyze_ticker. split.
  - destruct (yf ticker_symbol) as [e | e | stock]; try discriminate.
    destruct (empty (financials stock)) eqn:Hincome; [discriminate |].
    destruct (empty (balance_sheet stock)) eqn:Hbalance; [discriminate |].
    destruct (empty (cashflow stock)) eqn:Hcash; [discriminate |].
    cbn [orb].
    destruct (score_factors pow_third stock) as [f | msg] eqn:Hf; [| discriminate].
    intros H. injection H as <-. exists stock, f. repeat split; assumption.
  - intros (stock & f & Hyf & H1 & H2 & H3 & Hf & ->).
    now rewrite Hyf, H1, H2, H3, Hf.
Qed.

(** C6, amended. For every analyzed snapshot each awarded score is NaN
    exactly when its ratio is NaN, and otherwise lies between 0 and the
    maximum of its factor (35, 25, 20, 20), at full precision and as
    reported (rounded to one decimal). The total is the sum of the four
    scores: it is NaN exactly when one of the ratios is, and otherwise it
    lies between 0 and 100. *)
Theorem scores_within_maxima (yf : string -> provided) (ticker_symbol : string)
    (r : ScoreReport) :
  analyze_ticker pow_third yf ticker_symbol = Report r ->
  exists stock f growth,
    yf ticker_symbol = Provided stock
    /\ score_factors pow_third stock = Return f
    /\ r = report ticker_symbol stock f
    /\ fcf_growth f = Real growth
    /\ total_score f
       = add (add (add (score_roic f) (score_margin f)) (score_growth f))
           (score_val f)
    /\ max (ROIC r) = 35 /\ max (FCF_Margin r) = 25
    /\ max (Growth r) = 20 /\ max (Valuation r) = 20
    /\ (roic f = NaN -> score_roic f = NaN /\ score (ROIC r) = NaN)
    /\ (fcf_margin f = NaN -> score_margin f = NaN /\ score (FCF_Margin r) = NaN)
    /\ (growth = NaN -> score_growth f = NaN /\ score (Growth r) = NaN)
    /\ (fcf_yield f = NaN -> score_val f = NaN /\ score (Valuation r) = NaN)
    /\ (roic f <> NaN ->
        within 0 (score_roic f) 35 /\ within 0 (score (ROIC r)) 35)
    /\ (fcf_margin f <> NaN ->
        within 0 (score_margin f) 25 /\ within 0 (score (FCF_Margin r)) 25)
    /\ (growth <> NaN ->
        within 0 (score_growth f) 20 /\ within 0 (score (Growth r)) 20)
    /\ (fcf_yield f <> NaN ->
        within 0 (score_val f) 20 /\ within 0 (score (Valuation r)) 20)
    /\ (roic f = NaN \/ fcf_margin f = NaN \/ growth = NaN \/ fcf_yield f = NaN ->
        total_score f = NaN /\ total r = NaN)
    /\ (roic f <> NaN -> fcf_margin f <> NaN -> growth <> NaN ->
        fcf_yield f <> NaN ->
        within 0 (total_score f) 100 /\ within 0 (total r) 100).
Proof.
  intros Hreport.
  apply analyze_ticker_reports in Hreport.
  destruct Hreport as (stock & f & Hyf & _ & _ & _ & Hf & Hr).
  destruct (score_factors_return stock f Hf)
    as (growth & Hg & _ & _ & _ & _ & H1 & H2 & H3 & H4 & Hsum).
  exists stock, f, growth.
  destruct (report_of_factors ticker_symbol stock f)
    as (_ & Ht & _ & Hs1 & Hm1 & Hs2 & Hm2 & Hs3 & Hm3 & _ & Hs4 & Hm4).
  rewrite <- Hr in *.
  apply calculate_score_awarded in H1, H2, H3, H4;
    try reflexivity; try discriminate.
  destruct H1 as [N1 W1], H2 as [N2 W2], H3 as [N3 W3], H4 as [N4 W4].
  rewrite Hs1, Hs2, Hs3, Hs4, Ht.
  repeat (split; [first [assumption | reflexivity] |]).
  assert (Hrounded : forall x, x = NaN -> x = NaN /\ round1 x = NaN)
    by (intros x ->; now split).
  assert (Hin : forall x (m : Z),
             within 0 x (inject_Z m) ->
             within 0 x (inject_Z m) /\ within 0 (round1 x) (inject_Z m))
    by (intros x m H; split; [exact H | now apply round1_within]).
  assert (Htotal : roic f <> NaN -> fcf_margin f <> NaN -> growth <> NaN ->
                   fcf_yield f <> NaN -> within 0 (total_score f) 100).
  { intros Hn1 Hn2 Hn3 Hn4. rewrite Hsum.
    change 100 with (35 + 25 + 20 + 20).
    repeat apply add_within; auto. }
  split; [intros Hnan; apply Hrounded, N1, Hnan |].
  split; [intros Hnan; apply Hrounded, N2, Hnan |].
  split; [intros Hnan; apply Hrounded, N3, Hnan |].
  split; [intros Hnan; apply Hrounded, N4, Hnan |].
  split; [intros Hnum; apply (Hin _ 35%Z), W1, Hnum |].
  split; [intros Hnum; apply (Hin _ 25%Z), W2, Hnum |].
  split; [intros Hnum; apply (Hin _ 20%Z), W3, Hnum |].
  split; [intros Hnum; apply (Hin _ 20%Z), W4, Hnum |].
  split.
  - intros Hnan. apply Hrounded. rewrite Hsum.
    destruct Hnan as [Hnan | [Hnan | [Hnan | Hnan]]].
    + apply N1 in Hnan. now rewrite Hnan.
    + apply N2 in Hnan. rewrite Hnan. now destruct (score_roic f).
    + apply N3 in Hnan. rewrite Hnan.
      now destruct (add (score_roic f) (score_margin f)).
    + apply N4 in Hnan. rewrite Hnan.
      now destruct (add (add (score_roic f) (score_margin f)) (score_growth f)).
  - intros Hn1 Hn2 Hn3 Hn4. apply (Hin _ 100%Z). now apply Htotal.
Qed.

End MissingValues.

Section MissingValuesExamples.

Import Float ScoreNaN.
Local Open Scope Q_scope.
Local Open Scope string_scope.

(** The sample symbol "GOOD", whose statements hold numbers only:
    35 + 12.5 + 20 + 0 points. *)
Lemma scores_within_maxima_witness :
  exists r,
    analyze_ticker Examples.cube_root_numpy Examples.provider_gap "GOOD" = Report r
    /\ within 0 (score (ROIC r)) 35
    /\ within 0 (score (Growth r)) 20
    /\ within 0 (total r) 100
    /\ within 67.5 (total r) 67.5.
Proof.
  destruct (analyze_ticker Examples.cube_root_numpy Examples.provider_gap "GOOD")
    as [msg | r] eqn:Hreport; [vm_compute in Hreport; discriminate |].
  exists r. split; [reflexivity |].
  destruct (scores_within_maxima Examples.cube_root_numpy Examples.provider_gap
              "GOOD" r Hreport)
    as (stock & f & growth & Hyf & Hf & Hr & Hg & _ & _ & _ & _ & _ & _ & _ & _ & _
        & W1 & _ & W3 & _ & _ & Wt).
  vm_compute in Hyf. injection Hyf as <-.
  vm_compute in Hf. injection Hf as <-.
  vm_compute in Hg. injection Hg as <-.
  cbn [roic fcf_margin fcf_yield] in W1, W3, Wt.
  destruct W1 as [_ W1]; [discriminate |].
  destruct W3 as [_ W3]; [discriminate |].
  destruct Wt as [_ Wt]; [discriminate | discriminate | discriminate | discriminate |].
  repeat (split; [assumption |]).
  vm_compute in Hreport. injection Hreport as <-.
  vm_compute. split; discriminate.
Defined.

(** C6, as stated, fails on a statement with a missing value: with the
    latest total assets missing (NaN), "GAP" is analyzed, and its ROIC
    score and its total are NaN, which lie in no range. *)
Lemma missing_value_score_outside_range :
  exists r,
    analyze_ticker Examples.cube_root_numpy Examples.provider_gap "GAP" = Report r
    /\ score (ROIC r) = NaN /\ total r = NaN
    /\ ~ within 0 (score (ROIC r)) 35
    /\ ~ within 0 (total r) 100.
Proof.
  eexists. split; [vm_compute; reflexivity |].
  cbn. repeat split; tauto.
Qed.

End MissingValuesExamples.

(** ** scripts/score.py: the two embeddings agree on numbers *)

Section Agreement.

Import Float ScoreNaN.
Local Open Scope Q_scope.
Local Open Scope string_scope.

Lemma index_map {A B : Type} (g : A -> B) (l : list A) (i : Z) :
  Py.index (map g l) i = option_map g (Py.index l i).
Proof.
  unfold Py.index. rewrite length_map.
  destruct (0 <=? i)%Z; [apply nth_error_map |].
  destruct (- Z.of_nat (List.length l) <=? i)%Z; [apply nth_error_map | reflexivity].
Qed.

Lemma loc_rows_of_frame (key : string) (rs : list (string * list Q)) :
  loc_rows key (map (fun kr => (fst kr, map Num (snd kr))) rs)
  = option_map (map Num) (Score.loc_rows key rs).
Proof.
  induction rs as [| [k r] rs IH]; [reflexivity |].
  cbn. destruct (String.eqb key k); [reflexivity | exact IH].
Qed.

Lemma in_index_of_frame (key : string) (df : Score.DataFrame) :
  in_index key (of_frame df) = Score.in_index key df.
Proof.
  unfold in_index, Score.in_index, of_frame. cbn [rows].
  induction (Score.rows df) as [| [k r] rs IH]; [reflexivity |].
  cbn. now rewrite IH.
Qed.

Lemma loc_iloc_of_frame (df : Score.DataFrame) (key : string) (i : Z) :
  loc_iloc (of_frame df) key i = option_map Num (Score.loc_iloc df key i).
Proof.
  unfold loc_iloc, Score.loc_iloc, loc, Score.loc, of_frame. cbn [rows].
  rewrite loc_rows_of_frame.
  destruct (Score.loc_rows key (Score.rows df)) as [row |]; [| reflexivity].
  apply index_map.
Qed.

Lemma empty_of_frame (df : Score.DataFrame) :
  empty (of_frame df) = Score.empty df.
Proof.
  unfold empty, Score.empty, of_frame. cbn [columns rows].
  destruct (Score.columns df); [reflexivity |].
  now destruct (Score.rows df).
Qed.

Lemma get_latest_of_frame (df : Score.DataFrame) (key : string) :
  get_latest (of_frame df) key = Num (Score.get_latest df key).
Proof.
  unfold get_latest, Score.get_latest.
  rewrite in_index_of_frame, loc_iloc_of_frame.
  destruct (Score.in_index key df); [| reflexivity].
  now destruct (Score.loc_iloc df key 0).
Qed.

Lemma get_historical_of_frame (df : Score.DataFrame) (key : string)
    (years_back : Z) :
  get_historical (of_frame df) key years_back
  = option_map Num (Score.get_historical df key years_back).
Proof.
  unfold get_historical, Score.get_historical.
  rewrite in_index_of_frame.
  destruct (Score.in_index key df); [| reflexivity].
  apply loc_iloc_of_frame.
Qed.

Lemma compute_roic_of_frame (income_stmt balance : Score.DataFrame) :
  compute_roic (of_frame income_stmt) (of_frame balance)
  = Num (Score.compute_roic income_stmt balance).
Proof.
  unfold compute_roic, Score.compute_roic.
  rewrite !get_latest_of_frame. unfold ne. cbn [eq truthy sub div mul].
  destruct (Py.eq (Score.get_latest income_stmt "Ebit") 0);
    destruct (Py.truthy (Score.get_latest income_stmt "Pretax Income")
              && negb (Py.eq (Score.get_latest income_stmt "Pretax Income") 0));
    cbn [eq ne truthy sub div mul];
    destruct (Py.truthy (Score.get_latest balance "Total Assets"
                         - Score.get_latest balance "Current Liabilities"));
    reflexivity.
Qed.

Lemma compute_fcf_of_frame (cash_flow : Score.DataFrame) :
  compute_fcf (of_frame cash_flow) = Num (Score.compute_fcf cash_flow).
Proof.
  unfold compute_fcf, Score.compute_fcf. now rewrite !get_latest_of_frame.
Qed.

Lemma compute_fcf_margin_num (fcf revenue : Q) :
  compute_fcf_margin (Num fcf) (Num revenue)
  = Num (Score.compute_fcf_margin fcf revenue).
Proof.
  unfold compute_fcf_margin, Score.compute_fcf_margin. cbn [truthy].
  now destruct (Py.truthy revenue).
Qed.

Lemma compute_market_cap_of_info (info : gmap string Q) :
  compute_market_cap (Num <$> info)
  = option_map Num (Score.compute_market_cap info).
Proof.
  unfold compute_market_cap, Score.compute_market_cap, or_else, Py.or_else.
  rewrite !lookup_fmap.
  destruct (info !! "marketCap") as [m |];
    destruct (info !! "currentPrice") as [p |];
    destruct (info !! "previousClose") as [c |];
    destruct (info !! "sharesOutstanding") as [s |];
    cbn [fmap option_fmap option_map truthy_opt Py.truthy_opt truthy negb];
    repeat match goal with
      | |- context [Py.truthy ?x] =>
          destruct (Py.truthy x);
          cbn [fmap option_fmap option_map truthy_opt Py.truthy_opt truthy
               negb andb mul]
      end;
    reflexivity.
Qed.

Lemma compute_fcf_yield_num (fcf : Q) (market_cap : option Q) :
  compute_fcf_yield (Num fcf) (option_map Num market_cap)
  = Num (Score.compute_fcf_yield fcf market_cap).
Proof.
  unfold compute_fcf_yield, Score.compute_fcf_yield.
  destruct market_cap as [m |]; cbn; [| reflexivity].
  now destruct (Py.truthy m).
Qed.

Variable pow_third : Q -> Q.

Lemma compute_growth_of_frame (cash_flow income_stmt : Score.DataFrame)
    (fcf revenue : Q) :
  compute_growth (real_power pow_third) (of_frame cash_flow) (of_frame income_stmt)
    (Num fcf) (Num revenue)
  = (Real (Num (fst (Score.compute_growth pow_third cash_flow income_stmt
                       fcf revenue))),
     snd (Score.compute_growth pow_third cash_flow income_stmt fcf revenue)).
Proof.
  unfold compute_growth, Score.compute_growth.
  rewrite !get_historical_of_frame.
  destruct (Score.get_historical cash_flow "Operating Cash Flow" 3)
    as [ocf_3y |]; cbn [option_map]; [| reflexivity].
  assert (Hcapex :
    abs (if truthy_opt
              (option_map Num (Score.get_historical cash_flow "Capital Expenditure" 3))
         then default (Num 0)
                (option_map Num
                   (Score.get_historical cash_flow "Capital Expenditure" 3))
         else Num 0)
    = Num (Qabs (if Py.truthy_opt
                      (Score.get_historical cash_flow "Capital Expenditure" 3)
                 then default 0
                        (Score.get_historical cash_flow "Capital Expenditure" 3)
                 else 0))).
  { destruct (Score.get_historical cash_flow "Capital Expenditure" 3) as [c |];
      cbn; [| reflexivity].
    now destruct (Py.truthy c). }
  rewrite Hcapex. cbn [sub gt].
  destruct (Py.gt _ 0 && Py.gt fcf 0); [reflexivity |].
  destruct (Score.get_historical income_stmt "Total Revenue" 3) as [r |];
    cbn [option_map]; [| reflexivity].
  cbn [truthy gt].
  destruct (Py.truthy r && Py.gt r 0); reflexivity.
Qed.

Lemma score_factors_of_ticker (stock : Score.Ticker) :
  score_factors (real_power pow_third) (of_ticker stock)
  = Return (of_factors (Score.score_factors pow_third stock)).
Proof.
  unfold score_factors, Score.score_factors, of_ticker.
  cbn [financials balance_sheet cashflow info]. cbv zeta.
  rewrite compute_roic_of_frame, compute_fcf_of_frame, get_latest_of_frame,
    compute_fcf_margin_num, compute_market_cap_of_info, compute_fcf_yield_num,
    compute_growth_of_frame.
  destruct (Score.compute_growth pow_third (Score.cashflow stock)
              (Score.financials stock) (Score.compute_fcf (Score.cashflow stock))
              (Score.get_latest (Score.financials stock) "Total Revenue"))
    as [growth label].
  cbn [fst snd].
  repeat (rewrite calculate_score_num; cbn [bind]).
  reflexivity.
Qed.

Lemma report_of_ticker (ticker_symbol : string) (stock : Score.Ticker)
    (f : Score.Factors) :
  report ticker_symbol (of_ticker stock) (of_factors f)
  = of_report (Score.report ticker_symbol stock f).
Proof.
  unfold report, Score.report, recommend, Score.recommend, of_factors, of_ticker.
  cbn [total_score info ge]. rewrite lookup_fmap.
  destruct (Py.ge (Score.total_score f) 70); [reflexivity |].
  destruct (Py.ge (Score.total_score f) 50); reflexivity.
Qed.

(** On statements of numbers, with a power that is a number,
    [analyze_ticker] of this embedding returns what [analyze_ticker] of
    [Score] returns. *)
Lemma analyze_ticker_agrees (yf : string -> Score.provided)
    (ticker_symbol : string) :
  analyze_ticker (real_power pow_third) (fun s => of_provided (yf s)) ticker_symbol
  = of_analysis (Score.analyze_ticker pow_third yf ticker_symbol).
Proof.
  unfold analyze_ticker, Score.analyze_ticker.
  destruct (yf ticker_symbol) as [e | e | stock]; cbn [of_provided];
    [reflexivity | reflexivity |].
  unfold of_ticker at 1 2 3. cbn [financials balance_sheet cashflow].
  rewrite !empty_of_frame.
  destruct (Score.empty (Score.financials stock)
            || Score.empty (Score.balance_sheet stock)
            || Score.empty (Score.cashflow stock)); [reflexivity |].
  rewrite score_factors_of_ticker. cbn [of_analysis].
  now rewrite report_of_ticker.
Qed.

End Agreement.

(** ** scripts/score.py: the recommendation bands *)

Section RecommendSpec.

Import Score.
Local Open Scope Q_scope.
Local Open Scope string_scope.

(** C7. Every total falls in exactly one band: 70 and more is
    "BUY / ACCUMULATE", from 50 to below 70 is "HOLD", below 50 is
    "PASS / SELL"; the lower bound of a band belongs to it, so exactly 70
    is a BUY and exactly 50 a HOLD. The report of [analyze_ticker] carries
    the band of its total score. *)
Theorem recommend_bands (total_score : Q) :
  (70 <= total_score -> recommend total_score = ("BUY / ACCUMULATE", CheckMark))
  /\ (50 <= total_score < 70 -> recommend total_score = ("HOLD", WarningSign))
  /\ (total_score < 50 -> recommend total_score = ("PASS / SELL", StopSign))
  /\ (70 <= total_score \/ 50 <= total_score < 70 \/ total_score < 50)
  /\ recommend 70 = ("BUY / ACCUMULATE", CheckMark)
  /\ recommend 50 = ("HOLD", WarningSign)
  /\ (forall ticker_symbol stock f,
        total_score = Score.total_score f ->
        recommendation (report ticker_symbol stock f)
        = fst (recommend total_score)).
Proof.
  split; [| split; [| split; [| split; [| split; [| split]]]]].
  - intros H. unfold recommend. apply ge_true in H. now rewrite H.
  - intros [H50 H70]. unfold recommend.
    apply ge_false in H70. apply ge_true in H50. now rewrite H70, H50.
  - intros H. unfold recommend.
    assert (H70 : Py.ge total_score 70 = false) by (apply ge_false; lra).
    apply ge_false in H. now rewrite H70, H.
  - destruct (Qlt_le_dec total_score 70) as [H70 | H70]; [| now left].
    destruct (Qlt_le_dec total_score 50) as [H50 | H50]; [now right; right |].
    right; left. now split.
  - reflexivity.
  - reflexivity.
  - intros ticker_symbol stock f ->. unfold report.
    now destruct (recommend (Score.total_score f)).
Qed.

(** The totals 82.5, 57.5 and 49.9, one in each band. *)
Lemma recommend_bands_witness :
  recommend 82.5 = ("BUY / ACCUMULATE", CheckMark)
  /\ recommend 57.5 = ("HOLD", WarningSign)
  /\ recommend 49.9 = ("PASS / SELL", StopSign).
Proof.
  destruct (recommend_bands 82.5) as (Hbuy & _).
  destruct (recommend_bands 57.5) as (_ & Hhold & _).
  destruct (recommend_bands 49.9) as (_ & _ & Hpass & _).
  split; [| split].
  - apply Hbuy. vm_compute. discriminate.
  - apply Hhold. split; [vm_compute; discriminate | reflexivity].
  - apply Hpass. reflexivity.
Defined.

End RecommendSpec.

(** ** scripts/score.py: failures stay with their symbol *)

Section BatchSpec.

Import Score.
Local Open Scope string_scope.
Local Open Scope list_scope.

Variable pow_third : Q -> Q.
Variable yf : string -> provided.

(** What the loop of [main] prints for one symbol. *)
Local Abbreviation printed_for ticker :=
  (match analyze_ticker pow_third yf ticker with
   | Error msg => ErrorLine ticker msg
   | Report r => ReportBlock r
   end).

(** The loop appends to what was printed before. *)
Lemma main_loop_appends (tickers : list string) (out : list printed) :
  main_loop pow_third yf tickers out = out ++ main_loop pow_third yf tickers [].
Proof.
  revert out. induction tickers as [| ticker rest IH]; intros out; simpl.
  - now rewrite app_nil_r.
  - destruct (analyze_ticker pow_third yf ticker) as [msg | r];
      rewrite IH, (IH [_]), app_assoc; reflexivity.
Qed.

Lemma main_loop_cons (ticker : string) (rest : list string) :
  main_loop pow_third yf (ticker :: rest) []
  = printed_for ticker :: main_loop pow_third yf rest [].
Proof.
  simpl. destruct (analyze_ticker pow_third yf ticker) as [msg | r];
    now rewrite main_loop_appends.
Qed.

Lemma main_loop_app (before after : list string) :
  main_loop pow_third yf (before ++ after) []
  = main_loop pow_third yf before [] ++ main_loop pow_third yf after [].
Proof.
  induction before as [| ticker before IH]; [reflexivity |].
  rewrite <- app_comm_cons, !main_loop_cons, IH. reflexivity.
Qed.

Lemma main_loop_length (tickers : list string) :
  List.length (main_loop pow_third yf tickers []) = List.length tickers.
Proof.
  induction tickers as [| ticker rest IH]; [reflexivity |].
  rewrite main_loop_cons. simpl. now rewrite IH.
Qed.

Lemma main_loop_nth (tickers : list string) (i : nat) (ticker : string) :
  nth_error tickers i = Some ticker ->
  nth_error (main_loop pow_third yf tickers []) i = Some (printed_for ticker).
Proof.
  revert i. induction tickers as [| t rest IH]; intros i H.
  - destruct i; discriminate.
  - rewrite main_loop_cons. destruct i as [| i]; simpl in *.
    + now injection H as ->.
    + now apply IH.
Qed.

(** C9. A fetch that raises and a missing (empty) statement both make
    [analyze_ticker] return an error record, which carries a message and
    no score. In a batch every symbol is analyzed and reported on its own,
    in the order given: the output has one entry per symbol, the entry of
    a symbol is its own error line or report block whatever happened to
    the symbols before it, and processing goes on after an error. *)
Theorem failure_isolation :
  (forall ticker_symbol e,
     yf ticker_symbol = FetchRaises e ->
     analyze_ticker pow_third yf ticker_symbol
     = Error ("Failed to fetch data: " ++ e)%string)
  /\ (forall ticker_symbol e,
     yf ticker_symbol = TickerRaises e ->
     analyze_ticker pow_third yf ticker_symbol = Error e)
  /\ (forall ticker_symbol stock,
     yf ticker_symbol = Provided stock ->
     empty (financials stock) = true \/ empty (balance_sheet stock) = true
     \/ empty (cashflow stock) = true ->
     analyze_ticker pow_third yf ticker_symbol
     = Error "Missing financial statements")
  /\ (forall tickers,
     List.length (main_loop pow_third yf tickers []) = List.length tickers)
  /\ (forall tickers i ticker,
     nth_error tickers i = Some ticker ->
     nth_error (main_loop pow_third yf tickers []) i = Some (printed_for ticker))
  /\ (forall before ticker msg after,
     analyze_ticker pow_third yf ticker = Error msg ->
     main_loop pow_third yf (before ++ ticker :: after) []
     = main_loop pow_third yf before [] ++ ErrorLine ticker msg
       :: main_loop pow_third yf after [])
  /\ (forall ticker rest,
     main pow_third yf (ticker :: rest)
     = Some (main_loop pow_third yf (ticker :: rest) [])).
Proof.
  split; [| split; [| split; [| split; [| split; [| split]]]]];
    [| | | | | | reflexivity].
  - intros ticker_symbol e H. unfold analyze_ticker. now rewrite H.
  - intros ticker_symbol e H. unfold analyze_ticker. now rewrite H.
  - intros ticker_symbol stock H Hempty. unfold analyze_ticker. rewrite H.
    destruct Hempty as [He | [He | He]]; rewrite He;
      now rewrite ?orb_true_r.
  - apply main_loop_length.
  - apply main_loop_nth.
  - intros before ticker msg after H.
    rewrite main_loop_app, main_loop_cons. now rewrite H.
Qed.

End BatchSpec.

Section BatchExamples.

Import Score.
Local Open Scope string_scope.
Local Open Scope list_scope.

(** A batch of three symbols: the fetch of the first raises, the second
    is scored, the third has no balance sheet. *)
Lemma failure_isolation_witness :
  analyze_ticker Examples.cube_root Examples.provider "BAD"
  = Error "Failed to fetch data: HTTP Error 404"
  /\ analyze_ticker Examples.cube_root Examples.provider "NOBAL"
     = Error "Missing financial statements"
  /\ main_loop Examples.cube_root Examples.provider ["BAD"; "GOOD"; "NOBAL"] []
     = [ErrorLine "BAD" "Failed to fetch data: HTTP Error 404";
        ReportBlock (report "GOOD" Examples.stock
                       (score_factors Examples.cube_root Examples.stock));
        ErrorLine "NOBAL" "Missing financial statements"].
Proof.
  destruct (failure_isolation Examples.cube_root Examples.provider)
    as (Hfetch & _ & Hempty & _ & _ & Hcontinue & _).
  assert (Hbad : analyze_ticker Examples.cube_root Examples.provider "BAD"
                 = Error "Failed to fetch data: HTTP Error 404").
  { apply (Hfetch "BAD" "HTTP Error 404"). reflexivity. }
  split; [exact Hbad | split].
  - apply (Hempty "NOBAL" Examples.stock_no_balance); [reflexivity |].
    right; left. reflexivity.
  - exact (Hcontinue [] "BAD" _ ["GOOD"; "NOBAL"] Hbad).
Defined.

End BatchExamples.

(** ** scripts/fetch_news.py: the cache *)

Section CacheKeys.

Import FetchNews.
Local Open Scope string_scope.
Local Open Scope Z_scope.

Lemma string_length_app (a b : string) :
  String.length (a ++ b) = (String.length a + String.length b)%nat.
Proof.
  induction a as [| c a IH]; [reflexivity |].
  change (S (String.length (a ++ b)) = S (String.length a + String.length b)).
  now rewrite IH.
Qed.

(** A suffix can be cancelled. *)
Lemma app_inj_suffix (a b s : string) : a ++ s = b ++ s -> a = b.
Proof.
  revert b. induction a as [| c a IH]; intros [| c' b] H.
  - reflexivity.
  - apply (f_equal String.length) in H. rewrite !string_length_app in H. simpl in H. lia.
  - apply (f_equal String.length) in H. rewrite !string_length_app in H. simpl in H. lia.
  - change (String c (a ++ s) = String c' (b ++ s)) in H.
    injection H as -> H. f_equal. now apply IH.
Qed.

Lemma cache_path_inj (k1 k2 : string) : cache_path k1 = cache_path k2 -> k1 = k2.
Proof. apply app_inj_suffix. Qed.

Lemma digit_inj (a b : Z) :
  0 <= a <= 9 -> 0 <= b <= 9 -> digit a = digit b -> a = b.
Proof.
  intros Ha Hb H. unfold digit in H.
  apply (f_equal nat_of_ascii) in H.
  rewrite !nat_ascii_embedding in H by lia. lia.
Qed.

Lemma pad2_inj (a b : Z) (s s' : string) :
  0 <= a <= 99 -> 0 <= b <= 99 -> pad2 a ++ s = pad2 b ++ s' -> a = b /\ s = s'.
Proof.
  intros Ha Hb H. unfold pad2 in H.
  change (String (digit (a / 10)) (String (digit (a mod 10)) s)
          = String (digit (b / 10)) (String (digit (b mod 10)) s')) in H.
  injection H as H1 H0 Hs.
  apply digit_inj in H1; [| Z.div_mod_to_equations; lia ..].
  apply digit_inj in H0; [| Z.div_mod_to_equations; lia ..].
  split; [Z.div_mod_to_equations; lia | exact Hs].
Qed.

Lemma pad4_inj (a b : Z) (s s' : string) :
  0 <= a <= 9999 -> 0 <= b <= 9999 -> pad4 a ++ s = pad4 b ++ s' -> a = b /\ s = s'.
Proof.
  intros Ha Hb H. unfold pad4, pad2 in H.
  change (String (digit (a / 1000)) (String (digit (a / 100 mod 10))
            (String (digit (a mod 100 / 10)) (String (digit (a mod 100 mod 10)) s)))
          = String (digit (b / 1000)) (String (digit (b / 100 mod 10))
            (String (digit (b mod 100 / 10)) (String (digit (b mod 100 mod 10)) s'))))
    in H.
  injection H as H3 H2 H1 H0 Hs.
  apply digit_inj in H3; [| Z.div_mod_to_equations; lia ..].
  apply digit_inj in H2; [| Z.div_mod_to_equations; lia ..].
  apply digit_inj in H1; [| Z.div_mod_to_equations; lia ..].
  apply digit_inj in H0; [| Z.div_mod_to_equations; lia ..].
  split; [Z.div_mod_to_equations; lia | exact Hs].
Qed.

(** Two readings of the same clock hour have the same key. *)
Lemma all_news_key_same_hour (t1 t2 : datetime) :
  year t1 = year t2 -> month t1 = month t2 -> day t1 = day t2 ->
  hour t1 = hour t2 ->
  all_news_key t1 = all_news_key t2.
Proof.
  intros Hy Hm Hd Hh. unfold all_news_key, strftime_hour.
  now rewrite Hy, Hm, Hd, Hh.
Qed.

(** Equal keys come from the same clock hour. *)
Lemma all_news_key_inj (t1 t2 : datetime) :
  valid t1 -> valid t2 ->
  all_news_key t1 = all_news_key t2 ->
  year t1 = year t2 /\ month t1 = month t2 /\ day t1 = day t2
  /\ hour t1 = hour t2.
Proof.
  intros (Hy1 & Hm1 & Hd1 & Hh1 & _) (Hy2 & Hm2 & Hd2 & Hh2 & _) H.
  unfold all_news_key, strftime_hour in H.
  apply (inj (String.app "all_news_")) in H.
  apply pad4_inj in H; [| lia ..]. destruct H as [Hy H].
  apply pad2_inj in H; [| lia ..]. destruct H as [Hm H].
  apply pad2_inj in H; [| lia ..]. destruct H as [Hd H].
  apply (inj (String.app "_")) in H.
  apply (f_equal (fun s => s ++ "")) in H.
  apply pad2_inj in H; [| lia ..].
  tauto.
Qed.

End CacheKeys.

Section CacheSpec.

Import FetchNews.
Local Open Scope string_scope.
Local Open Scope Z_scope.

(** A lookup right after a save sees the saved file. *)
Lemma get_after_save (cache_dir : gmap string cache_file) (cache_key : string)
    (data : json) (saved now : datetime) :
  get_cached_news now (save_cache saved cache_dir cache_key data) cache_key
  = if minus now saved <? timedelta_minutes 15 then Some data else None.
Proof.
  unfold get_cached_news, save_cache. now rewrite lookup_insert_eq.
Qed.

(** A save under another key does not change a lookup. *)
Lemma get_after_other_save (cache_dir : gmap string cache_file)
    (cache_key other_key : string) (data : json) (saved now : datetime) :
  other_key <> cache_key ->
  get_cached_news now (save_cache saved cache_dir other_key data) cache_key
  = get_cached_news now cache_dir cache_key.
Proof.
  intros Hne. unfold get_cached_news, save_cache.
  rewrite lookup_insert_ne; [reflexivity |].
  intros Heq. apply Hne. now apply cache_path_inj.
Qed.

Lemma get_missing (cache_dir : gmap string cache_file) (cache_key : string)
    (now : datetime) :
  cache_dir !! cache_path cache_key = None ->
  get_cached_news now cache_dir cache_key = None.
Proof.
  intros H. unfold get_cached_news. now rewrite H.
Qed.

(** C5. A payload saved under a key is returned as it was saved by a
    lookup of that key while the file is less than 15 minutes old; a
    lookup finds nothing when the directory has no file for the key or
    when the file is 15 minutes old or older. *)
Theorem cache_round_trip (cache_dir : gmap string cache_file)
    (cache_key : string) (now : datetime) :
  (forall data saved,
     minus now saved < timedelta_minutes 15 ->
     get_cached_news now (save_cache saved cache_dir cache_key data) cache_key
     = Some data)
  /\ (forall data saved,
     timedelta_minutes 15 <= minus now saved ->
     get_cached_news now (save_cache saved cache_dir cache_key data) cache_key
     = None)
  /\ (cache_dir !! cache_path cache_key = None ->
     get_cached_news now cache_dir cache_key = None)
  /\ (forall file,
     cache_dir !! cache_path cache_key = Some file ->
     (minus now (st_mtime file) < timedelta_minutes 15 ->
        get_cached_news now cache_dir cache_key = Some (content file))
     /\ (timedelta_minutes 15 <= minus now (st_mtime file) ->
        get_cached_news now cache_dir cache_key = None))
  /\ timedelta_minutes 15 = 15 * 60 * 1000000.
Proof.
  split; [| split; [| split; [| split]]].
  - intros data saved Hage. rewrite get_after_save.
    apply Z.ltb_lt in Hage. now rewrite Hage.
  - intros data saved Hage. rewrite get_after_save.
    apply Z.ltb_ge in Hage. now rewrite Hage.
  - apply get_missing.
  - intros file Hfile. unfold get_cached_news. rewrite Hfile. cbv zeta. split.
    + intros Hage. apply Z.ltb_lt in Hage. now rewrite Hage.
    + intros Hage. apply Z.ltb_ge in Hage. now rewrite Hage.
  - reflexivity.
Qed.

(** Saved at 10:00:00: found at 10:14:59, gone at 10:15:00; and nothing
    is found in an empty directory. *)
Lemma cache_round_trip_witness :
  let data := make_news (Examples.at_time 10 0 0) (Examples.feeds "Markets open") in
  let cache_dir := save_cache (Examples.at_time 10 0 0) ∅ "all_news_20240301_10" data in
  get_cached_news (Examples.at_time 10 14 59) cache_dir "all_news_20240301_10"
  = Some data
  /\ get_cached_news (Examples.at_time 10 15 0) cache_dir "all_news_20240301_10"
     = None
  /\ get_cached_news (Examples.at_time 10 0 0) ∅ "all_news_20240301_10" = None.
Proof.
  intros data cache_dir.
  destruct (cache_round_trip ∅ "all_news_20240301_10" (Examples.at_time 10 14 59))
    as (Hfresh & _).
  destruct (cache_round_trip ∅ "all_news_20240301_10" (Examples.at_time 10 15 0))
    as (_ & Hstale & _).
  destruct (cache_round_trip ∅ "all_news_20240301_10" (Examples.at_time 10 0 0))
    as (_ & _ & Hmiss & _).
  split; [| split].
  - apply Hfresh. reflexivity.
  - apply Hstale. vm_compute. discriminate.
  - apply Hmiss. reflexivity.
Defined.

(** A call that fetched built its news from its own feeds and saved them
    under its own key at its own time. *)
Lemma fetch_all_news_fetched (force : bool) (now : datetime)
    (feeds : list (string * json)) (cache_dir dir' : gmap string cache_file)
    (news : json) :
  fetch_all_news force now feeds cache_dir = (Fetched news, dir') ->
  news = make_news now feeds
  /\ dir' = save_cache now cache_dir (all_news_key now) news.
Proof.
  unfold fetch_all_news. cbv zeta.
  destruct (if negb force then _ else None) as [c |].
  - destruct (truthy c); intros H; [discriminate |].
    injection H as <- <-. now split.
  - intros H. injection H as <- <-. now split.
Qed.

(** A call that finds nothing under its key fetches and saves. *)
Lemma fetch_all_news_miss (now : datetime) (feeds : list (string * json))
    (cache_dir : gmap string cache_file) :
  get_cached_news now cache_dir (all_news_key now) = None ->
  fetch_all_news false now feeds cache_dir
  = (Fetched (make_news now feeds),
     save_cache now cache_dir (all_news_key now) (make_news now feeds)).
Proof.
  intros H. unfold fetch_all_news. cbv zeta. simpl negb. cbv iota. now rewrite H.
Qed.

(** The same clock hour: the same date and the same hour of the day. *)
Local Abbreviation same_clock_hour t1 t2 :=
  (year t1 = year t2 /\ month t1 = month t2 /\ day t1 = day t2
   /\ hour t1 = hour t2).

(** C4, amended. The key of an all-news fetch is "all_news_" followed by
    the date and the hour of the clock. After a call that fetched at [t1],
    a non-forced call at [t2] in the same clock hour prints the cached
    news when less than 15 minutes have passed, and fetches anew when 15
    minutes or more have passed; a non-forced call in another clock hour,
    under whose key the directory had no file, misses the cache and
    fetches anew. *)
Theorem all_news_cache_window (force : bool) (t1 t2 : datetime)
    (feeds1 feeds2 : list (string * json))
    (cache_dir dir1 : gmap string cache_file) (news1 : json) :
  fetch_all_news force t1 feeds1 cache_dir = (Fetched news1, dir1) ->
  all_news_key t2
  = "all_news_" ++ pad4 (year t2) ++ pad2 (month t2) ++ pad2 (day t2) ++ "_"
    ++ pad2 (hour t2)
  /\ (same_clock_hour t1 t2 ->
      all_news_key t1 = all_news_key t2
      /\ (minus t2 t1 < timedelta_minutes 15 ->
          fetch_all_news false t2 feeds2 dir1 = (Cached news1, dir1))
      /\ (timedelta_minutes 15 <= minus t2 t1 ->
          fetch_all_news false t2 feeds2 dir1
          = (Fetched (make_news t2 feeds2),
             save_cache t2 dir1 (all_news_key t2) (make_news t2 feeds2))))
  /\ (valid t1 -> valid t2 -> ~ same_clock_hour t1 t2 ->
      cache_dir !! cache_path (all_news_key t2) = None ->
      all_news_key t1 <> all_news_key t2
      /\ fetch_all_news false t2 feeds2 dir1
         = (Fetched (make_news t2 feeds2),
            save_cache t2 dir1 (all_news_key t2) (make_news t2 feeds2))).
Proof.
  intros Hfirst.
  destruct (fetch_all_news_fetched _ _ _ _ _ _ Hfirst) as [-> ->].
  split; [reflexivity | split].
  - intros (Hy & Hm & Hd & Hh).
    pose proof (all_news_key_same_hour t1 t2 Hy Hm Hd Hh) as Hkey.
    split; [exact Hkey | split].
    + intros Hage. unfold fetch_all_news. cbv zeta. simpl negb. cbv iota.
      rewrite <- Hkey, get_after_save.
      apply Z.ltb_lt in Hage. now rewrite Hage.
    + intros Hage. apply fetch_all_news_miss.
      rewrite <- Hkey, get_after_save.
      apply Z.ltb_ge in Hage. now rewrite Hage.
  - intros Hv1 Hv2 Hother Hnone.
    assert (Hkey : all_news_key t1 <> all_news_key t2).
    { intros Heq. apply Hother. now apply all_news_key_inj. }
    split; [exact Hkey |].
    apply fetch_all_news_miss.
    rewrite get_after_other_save by exact Hkey. now apply get_missing.
Qed.

End CacheSpec.

Section CacheExamples.

Import FetchNews.
Local Open Scope string_scope.
Local Open Scope Z_scope.

(** A fetch at 10:00:00 into an empty directory: the call of 10:10:00
    prints the cached news, the call of 11:05:00 fetches anew. *)
Lemma all_news_cache_window_witness :
  let news1 := make_news (Examples.at_time 10 0 0) (Examples.feeds "Markets open") in
  let dir1 := save_cache (Examples.at_time 10 0 0) ∅ "all_news_20240301_10" news1 in
  fetch_all_news false (Examples.at_time 10 0 0) (Examples.feeds "Markets open") ∅
  = (Fetched news1, dir1)
  /\ fetch_all_news false (Examples.at_time 10 10 0) (Examples.feeds "Rally") dir1
     = (Cached news1, dir1)
  /\ fst (fetch_all_news false (Examples.at_time 11 5 0) (Examples.feeds "Rally") dir1)
     = Fetched (make_news (Examples.at_time 11 5 0) (Examples.feeds "Rally")).
Proof.
  intros news1 dir1.
  assert (Hfirst : fetch_all_news false (Examples.at_time 10 0 0)
                     (Examples.feeds "Markets open") ∅ = (Fetched news1, dir1))
    by reflexivity.
  destruct (all_news_cache_window false (Examples.at_time 10 0 0)
              (Examples.at_time 10 10 0) (Examples.feeds "Markets open")
              (Examples.feeds "Rally") ∅ dir1 news1 Hfirst)
    as (_ & Hsame & _).
  destruct (all_news_cache_window false (Examples.at_time 10 0 0)
              (Examples.at_time 11 5 0) (Examples.feeds "Markets open")
              (Examples.feeds "Rally") ∅ dir1 news1 Hfirst)
    as (_ & _ & Hother).
  split; [exact Hfirst | split].
  - apply Hsame; [repeat split | reflexivity].
  - destruct Hother as [_ Hrefetch].
    + unfold valid. simpl. lia.
    + unfold valid. simpl. lia.
    + simpl. lia.
    + reflexivity.
    + now rewrite Hrefetch.
Defined.

(** C4, as stated, fails: 10:00:00 and 10:20:00 are in the same clock
    hour and have the same key, the call of 10:00:00 fetched and saved,
    and yet the non-forced call of 10:20:00 does not print the cached news
    but fetches anew, the file being 20 minutes old. *)
Lemma same_hour_call_refetches :
  let news1 := make_news (Examples.at_time 10 0 0) (Examples.feeds "Markets open") in
  let dir1 := save_cache (Examples.at_time 10 0 0) ∅ "all_news_20240301_10" news1 in
  all_news_key (Examples.at_time 10 0 0) = all_news_key (Examples.at_time 10 20 0)
  /\ fetch_all_news false (Examples.at_time 10 0 0) (Examples.feeds "Markets open") ∅
     = (Fetched news1, dir1)
  /\ minus (Examples.at_time 10 20 0) (Examples.at_time 10 0 0)
     = timedelta_minutes 20
  /\ get_cached_news (Examples.at_time 10 20 0) dir1
       (all_news_key (Examples.at_time 10 20 0)) = None
  /\ fst (fetch_all_news false (Examples.at_time 10 20 0) (Examples.feeds "Rally") dir1)
     = Fetched (make_news (Examples.at_time 10 20 0) (Examples.feeds "Rally")).
Proof.
  repeat split.
Defined.

End CacheExamples.

(* ================================================================== *)
(** * Part III: further properties                                     *)
(* ================================================================== *)

(** ** scripts/utils.py: a budget from start to end *)

Section DeadlineBudget.

Import Utils.
Local Open Scope Q_scope.

(** X1. A budget that is absent, zero or negative means no deadline: with
    the deadline that [compute_deadline] gives for it, [clamp_timeout]
    returns [default_timeout] at any time and never raises. *)
Theorem no_budget_never_expires (now later : Q) (deadline_sec : option Z)
    (default_timeout minimum : Z) :
  deadline_sec = None \/ (exists s, deadline_sec = Some s /\ (s <= 0)%Z) ->
  compute_deadline now deadline_sec = None
  /\ time_left later (compute_deadline now deadline_sec) = None
  /\ clamp_timeout later default_timeout (compute_deadline now deadline_sec) minimum
     = Py.Return default_timeout.
Proof.
  intros [-> | (s & -> & Hs)].
  - repeat split.
  - unfold compute_deadline. apply Z.leb_le in Hs. rewrite Hs. repeat split.
Qed.

Lemma no_budget_never_expires_witness :
  clamp_timeout 1000 30 (compute_deadline 0 (Some (-5)%Z)) 1 = Py.Return 30%Z
  /\ clamp_timeout 1000 30 (compute_deadline 0 None) 1 = Py.Return 30%Z.
Proof.
  split.
  - apply (no_budget_never_expires 0 1000 (Some (-5)%Z) 30 1).
    right. exists (-5)%Z. split; [reflexivity | lia].
  - apply (no_budget_never_expires 0 1000 None 30 1). now left.
Defined.

(** X2. A budget of [s > 0] whole seconds set at [now] is enforced to
    within two seconds. Once [s] seconds or more have elapsed,
    [clamp_timeout] raises the deadline-exceeded error. While two seconds
    or more of the budget remain it returns a timeout, which is at least
    [minimum] and at most [max(min(default_timeout, s), minimum)]: the
    time left is never counted above the budget. *)
Theorem budget_countdown (now elapsed : Q) (s default_timeout minimum : Z) :
  (0 < s)%Z -> 0 <= elapsed ->
  let deadline := compute_deadline now (Some s) in
  (exists left, time_left (now + elapsed) deadline = Some left /\ (left <= s)%Z)
  /\ (inject_Z s <= elapsed ->
      clamp_timeout (now + elapsed) default_timeout deadline minimum
      = Py.Raise (Py.TimeoutError "Deadline exceeded"))
  /\ (elapsed <= inject_Z s - 2 ->
      exists t,
        clamp_timeout (now + elapsed) default_timeout deadline minimum
        = Py.Return t
        /\ (minimum <= t <= Z.max (Z.min default_timeout s) minimum)%Z).
Proof.
  intros Hs Helapsed deadline. unfold deadline, compute_deadline.
  apply Z.leb_gt in Hs. rewrite Hs.
  assert (Hleft : time_left (now + elapsed) (Some (now + inject_Z s))
                  = Some (Py.int (inject_Z s - elapsed))).
  { unfold time_left. f_equal. apply int_compat. ring. }
  assert (Hbudget : (Py.int (inject_Z s - elapsed) <= s)%Z).
  { rewrite <- (int_inject_Z s) at 2. apply int_monotone. lra. }
  split; [eauto | split].
  - intros Hover. unfold clamp_timeout. rewrite Hleft.
    assert (Hle : (Py.int (inject_Z s - elapsed) <= 0)%Z)
      by (apply int_nonpositive; lra).
    apply Z.leb_le in Hle. now rewrite Hle.
  - intros Hmore. unfold clamp_timeout. rewrite Hleft.
    assert (Hpos : (2 <= Py.int (inject_Z s - elapsed))%Z).
    { rewrite <- (int_inject_Z 2). apply int_monotone.
      change (inject_Z 2) with 2. lra. }
    assert (Hgt : (Py.int (inject_Z s - elapsed) <=? 0)%Z = false)
      by (apply Z.leb_gt; lia).
    rewrite Hgt. eexists. split; [reflexivity | lia].
Qed.

(** Ten seconds of budget, a default of 4: after 7.5 s the call still
    returns; after 10 s it raises. *)
Lemma budget_countdown_witness :
  (exists t,
     clamp_timeout (100 + 7.5) 4 (compute_deadline 100 (Some 10%Z)) 1
     = Py.Return t /\ (1 <= t <= 4)%Z)
  /\ clamp_timeout (100 + 10) 4 (compute_deadline 100 (Some 10%Z)) 1
     = Py.Raise (Py.TimeoutError "Deadline exceeded").
Proof.
  assert (Hs : (0 < 10)%Z) by lia.
  assert (H75 : 0 <= 7.5) by (vm_compute; discriminate).
  assert (H10 : 0 <= 10) by (vm_compute; discriminate).
  destruct (budget_countdown 100 7.5 10 4 1 Hs H75) as (_ & _ & Hreturn).
  destruct (budget_countdown 100 10 10 4 1 Hs H10) as (_ & Hraise & _).
  split.
  - apply Hreturn. vm_compute. discriminate.
  - apply Hraise. vm_compute. discriminate.
Defined.

(** X3. A timeout returned by [clamp_timeout] is never above the larger
    of [default_timeout] and [minimum], and with [minimum] at most
    [default_timeout] it is never above [default_timeout]. A later
    deadline never turns a returned timeout into an error and never
    shortens it. *)
Theorem clamp_timeout_bounds (now d1 d2 : Q) (default_timeout minimum t1 : Z) :
  clamp_timeout now default_timeout (Some d1) minimum = Py.Return t1 ->
  d1 <= d2 ->
  (t1 <= Z.max default_timeout minimum)%Z
  /\ ((minimum <= default_timeout)%Z -> (t1 <= default_timeout)%Z)
  /\ exists t2,
       clamp_timeout now default_timeout (Some d2) minimum = Py.Return t2
       /\ (t1 <= t2)%Z.
Proof.
  unfold clamp_timeout, time_left. intros H Hd.
  assert (Hmono : (Py.int (d1 - now) <= Py.int (d2 - now))%Z)
    by (apply int_monotone; lra).
  destruct (Py.int (d1 - now) <=? 0)%Z eqn:H1; [discriminate |].
  apply Z.leb_gt in H1. injection H as <-.
  split; [lia | split; [lia |]].
  assert (H2 : (Py.int (d2 - now) <=? 0)%Z = false) by (apply Z.leb_gt; lia).
  rewrite H2. eexists. split; [reflexivity | lia].
Qed.

Lemma clamp_timeout_bounds_witness :
  (2 <= Z.max 30 1)%Z
  /\ exists t2, clamp_timeout 0 30 (Some 50.5) 1 = Py.Return t2 /\ (2 <= t2)%Z.
Proof.
  assert (H1 : clamp_timeout 0 30 (Some 2.5) 1 = Py.Return 2%Z) by reflexivity.
  assert (Hd : 2.5 <= 50.5) by (vm_compute; discriminate).
  destruct (clamp_timeout_bounds 0 2.5 50.5 30 1 2 H1 Hd) as (Hmax & _ & Hlater).
  split; [exact Hmax | exact Hlater].
Defined.

End DeadlineBudget.

(** ** scripts/score.py: extraction from either end of a row *)

Section HistoricalEnds.

Import Score.
Local Open Scope Q_scope.

(** X4. For a row of a well-formed statement, [get_historical] with
    [years_back = 0] is the value [get_latest] returns. A negative
    [years_back] counts from the oldest period, as Python indexes from the
    end: [-1] is the oldest period, [-k] the [k]-th oldest, and beyond the
    length of the row the lookup fails and the result is [None]. *)
Theorem get_historical_ends (df : DataFrame) (key : string) (row : list Q) :
  loc df key = Some row ->
  List.length row = List.length (columns df) ->
  row <> [] ->
  get_historical df key 0 = Some (get_latest df key)
  /\ get_historical df key (-1) = Some (List.last row 0)
  /\ (forall k : Z,
        (1 <= k <= Z.of_nat (List.length row))%Z ->
        get_historical df key (- k)
        = nth_error row (Z.to_nat (Z.of_nat (List.length row) - k)))
  /\ (forall k : Z,
        (Z.of_nat (List.length row) < k)%Z ->
        get_historical df key (- k) = None).
Proof.
  intros Hloc Hlen Hne.
  assert (Hpos : (0 < List.length row)%nat)
    by (destruct row; [congruence | simpl; lia]).
  assert (Hneg : forall k : Z, (1 <= k)%Z ->
            get_historical df key (- k)
            = if (- Z.of_nat (List.length row) <=? - k)%Z
              then nth_error row (Z.to_nat (Z.of_nat (List.length row) + - k))
              else None).
  { intros k Hk. unfold get_historical, loc_iloc.
    rewrite (in_index_present _ _ _ Hloc), Hloc. cbv zeta.
    rewrite Z.min_l by lia. unfold Py.index.
    assert (H0 : (0 <=? - k)%Z = false) by (apply Z.leb_gt; lia).
    now rewrite H0. }
  split; [| split; [| split]].
  - destruct row as [| v older]; [congruence |].
    rewrite (get_latest_present df key v older Hloc).
    rewrite (get_historical_present df key _ 0 Hloc Hlen Hne) by lia.
    reflexivity.
  - change (-1)%Z with (- (1))%Z. rewrite (Hneg 1%Z) by lia.
    assert (H1 : (- Z.of_nat (List.length row) <=? - (1))%Z = true)
      by (apply Z.leb_le; lia).
    rewrite H1. rewrite <- (nth_error_oldest row 0 Hne). f_equal. lia.
  - intros k Hk. rewrite (Hneg k) by lia.
    assert (H1 : (- Z.of_nat (List.length row) <=? - k)%Z = true)
      by (apply Z.leb_le; lia).
    rewrite H1. f_equal.
  - intros k Hk. rewrite (Hneg k) by lia.
    assert (H1 : (- Z.of_nat (List.length row) <=? - k)%Z = false)
      by (apply Z.leb_gt; lia).
    now rewrite H1.
Qed.

(** The revenue row 800, 400, 200, 100 of the sample income statement. *)
Lemma get_historical_ends_witness :
  get_historical Examples.income "Total Revenue" 0 = Some 800
  /\ get_historical Examples.income "Total Revenue" (-1) = Some 100
  /\ get_historical Examples.income "Total Revenue" (-3) = Some 400
  /\ get_historical Examples.income "Total Revenue" (-5) = None.
Proof.
  destruct (get_historical_ends Examples.income "Total Revenue"
              [800; 400; 200; 100])
    as (Hzero & Hlast & Hback & Hout); try reflexivity; try discriminate.
  split; [exact Hzero | split; [exact Hlast | split]].
  - apply (Hback 3%Z). simpl. lia.
  - apply (Hout 5%Z). simpl. lia.
Defined.

End HistoricalEnds.

(** ** scripts/score.py: what the factor scores say about the inputs *)

Section FactorFacts.

Import Score.
Local Open Scope Q_scope.
Local Open Scope string_scope.

(** A factor earns all its points exactly from the ceiling upwards, and
    none exactly up to the floor. *)
Lemma calculate_score_full_iff (val min_val max_val max_points : Q) :
  min_val < max_val -> 0 < max_points ->
  (calculate_score val min_val max_val max_points == max_points
   <-> max_val <= val).
Proof.
  intros Hb Hw. split.
  - intros Hfull. destruct (Qlt_le_dec val max_val) as [Hlt | Hge]; [| exact Hge].
    exfalso. rewrite (calculate_score_fraction min_val max_val Hb) in Hfull.
    assert (Hfrac : calculate_score val min_val max_val 1 < 1).
    { destruct (Qlt_le_dec min_val val) as [Hlo | Hlo].
      - rewrite (calculate_score_between min_val max_val) by (split; assumption).
        pose proof (width_inverse min_val max_val Hb) as Hinv.
        pose proof (width_inverse_pos min_val max_val Hb) as Hpos.
        unfold Qdiv. set (s := / (max_val - min_val)) in *. nra.
      - rewrite (calculate_score_bottom min_val max_val Hb) by assumption. lra. }
    nra.
  - intros Hge. now rewrite (calculate_score_top min_val max_val).
Qed.

Lemma calculate_score_none_iff (val min_val max_val max_points : Q) :
  min_val < max_val -> 0 < max_points ->
  (calculate_score val min_val max_val max_points == 0 <-> val <= min_val).
Proof.
  intros Hb Hw. split.
  - intros Hnone. destruct (Qlt_le_dec min_val val) as [Hlt | Hle]; [| exact Hle].
    exfalso. rewrite (calculate_score_fraction min_val max_val Hb) in Hnone.
    assert (Hfrac : 0 < calculate_score val min_val max_val 1).
    { destruct (Qlt_le_dec val max_val) as [Hhi | Hhi].
      - rewrite (calculate_score_between min_val max_val) by (split; assumption).
        pose proof (width_inverse_pos min_val max_val Hb) as Hpos.
        unfold Qdiv. set (s := / (max_val - min_val)) in *. nra.
      - rewrite (calculate_score_top min_val max_val) by assumption. lra. }
    nra.
  - intros Hle. now rewrite (calculate_score_bottom min_val max_val Hb).
Qed.

Variable pow_third : Q -> Q.

(** Each score of [score_factors] is [calculate_score] of its ratio. *)
Lemma score_factors_scores (stock : Ticker) :
  let f := score_factors pow_third stock in
  score_roic f = calculate_score (roic f) 10 20 35
  /\ score_margin f = calculate_score (fcf_margin f) 10 25 25
  /\ score_growth f = calculate_score (fcf_growth f) 5 15 20
  /\ score_val f = calculate_score (fcf_yield f) 2 4 20
  /\ total_score f
     = score_roic f + score_margin f + score_growth f + score_val f.
Proof.
  unfold score_factors.
  destruct (compute_growth pow_third (cashflow stock) (financials stock)
              (compute_fcf (cashflow stock))
              (get_latest (financials stock) "Total Revenue"))
    as [growth label].
  cbn. repeat split.
Qed.

(** X5. The total is 100 exactly when every ratio reaches its ceiling
    (ROIC 20, FCF margin 25, growth 15, FCF yield 4), and it is 0 exactly
    when no ratio is above its floor (10, 10, 5, 2). *)
Theorem total_score_extremes (stock : Ticker) :
  let f := score_factors pow_third stock in
  (total_score f == 100
   <-> 20 <= roic f /\ 25 <= fcf_margin f /\ 15 <= fcf_growth f
       /\ 4 <= fcf_yield f)
  /\ (total_score f == 0
      <-> roic f <= 10 /\ fcf_margin f <= 10 /\ fcf_growth f <= 5
          /\ fcf_yield f <= 2).
Proof.
  intros f.
  destruct (score_factors_scores stock) as (H1 & H2 & H3 & H4 & Hsum).
  fold f in H1, H2, H3, H4, Hsum.
  pose proof (score_factors_in_range pow_third stock) as Hrange.
  cbv zeta in Hrange. fold f in Hrange.
  destruct Hrange as (R1 & R2 & R3 & R4 & _ & _).
  rewrite Hsum.
  rewrite <- (calculate_score_full_iff (roic f) 10 20 35),
          <- (calculate_score_full_iff (fcf_margin f) 10 25 25),
          <- (calculate_score_full_iff (fcf_growth f) 5 15 20),
          <- (calculate_score_full_iff (fcf_yield f) 2 4 20),
          <- (calculate_score_none_iff (roic f) 10 20 35),
          <- (calculate_score_none_iff (fcf_margin f) 10 25 25),
          <- (calculate_score_none_iff (fcf_growth f) 5 15 20),
          <- (calculate_score_none_iff (fcf_yield f) 2 4 20)
    by reflexivity.
  rewrite <- H1, <- H2, <- H3, <- H4.
  split; split; intros H; repeat split; lra.
Qed.

End FactorFacts.

(** ** scripts/score.py: the growth label *)

Section GrowthLabel.

Import Score.
Local Open Scope Q_scope.
Local Open Scope string_scope.

Variable pow_third : Q -> Q.


End GrowthLabel.

(** ** scripts/score.py: the market capitalisation *)

Section MarketCap.

Import Score.
Local Open Scope Q_scope.
Local Open Scope string_scope.

(** X9. The market capitalisation used for the FCF yield: a reported
    "marketCap" that is not zero is used as it is, whatever price and
    share count say. Otherwise it is price times "sharesOutstanding", the
    price being "currentPrice" when that is present and not zero and
    "previousClose" when only that is; and when no price or no share count
    is usable, there is no market capitalisation and the FCF yield is 0
    for every free cash flow. *)
Theorem market_cap_precedence (info : gmap string Q) :
  (forall m, info !! "marketCap" = Some m -> ~ m == 0 ->
     compute_market_cap info = Some m)
  /\ (Py.truthy_opt (info !! "marketCap") = false ->
      (forall p s,
         info !! "currentPrice" = Some p -> ~ p == 0 ->
         info !! "sharesOutstanding" = Some s -> ~ s == 0 ->
         compute_market_cap info = Some (p * s))
      /\ (forall p s,
         Py.truthy_opt (info !! "currentPrice") = false ->
         info !! "previousClose" = Some p -> ~ p == 0 ->
         info !! "sharesOutstanding" = Some s -> ~ s == 0 ->
         compute_market_cap info = Some (p * s))
      /\ ((Py.truthy_opt (info !! "currentPrice") = false
           /\ Py.truthy_opt (info !! "previousClose") = false)
          \/ Py.truthy_opt (info !! "sharesOutstanding") = false ->
          compute_market_cap info = info !! "marketCap"
          /\ forall fcf, compute_fcf_yield fcf (compute_market_cap info) = 0)).
Proof.
  split.
  - intros m Hm Hnz. apply truthy_true in Hnz.
    unfold compute_market_cap, Py.truthy_opt. rewrite Hm. cbv beta iota.
    rewrite Hnz. reflexivity.
  - intros Hcap. unfold compute_market_cap. rewrite Hcap. simpl negb. cbv iota.
    split; [| split].
    + intros p s Hp Hpz Hs Hsz. apply truthy_true in Hpz, Hsz.
      unfold Py.or_else, Py.truthy_opt. rewrite Hp, Hs. cbv beta iota.
      rewrite !Hpz. cbv beta iota. rewrite ?Hpz, ?Hsz. reflexivity.
    + intros p s Hcur Hp Hpz Hs Hsz. apply truthy_true in Hpz, Hsz.
      unfold Py.or_else. rewrite Hcur, Hp, Hs. cbv beta iota.
      rewrite ?Hpz, ?Hsz. reflexivity.
    + intros Hnone.
      assert (Hsame : match Py.or_else (info !! "currentPrice") (info !! "previousClose"),
                            info !! "sharesOutstanding" with
                      | Some p, Some s =>
                          if Py.truthy p && Py.truthy s then Some (p * s)
                          else info !! "marketCap"
                      | _, _ => info !! "marketCap"
                      end = info !! "marketCap").
      { destruct Hnone as [[Hcur Hprev] | Hshares].
        - unfold Py.or_else. rewrite Hcur.
          destruct (info !! "previousClose") as [p |]; [| reflexivity].
          simpl in Hprev. rewrite Hprev.
          now destruct (info !! "sharesOutstanding").
        - destruct (Py.or_else _ _) as [p |]; [| reflexivity].
          destruct (info !! "sharesOutstanding") as [s |]; [| reflexivity].
          simpl in Hshares. rewrite Hshares. now rewrite andb_false_r. }
      rewrite Hsame. split; [reflexivity |].
      intros fcf. unfold compute_fcf_yield.
      destruct (info !! "marketCap") as [m |]; [| reflexivity].
      simpl in Hcap. now rewrite Hcap.
Qed.

(** A quote with a zero current price, a previous close of 40 and 1000
    shares; and the sample quote, whose market capitalisation is
    reported. *)
Lemma market_cap_precedence_witness :
  compute_market_cap
    (<["currentPrice" := 0]> (<["previousClose" := 40]>
       (<["sharesOutstanding" := 1000]> ∅)))
  = Some (40 * 1000)
  /\ compute_market_cap Examples.quote = Some 10000.
Proof.
  split.
  - destruct (market_cap_precedence
                (<["currentPrice" := 0]> (<["previousClose" := 40]>
                   (<["sharesOutstanding" := 1000]> ∅))))
      as (_ & Hrebuild).
    destruct (Hrebuild eq_refl) as (_ & Hprev & _).
    apply Hprev; try reflexivity; discriminate.
  - destruct (market_cap_precedence Examples.quote) as (Hreported & _).
    apply Hreported; [reflexivity | discriminate].
Defined.

End MarketCap.

(** ** scripts/score.py: the rounded numbers of the report *)

Section RoundedReport.

Import Score.
Local Open Scope Q_scope.
Local Open Scope string_scope.

(** Rounding to the nearest integer moves a number by at most one half. *)
Lemma round_half_even_error (x : Q) :
  - (1 # 2) <= inject_Z (Py.round_half_even x) - x <= 1 # 2.
Proof.
  pose proof (Qfloor_le x) as Hlo. pose proof (Qlt_floor x) as Hhi.
  rewrite inject_Z_plus in Hhi. change (inject_Z 1) with 1 in Hhi.
  unfold Py.round_half_even. cbv zeta.
  destruct (Py.lt (x - inject_Z (Qfloor x)) (1 # 2)) eqn:Hlt.
  { apply lt_true in Hlt. lra. }
  apply lt_false in Hlt.
  assert (Hup : - (1 # 2) <= inject_Z (Qfloor x + 1) - x <= 1 # 2).
  { rewrite inject_Z_plus. change (inject_Z 1) with 1. lra. }
  destruct (Py.gt (x - inject_Z (Qfloor x)) (1 # 2)) eqn:Hgt; [exact Hup |].
  apply gt_false in Hgt.
  destruct (Z.even (Qfloor x)); [lra | exact Hup].
Qed.

(** A number less than one half away from an integer rounds to it. *)
Lemma round_half_even_nearest (x : Q) (k : Z) :
  inject_Z k - (1 # 2) < x < inject_Z k + (1 # 2) ->
  Py.round_half_even x = k.
Proof.
  intros [Hlo Hhi]. pose proof (round_half_even_error x) as [E1 E2].
  set (r := Py.round_half_even x) in *.
  assert (H1 : inject_Z (k - 1) < inject_Z r).
  { replace (k - 1)%Z with (k + -1)%Z by lia.
    rewrite inject_Z_plus. change (inject_Z (-1)) with (-1). lra. }
  assert (H2 : inject_Z r < inject_Z (k + 1)).
  { rewrite inject_Z_plus. change (inject_Z 1) with 1. lra. }
  rewrite <- Zlt_Qlt in H1, H2. lia.
Qed.


(** X10. The recommendation is decided on the full-precision total and
    the report shows the total rounded to one decimal, so the two can
    disagree at a threshold: a total above 69.95 and below 70 is reported
    as 70.0 with the recommendation HOLD, and a total above 49.95 and
    below 50 as 50.0 with PASS / SELL. *)
Theorem rounded_total_across_threshold (ticker_symbol : string)
    (stock : Ticker) (f : Factors) :
  (69.95 < total_score f < 70 ->
     total (report ticker_symbol stock f) == 70
     /\ recommendation (report ticker_symbol stock f) = "HOLD")
  /\ (49.95 < total_score f < 50 ->
     total (report ticker_symbol stock f) == 50
     /\ recommendation (report ticker_symbol stock f) = "PASS / SELL").
Proof.
  destruct (report_fields ticker_symbol stock f) as (_ & Ht & Hrec & _).
  rewrite Ht, Hrec. unfold Py.round1. split; intros [Hlo Hhi].
  - rewrite (round_half_even_nearest (total_score f * 10) 700).
    + split; [reflexivity |]. unfold recommend.
      assert (H70 : Py.ge (total_score f) 70 = false) by (apply ge_false; lra).
      assert (H50 : Py.ge (total_score f) 50 = true) by (apply ge_true; lra).
      now rewrite H70, H50.
    + change (inject_Z 700) with 700. lra.
  - rewrite (round_half_even_nearest (total_score f * 10) 500).
    + split; [reflexivity |]. unfold recommend.
      assert (H70 : Py.ge (total_score f) 70 = false) by (apply ge_false; lra).
      assert (H50 : Py.ge (total_score f) 50 = false) by (apply ge_false; lra).
      now rewrite H70, H50.
    + change (inject_Z 500) with 500. lra.
Qed.

Variable pow_third : Q -> Q.


End RoundedReport.

Section RoundedReportExamples.

Import Score.
Local Open Scope Q_scope.
Local Open Scope string_scope.

(** Factors whose total is 69.96. *)
Lemma rounded_total_across_threshold_witness :
  let f := {| roic := 20; score_roic := 35; fcf_margin := 25; score_margin := 25;
              fcf_growth := 9.98; growth_metric := "FCF CAGR (3y)";
              score_growth := 9.96; fcf_yield := 0; score_val := 0;
              total_score := 69.96 |} in
  total (report "GOOD" Examples.stock f) == 70
  /\ recommendation (report "GOOD" Examples.stock f) = "HOLD".
Proof.
  intros f.
  destruct (rounded_total_across_threshold "GOOD" Examples.stock f) as [H70 _].
  apply H70. split; reflexivity.
Defined.

End RoundedReportExamples.

(** ** scripts/score.py: factors and reports with missing values *)

Section MissingValuesMore.

Import Float ScoreNaN.
Local Open Scope Q_scope.
Local Open Scope string_scope.

Variable pow_third : Q -> number.

(** The growth is complex only when the power is. *)
Lemma compute_growth_complex (cash_flow income_stmt : DataFrame)
    (fcf revenue : float) :
  fst (compute_growth pow_third cash_flow income_stmt fcf revenue) = Complex ->
  exists base, pow_third base = Complex.
Proof.
  assert (Hpow : forall x,
            times (minus (pow pow_third x) (Num 1)) (Num 100) = Complex ->
            exists base, pow_third base = Complex).
  { intros [q |]; cbn; [| discriminate].
    destruct (pow_third q) eqn:Hq; [discriminate | eauto]. }
  unfold compute_growth.
  destruct (get_historical cash_flow "Operating Cash Flow" 3) as [ocf_3y |];
    [| discriminate].
  destruct (gt _ (Num 0) && gt fcf (Num 0)); [apply Hpow |].
  destruct (get_historical income_stmt "Total Revenue" 3) as [r |];
    [| discriminate].
  destruct (truthy r && gt r (Num 0)); [apply Hpow | discriminate].
Qed.

(** X12. [analyze_ticker] returns a report exactly when the provider
    delivers the data, none of the three statements is empty and the
    growth is not a complex number; the report is then the one of the
    scored factors and carries the symbol asked for. With delivered
    statements that are not empty, the result is an error record exactly
    when the growth is complex, which needs a complex power: where the
    power is never complex, a report is returned. In every case the
    result is a report or an error record. *)
Theorem analyze_ticker_report_iff (yf : string -> provided)
    (ticker_symbol : string) :
  (forall r,
     analyze_ticker pow_third yf ticker_symbol = Report r
     <-> exists stock f,
           yf ticker_symbol = Provided stock
           /\ empty (financials stock) = false
           /\ empty (balance_sheet stock) = false
           /\ empty (cashflow stock) = false
           /\ score_factors pow_third stock = Return f
           /\ r = report ticker_symbol stock f)
  /\ (forall r,
        analyze_ticker pow_third yf ticker_symbol = Report r ->
        symbol r = ticker_symbol)
  /\ (forall stock,
        yf ticker_symbol = Provided stock ->
        empty (financials stock) = false ->
        empty (balance_sheet stock) = false ->
        empty (cashflow stock) = false ->
        ((exists msg, analyze_ticker pow_third yf ticker_symbol = Error msg)
         <-> fst (compute_growth pow_third (cashflow stock) (financials stock)
                    (compute_fcf (cashflow stock))
                    (get_latest (financials stock) "Total Revenue")) = Complex)
        /\ ((forall base, pow_third base <> Complex) ->
            exists r, analyze_ticker pow_third yf ticker_symbol = Report r))
  /\ ((exists r, analyze_ticker pow_third yf ticker_symbol = Report r)
      \/ exists msg, analyze_ticker pow_third yf ticker_symbol = Error msg).
Proof.
  split; [apply analyze_ticker_reports | split; [| split]].
  - intros r H. apply analyze_ticker_reports in H.
    destruct H as (stock & f & _ & _ & _ & _ & _ & ->).
    now destruct (report_of_factors ticker_symbol stock f).
  - intros stock Hyf H1 H2 H3.
    assert (Hbody :
      (exists msg, analyze_ticker pow_third yf ticker_symbol = Error msg)
      <-> fst (compute_growth pow_third (cashflow stock) (financials stock)
                 (compute_fcf (cashflow stock))
                 (get_latest (financials stock) "Total Revenue")) = Complex).
    { rewrite <- score_factors_raises.
      unfold analyze_ticker. rewrite Hyf, H1, H2, H3. cbn [orb].
      destruct (score_factors pow_third stock) as [f | msg].
      - split; intros [m H]; discriminate.
      - split; intros _; eauto. }
    split; [exact Hbody |].
    intros Hreal.
    destruct (analyze_ticker pow_third yf ticker_symbol) as [msg | r] eqn:Ha;
      [| eauto].
    exfalso.
    destruct Hbody as [Hbody _].
    destruct (compute_growth_complex _ _ _ _ (Hbody (ex_intro _ msg eq_refl)))
      as [base Hbase].
    now apply (Hreal base).
  - destruct (analyze_ticker pow_third yf ticker_symbol) as [msg | r];
      [right | left]; eauto.
Qed.

(** The recommendation for a total that is NaN or below 70. *)
Lemma recommend_not_buy (total : float) :
  total = NaN \/ (exists t, total = Num t /\ t < 70) ->
  recommend total = ("HOLD", Score.WarningSign)
  \/ recommend total = ("PASS / SELL", Score.StopSign).
Proof.
  intros [-> | (t & -> & Ht)]; [now right |].
  unfold recommend. cbn [ge].
  assert (H70 : Py.ge t 70 = false) by (apply ge_false; exact Ht).
  rewrite H70. destruct (Py.ge t 50); [now left | now right].
Qed.

(** X6. A company without positive free cash flow cannot be a BUY: with
    a free cash flow that is a number and at most 0, a revenue that is a
    number and not negative, and a market capitalisation that is absent
    or a number and not negative, the FCF margin and the valuation earn 0
    points, and the recommendation is HOLD or PASS / SELL. The total is
    then at most 55, unless the ROIC or the growth is NaN, which makes
    the total NaN. *)
Theorem no_free_cash_flow_no_buy (stock : Ticker) (f : Factors)
    (fcf revenue : Q) :
  score_factors pow_third stock = Return f ->
  compute_fcf (cashflow stock) = Num fcf -> fcf <= 0 ->
  get_latest (financials stock) "Total Revenue" = Num revenue -> 0 <= revenue ->
  (forall m, compute_market_cap (info stock) = Some m ->
             exists cap, m = Num cap /\ 0 <= cap) ->
  score_margin f = Num 0 /\ score_val f = Num 0
  /\ (total_score f = NaN <-> roic f = NaN \/ fcf_growth f = Real NaN)
  /\ (total_score f = NaN \/ exists t, total_score f = Num t /\ t <= 55)
  /\ (recommend (total_score f) = ("HOLD", Score.WarningSign)
      \/ recommend (total_score f) = ("PASS / SELL", Score.StopSign)).
Proof.
  intros Hf Hfcf Hneg Hrev Hpos Hcap.
  destruct (score_factors_return pow_third stock f Hf)
    as (growth & Hg & _ & Hmargin & _ & Hyield & H1 & H2 & H3 & H4 & Hsum).
  rewrite Hfcf, Hrev in Hmargin. rewrite Hfcf in Hyield.
  assert (Hm : score_margin f = Num 0).
  { rewrite Hmargin in H2. unfold compute_fcf_margin in H2. cbn [truthy] in H2.
    destruct (Py.truthy revenue) eqn:Ht.
    - cbn [div mul] in H2. rewrite calculate_score_num in H2.
      injection H2 as <-. f_equal.
      apply calculate_score_bottom; [reflexivity |].
      apply truthy_true in Ht.
      assert (Hlt : 0 < revenue) by lra.
      apply Qinv_lt_0_compat in Hlt. unfold Qdiv.
      set (s := / revenue) in *. nra.
    - rewrite calculate_score_num in H2. injection H2 as <-. reflexivity. }
  assert (Hv : score_val f = Num 0).
  { rewrite Hyield in H4. unfold compute_fcf_yield in H4.
    destruct (compute_market_cap (info stock)) as [m |] eqn:Hm';
      [| rewrite calculate_score_num in H4; injection H4 as <-; reflexivity].
    destruct (Hcap m eq_refl) as (cap & -> & Hcap0). cbn [truthy] in H4.
    destruct (Py.truthy cap) eqn:Ht.
    - cbn [div mul] in H4. rewrite calculate_score_num in H4.
      injection H4 as <-. f_equal.
      apply calculate_score_bottom; [reflexivity |].
      apply truthy_true in Ht.
      assert (Hlt : 0 < cap) by lra.
      apply Qinv_lt_0_compat in Hlt. unfold Qdiv.
      set (s := / cap) in *. nra.
    - rewrite calculate_score_num in H4. injection H4 as <-. reflexivity. }
  apply calculate_score_awarded in H1, H3; try reflexivity; try discriminate.
  destruct H1 as [N1 W1], H3 as [N3 W3].
  assert (Htotal : (total_score f = NaN <-> roic f = NaN \/ fcf_growth f = Real NaN)
                   /\ (total_score f = NaN
                       \/ exists t, total_score f = Num t /\ t <= 55)).
  { rewrite Hsum, Hm, Hv, Hg.
    destruct (roic f) as [q1 |].
    2:{ assert (Hs : score_roic f = NaN) by now apply N1.
        rewrite Hs. cbn. split; [tauto | now left]. }
    destruct growth as [q3 |].
    2:{ assert (Hs : score_growth f = NaN) by now apply N3.
        rewrite Hs. destruct (score_roic f); cbn; split; try tauto; now left. }
    assert (Hw1 : within 0 (score_roic f) 35) by (apply W1; discriminate).
    assert (Hw3 : within 0 (score_growth f) 20) by (apply W3; discriminate).
    destruct (score_roic f) as [s1 |]; [| contradiction].
    destruct (score_growth f) as [s3 |]; [| contradiction].
    cbn in Hw1, Hw3 |- *. split.
    - split; [discriminate | intros [H | H]; discriminate].
    - right. eexists. split; [reflexivity |]. lra. }
  destruct Htotal as [Hnan Hbound].
  repeat (split; [assumption |]).
  apply recommend_not_buy.
  destruct Hbound as [H | (t & H & Ht)]; [now left | right].
  exists t. split; [exact H | lra].
Qed.

(** X8. Without operating income the return on invested capital earns no
    points: when both "Ebit" and "Operating Income" are zero or missing,
    ROIC is 0 and its score is 0, as long as the tax provision, the
    pretax income, the total assets and the current liabilities are
    numbers. A NaN among these four can only turn the ROIC, and with it
    the score, into NaN. *)
Theorem no_ebit_no_roic_points (income_stmt balance : DataFrame)
    (ebit operating : Q) :
  get_latest income_stmt "Ebit" = Num ebit -> ebit == 0 ->
  get_latest income_stmt "Operating Income" = Num operating -> operating == 0 ->
  let roic := compute_roic income_stmt balance in
  (roic = NaN \/ within 0 roic 0)
  /\ (roic = NaN ->
      calculate_score (Real roic) 10 20 35 = Return NaN
      /\ (get_latest income_stmt "Tax Provision" = NaN
          \/ get_latest income_stmt "Pretax Income" = NaN
          \/ get_latest balance "Total Assets" = NaN
          \/ get_latest balance "Current Liabilities" = NaN))
  /\ (within 0 roic 0 -> calculate_score (Real roic) 10 20 35 = Return (Num 0))
  /\ (get_latest income_stmt "Tax Provision" <> NaN ->
      get_latest income_stmt "Pretax Income" <> NaN ->
      get_latest balance "Total Assets" <> NaN ->
      get_latest balance "Current Liabilities" <> NaN ->
      within 0 roic 0).
Proof.
  intros Hebit Hzero Hop Hzero' roic.
  assert (Hscore : forall x, within 0 x 0 ->
            calculate_score (Real x) 10 20 35 = Return (Num 0)).
  { intros [q |] Hq; [| contradiction]. cbn in Hq.
    rewrite calculate_score_num. f_equal. f_equal.
    apply calculate_score_bottom; [reflexivity | lra]. }
  subst roic. unfold compute_roic. rewrite Hebit. cbn [eq].
  assert (Heq : Py.eq ebit 0 = true) by (apply Qeq_bool_iff; exact Hzero).
  rewrite Heq, Hop.
  destruct (get_latest income_stmt "Tax Provision") as [tax |];
    destruct (get_latest income_stmt "Pretax Income") as [pretax |];
    destruct (get_latest balance "Total Assets") as [assets |];
    destruct (get_latest balance "Current Liabilities") as [liabs |];
    cbn [truthy ne eq sub div mul negb andb].
  all: repeat match goal with
         | |- context [if ?b then _ else _] => destruct b
         end; cbn [truthy ne eq sub div mul negb andb].
  all: split;
         [first [now left
                | right; cbn [within]; try rewrite Hzero'; unfold Qdiv; lra] |].
  all: split;
         [first [discriminate
                | intros _; split; [reflexivity |];
                  first [left; reflexivity | right; left; reflexivity
                        | right; right; left; reflexivity
                        | right; right; right; reflexivity]] |].
  all: split; [apply Hscore |].
  all: try (intros ? ? ? ?; congruence).
  all: intros _ _ _ _; cbn [within]; try rewrite Hzero'; unfold Qdiv; lra.
Qed.

End MissingValuesMore.

Section MissingValuesMoreExamples.

Import Float ScoreNaN.
Local Open Scope Q_scope.
Local Open Scope string_scope.

(** The sample company without operating cash flow row: free cash flow
    -10, 35 points for ROIC and nothing else. *)
Lemma no_free_cash_flow_no_buy_witness :
  exists f,
    score_factors Examples.cube_root_numpy (of_ticker Examples.stock_no_ocf)
    = Return f
    /\ score_margin f = Num 0 /\ score_val f = Num 0
    /\ within 35 (total_score f) 35
    /\ recommend (total_score f) = ("PASS / SELL", Score.StopSign).
Proof.
  destruct (score_factors Examples.cube_root_numpy
              (of_ticker Examples.stock_no_ocf)) as [f | msg] eqn:Hf;
    [| vm_compute in Hf; discriminate].
  exists f. split; [reflexivity |].
  assert (Hfcf : compute_fcf (cashflow (of_ticker Examples.stock_no_ocf))
                 = Num (-10)) by reflexivity.
  assert (Hrev : get_latest (financials (of_ticker Examples.stock_no_ocf))
                   "Total Revenue" = Num 800) by reflexivity.
  assert (Hcap : forall m,
             compute_market_cap (info (of_ticker Examples.stock_no_ocf)) = Some m ->
             exists cap, m = Num cap /\ 0 <= cap).
  { intros m H. vm_compute in H. injection H as <-.
    eexists. split; [reflexivity |]. vm_compute. discriminate. }
  destruct (no_free_cash_flow_no_buy Examples.cube_root_numpy
              (of_ticker Examples.stock_no_ocf) f (-10) 800 Hf Hfcf
              ltac:(vm_compute; discriminate) Hrev
              ltac:(vm_compute; discriminate) Hcap)
    as (Hm & Hv & _ & _ & _).
  split; [exact Hm | split; [exact Hv |]].
  vm_compute in Hf. injection Hf as <-.
  vm_compute. repeat split; discriminate.
Defined.

(** An income statement with revenue rows only earns no points for
    ROIC; with a missing tax provision beside a pretax income the ROIC
    score is NaN. *)
Lemma no_ebit_no_roic_points_witness :
  within 0 (compute_roic (of_frame Examples.income_two_periods)
              (of_frame Examples.balance)) 0
  /\ calculate_score
       (Real (compute_roic Examples.income_tax_gap (of_frame Examples.balance)))
       10 20 35 = Return NaN.
Proof.
  split.
  - destruct (no_ebit_no_roic_points (of_frame Examples.income_two_periods)
                (of_frame Examples.balance) 0 0 eq_refl ltac:(reflexivity)
                eq_refl ltac:(reflexivity)) as (_ & _ & _ & Hnum).
    apply Hnum; vm_compute; discriminate.
  - destruct (no_ebit_no_roic_points Examples.income_tax_gap
                (of_frame Examples.balance) 0 0 eq_refl ltac:(reflexivity)
                eq_refl ltac:(reflexivity)) as (_ & Hnan & _).
    apply Hnan. reflexivity.
Defined.

(** The symbol "LOSS", whose revenue fell below zero: with Python's
    power the growth is complex and the result is an error record; with
    numpy's power, which is never complex, a report is returned. *)
Lemma analyze_ticker_report_iff_witness :
  (exists msg,
     analyze_ticker Examples.cube_root_python Examples.provider_gap "LOSS"
     = Error msg)
  /\ (exists r,
        analyze_ticker Examples.cube_root_numpy Examples.provider_gap "LOSS"
        = Report r).
Proof.
  split.
  - destruct (analyze_ticker_report_iff Examples.cube_root_python
                Examples.provider_gap "LOSS") as (_ & _ & Hbody & _).
    destruct (Hbody Examples.stock_negative_revenue eq_refl eq_refl eq_refl eq_refl)
      as [Herror _].
    apply Herror. reflexivity.
  - destruct (analyze_ticker_report_iff Examples.cube_root_numpy
                Examples.provider_gap "LOSS") as (_ & _ & Hbody & _).
    destruct (Hbody Examples.stock_negative_revenue eq_refl eq_refl eq_refl eq_refl)
      as [_ Hreport].
    apply Hreport. intros base. unfold Examples.cube_root_numpy.
    destruct (Py.lt base 0); discriminate.
Defined.

End MissingValuesMoreExamples.

(** ** scripts/fetch_news.py: one cache file per clock hour *)

Section CacheFrame.

Import FetchNews.
Local Open Scope string_scope.
Local Open Scope Z_scope.

(** X13. Two clock readings give the same cache key, and hence the same
    cache file, exactly when they agree on year, month, day and hour;
    minutes, seconds and microseconds play no part. *)
Theorem all_news_key_per_hour (t1 t2 : datetime) :
  valid t1 -> valid t2 ->
  (all_news_key t1 = all_news_key t2
   <-> year t1 = year t2 /\ month t1 = month t2 /\ day t1 = day t2
       /\ hour t1 = hour t2)
  /\ (cache_path (all_news_key t1) = cache_path (all_news_key t2)
      <-> all_news_key t1 = all_news_key t2).
Proof.
  intros Hv1 Hv2. split; split.
  - now apply all_news_key_inj.
  - intros (Hy & Hm & Hd & Hh). now apply all_news_key_same_hour.
  - apply cache_path_inj.
  - now intros ->.
Qed.

Lemma all_news_key_per_hour_witness :
  all_news_key (Examples.at_time 10 0 0) = all_news_key (Examples.at_time 10 59 59)
  /\ (all_news_key (Examples.at_time 10 59 59) = all_news_key (Examples.at_time 11 0 0)
      -> 10 = 11).
Proof.
  assert (Hv : forall h m s, 0 <= h <= 23 -> 0 <= m <= 59 -> 0 <= s <= 59 ->
                 valid (Examples.at_time h m s)).
  { intros h m s Hh Hm Hs. unfold valid. simpl. lia. }
  destruct (all_news_key_per_hour (Examples.at_time 10 0 0) (Examples.at_time 10 59 59))
    as [[_ Hsame] _]; [apply Hv; lia | apply Hv; lia |].
  destruct (all_news_key_per_hour (Examples.at_time 10 59 59) (Examples.at_time 11 0 0))
    as [[Hdiff _] _]; [apply Hv; lia | apply Hv; lia |].
  split.
  - apply Hsame. repeat split.
  - intros H. apply Hdiff in H. exact (proj2 (proj2 (proj2 H))).
Defined.

(** A call either prints a fresh, true payload found under its key, or
    fetches and saves. *)
Lemma fetch_all_news_cases (force : bool) (now : datetime)
    (feeds : list (string * json)) (cache_dir : gmap string cache_file) :
  (exists cached,
     force = false
     /\ get_cached_news now cache_dir (all_news_key now) = Some cached
     /\ truthy cached = true
     /\ fetch_all_news force now feeds cache_dir = (Cached cached, cache_dir))
  \/ fetch_all_news force now feeds cache_dir
     = (Fetched (make_news now feeds),
        save_cache now cache_dir (all_news_key now) (make_news now feeds)).
Proof.
  unfold fetch_all_news. cbv zeta.
  destruct force; simpl negb; cbv iota; [now right |].
  destruct (get_cached_news now cache_dir (all_news_key now)) as [c |];
    [| now right].
  destruct (truthy c) eqn:Htruthy; [| now right].
  left. exists c. repeat split. exact Htruthy.
Qed.

(** X14. What a call of [fetch_all_news] does to the cache directory:
    files under other names are left as they are and no file is ever
    removed; a call that prints cached news was not forced, found that
    payload fresh under its key, and leaves the directory unchanged; a call
    that fetches builds the news of its own time and feeds and leaves them
    in the file of its key, stamped with the time of the call. *)
Theorem fetch_all_news_effect (force : bool) (now : datetime)
    (feeds : list (string * json)) (cache_dir : gmap string cache_file) :
  let result := fetch_all_news force now feeds cache_dir in
  (forall name,
     name <> cache_path (all_news_key now) ->
     snd result !! name = cache_dir !! name)
  /\ (forall name, is_Some (cache_dir !! name) -> is_Some (snd result !! name))
  /\ (forall cached,
     fst result = Cached cached ->
     force = false
     /\ get_cached_news now cache_dir (all_news_key now) = Some cached
     /\ truthy cached = true
     /\ snd result = cache_dir)
  /\ (forall news,
     fst result = Fetched news ->
     news = make_news now feeds
     /\ snd result !! cache_path (all_news_key now)
        = Some {| st_mtime := now; content := news |}).
Proof.
  intros result. subst result.
  destruct (fetch_all_news_cases force now feeds cache_dir)
    as [(c & Hforce & Hget & Htruthy & ->) | ->]; cbn [fst snd].
  - split; [reflexivity | split; [tauto | split]].
    + intros cached Hc. injection Hc as <-. tauto.
    + intros news Hn. discriminate.
  - unfold save_cache. split; [| split; [| split]].
    + intros name Hname. now rewrite lookup_insert_ne.
    + intros name Hsome.
      destruct (decide (cache_path (all_news_key now) = name)) as [<- | Hne].
      * rewrite lookup_insert_eq. eauto.
      * now rewrite lookup_insert_ne.
    + intros cached Hc. discriminate.
    + intros news Hn. injection Hn as <-.
      split; [reflexivity | apply lookup_insert_eq].
Qed.

(** X15. A forced call fetches even when a fresh file is in the cache,
    and it replaces that file: a non-forced call in the same clock hour and
    less than 15 minutes later prints the news of the forced call. *)
Theorem forced_call_refreshes (t1 t2 : datetime)
    (feeds1 feeds2 : list (string * json)) (cache_dir : gmap string cache_file) :
  year t1 = year t2 -> month t1 = month t2 -> day t1 = day t2 ->
  hour t1 = hour t2 ->
  minus t2 t1 < timedelta_minutes 15 ->
  fst (fetch_all_news true t1 feeds1 cache_dir) = Fetched (make_news t1 feeds1)
  /\ fst (fetch_all_news false t2 feeds2
            (snd (fetch_all_news true t1 feeds1 cache_dir)))
     = Cached (make_news t1 feeds1).
Proof.
  intros Hy Hm Hd Hh Hage.
  pose proof (all_news_key_same_hour t1 t2 Hy Hm Hd Hh) as Hkey.
  split; [reflexivity |].
  change (fetch_all_news true t1 feeds1 cache_dir)
    with (Fetched (make_news t1 feeds1),
          save_cache t1 cache_dir (all_news_key t1) (make_news t1 feeds1)).
  cbn [snd]. unfold fetch_all_news. cbv zeta. simpl negb. cbv iota.
  rewrite <- Hkey, get_after_save.
  apply Z.ltb_lt in Hage. now rewrite Hage.
Qed.

(** X16. A cached file whose payload is false as a Python value (null,
    an empty object, an empty list, ...) does not count as a hit, however
    fresh it is: the call fetches and overwrites the file. *)
Theorem falsy_cache_is_ignored (now : datetime) (feeds : list (string * json))
    (cache_dir : gmap string cache_file) (file : cache_file) :
  cache_dir !! cache_path (all_news_key now) = Some file ->
  truthy (content file) = false ->
  fetch_all_news false now feeds cache_dir
  = (Fetched (make_news now feeds),
     save_cache now cache_dir (all_news_key now) (make_news now feeds))
  /\ get_cached_news now (snd (fetch_all_news false now feeds cache_dir))
       (all_news_key now)
     = Some (make_news now feeds).
Proof.
  intros Hfile Hfalsy.
  assert (Hrun : fetch_all_news false now feeds cache_dir
                 = (Fetched (make_news now feeds),
                    save_cache now cache_dir (all_news_key now)
                      (make_news now feeds))).
  { unfold fetch_all_news, get_cached_news. cbv zeta. simpl negb. cbv iota.
    rewrite Hfile.
    destruct (minus now (st_mtime file) <? timedelta_minutes 15);
      [now rewrite Hfalsy | reflexivity]. }
  split; [exact Hrun |].
  rewrite Hrun. cbn [snd]. rewrite get_after_save.
  unfold minus. rewrite Z.sub_diag. reflexivity.
Qed.

End CacheFrame.

Section CacheFrameExamples.

Import FetchNews.
Local Open Scope string_scope.
Local Open Scope Z_scope.

(** A forced call at 10:05:00 over the news cached at 10:00:00; the call
    of 10:10:00 prints the news of 10:05:00. *)
Lemma forced_call_refreshes_witness :
  let dir0 :=
    save_cache (Examples.at_time 10 0 0) ∅ "all_news_20240301_10"
      (make_news (Examples.at_time 10 0 0) (Examples.feeds "Markets open")) in
  fst (fetch_all_news false (Examples.at_time 10 10 0) (Examples.feeds "Close")
         (snd (fetch_all_news true (Examples.at_time 10 5 0)
                 (Examples.feeds "Rally") dir0)))
  = Cached (make_news (Examples.at_time 10 5 0) (Examples.feeds "Rally")).
Proof.
  intros dir0.
  apply (forced_call_refreshes (Examples.at_time 10 5 0) (Examples.at_time 10 10 0));
    reflexivity.
Defined.

(** A cache file that holds an empty object. *)
Lemma falsy_cache_is_ignored_witness :
  let dir0 := save_cache (Examples.at_time 10 0 0) ∅ "all_news_20240301_10" (JObj []) in
  fst (fetch_all_news false (Examples.at_time 10 1 0) (Examples.feeds "Rally") dir0)
  = Fetched (make_news (Examples.at_time 10 1 0) (Examples.feeds "Rally")).
Proof.
  intros dir0.
  destruct (falsy_cache_is_ignored (Examples.at_time 10 1 0) (Examples.feeds "Rally")
              dir0 {| st_mtime := Examples.at_time 10 0 0; content := JObj [] |})
    as [Hrun _]; [reflexivity | reflexivity |].
  now rewrite Hrun.
Defined.

(** The first call into an empty directory: it fetches, and the file of
    its key is the only one. *)
Lemma fetch_all_news_effect_witness :
  fst (fetch_all_news false (Examples.at_time 10 0 0) (Examples.feeds "Rally") ∅)
  = Fetched (make_news (Examples.at_time 10 0 0) (Examples.feeds "Rally"))
  /\ snd (fetch_all_news false (Examples.at_time 10 0 0) (Examples.feeds "Rally") ∅)
       !! "other.json" = None.
Proof.
  destruct (fetch_all_news_effect false (Examples.at_time 10 0 0)
              (Examples.feeds "Rally") ∅) as (Hother & _ & _ & _).
  split; [reflexivity |].
  rewrite Hother; [reflexivity | discriminate].
Defined.

End CacheFrameExamples.

(** ** scripts/fetch_news.py: feeds and quotes *)

Section FeedFacts.

Import FetchNews.
Local Open Scope string_scope.
Local Open Scope Z_scope.

Lemma slice_to_length {A : Type} (l : list A) (stop : Z) :
  List.length (slice_to l stop)
  = if 0 <=? stop then Nat.min (Z.to_nat stop) (List.length l)
    else Z.to_nat (Z.of_nat (List.length l) + stop).
Proof.
  unfold slice_to. destruct (0 <=? stop) eqn:Hstop.
  - apply length_firstn.
  - apply Z.leb_gt in Hstop. rewrite length_firstn. lia.
Qed.

(** The elements of a slice are the leading elements of the list. *)
Lemma slice_to_nth {A : Type} (l : list A) (stop : Z) (n : nat) (x : A) :
  nth_error (slice_to l stop) n = Some x -> nth_error l n = Some x.
Proof.
  unfold slice_to. destruct (0 <=? stop); rewrite nth_error_firstn;
    now destruct (_ <? _)%nat.
Qed.

Lemma substring_prefix_length (n : nat) (s : string) :
  (String.length (substring 0 n s) <= n)%nat.
Proof.
  revert s. induction n as [| n IH]; intros s.
  - destruct s; simpl; lia.
  - destruct s as [| c s]; simpl; [lia |]. specialize (IH s). lia.
Qed.

(** X17. [fetch_rss] never raises and never returns more than [limit]
    articles when [limit] is not negative: a failing request gives the
    empty list; otherwise the articles are those of the leading items of
    the feed, in the order of the feed, as many as [limit] allows, and a
    negative [limit] leaves out that many items at the end. Every article
    has the four keys "title", "link", "date" and "description", and its
    description is a string of 200 characters at most. *)
Theorem fetch_rss_articles (web : string -> option (list item)) (url : string)
    (limit : Z) :
  (0 <= limit -> Z.of_nat (List.length (fetch_rss web url limit)) <= limit)
  /\ (web url = None -> fetch_rss web url limit = [])
  /\ (forall items,
        web url = Some items ->
        (0 <= limit ->
           List.length (fetch_rss web url limit)
           = Nat.min (Z.to_nat limit) (List.length items))
        /\ (limit < 0 ->
           List.length (fetch_rss web url limit)
           = (List.length items - Z.to_nat (- limit))%nat)
        /\ (forall n a,
           nth_error (fetch_rss web url limit) n = Some a ->
           exists i, nth_error items n = Some i /\ a = article_of i))
  /\ (forall a,
        In a (fetch_rss web url limit) ->
        map fst a = ["title"; "link"; "date"; "description"]
        /\ exists s,
             dict_get "description" a = Some (JStr s)
             /\ (String.length s <= 200)%nat).
Proof.
  unfold fetch_rss. destruct (web url) as [items |].
  - split; [| split; [discriminate | split]].
    + intros Hlimit. rewrite length_map, slice_to_length.
      apply Z.leb_le in Hlimit. rewrite Hlimit. lia.
    + intros items' H. injection H as <-. split; [| split].
      * intros Hlimit. rewrite length_map, slice_to_length.
        apply Z.leb_le in Hlimit. now rewrite Hlimit.
      * intros Hlimit. rewrite length_map, slice_to_length.
        apply Z.leb_gt in Hlimit. rewrite Hlimit.
        apply Z.leb_gt in Hlimit. lia.
      * intros n a Hn. rewrite nth_error_map in Hn.
        destruct (nth_error (slice_to items limit) n) as [i |] eqn:Hi;
          [| discriminate].
        injection Hn as <-. exists i. split; [| reflexivity].
        now apply (slice_to_nth items limit).
    + intros a Ha. apply in_map_iff in Ha. destruct Ha as (i & <- & _).
      split; [reflexivity |]. unfold article_of, text_prefix.
      destruct (description i) as [| | s]; eexists;
        (split; [reflexivity
                | first [apply substring_prefix_length | simpl; lia]]).
  - split; [intros; simpl; lia | split; [reflexivity | split]].
    + discriminate.
    + intros a [].
Qed.

(** What running the quote tool for [symbol] yields as data, if
    anything: the parsed output of a run that ended with code 0. *)
Local Abbreviation quoted quote loads symbol :=
  (match quote symbol with
   | Some (returncode, stdout) =>
       if returncode =? 0 then loads stdout else None
   | None => None
   end).

Lemma fetch_market_data_step (quote : string -> option (Z * string))
    (loads : string -> option json) (symbols : list string)
    (results : gmap string json) (s : string) :
  fold_left
    (fun results symbol =>
       match quote symbol with
       | Some (returncode, stdout) =>
           if returncode =? 0 then
             match loads stdout with
             | Some data => <[symbol := data]> results
             | None => results
             end
           else results
       | None => results
       end)
    symbols results !! s
  = match (if in_dec String.string_dec s symbols
           then quoted quote loads s else None) with
    | Some data => Some data
    | None => results !! s
    end.
Proof.
  revert results. induction symbols as [| symbol rest IH]; intros results.
  - reflexivity.
  - cbn [fold_left]. rewrite IH. clear IH.
    destruct (decide (symbol = s)) as [-> | Hne].
    + destruct (in_dec String.string_dec s (s :: rest)) as [_ | Hout];
        [| exfalso; apply Hout; now left].
      destruct (quote s) as [[returncode stdout] |];
        [| now destruct (in_dec String.string_dec s rest)].
      destruct (returncode =? 0);
        [| now destruct (in_dec String.string_dec s rest)].
      destruct (loads stdout) as [data |];
        [| now destruct (in_dec String.string_dec s rest)].
      destruct (in_dec String.string_dec s rest); [reflexivity |].
      apply lookup_insert_eq.
    + assert (Hstep : match quote symbol with
                      | Some (returncode, stdout) =>
                          if returncode =? 0 then
                            match loads stdout with
                            | Some data => <[symbol := data]> results
                            | None => results
                            end
                          else results
                      | None => results
                      end !! s = results !! s).
      { destruct (quote symbol) as [[returncode stdout] |]; [| reflexivity].
        destruct (returncode =? 0); [| reflexivity].
        destruct (loads stdout) as [data |]; [| reflexivity].
        now rewrite lookup_insert_ne. }
      rewrite Hstep.
      destruct (in_dec String.string_dec s rest) as [Hrest | Hrest];
        destruct (in_dec String.string_dec s (symbol :: rest)) as [[H | H] | Hout];
        try reflexivity; try congruence; try tauto.
      exfalso. apply Hout. now right.
Qed.

(** X18. The result of [fetch_market_data] holds data for a symbol
    exactly when the symbol was asked for and running the quote tool for
    it ended with code 0 and printed JSON that parses, and the data is the
    parsed output. A symbol whose quote fails is left out and changes
    nothing for the others. *)
Theorem fetch_market_data_lookup (quote : string -> option (Z * string))
    (loads : string -> option json) (symbols : list string) (s : string)
    (data : json) :
  fetch_market_data quote loads symbols !! s = Some data
  <-> In s symbols
      /\ exists stdout, quote s = Some (0, stdout) /\ loads stdout = Some data.
Proof.
  unfold fetch_market_data. rewrite fetch_market_data_step, lookup_empty.
  destruct (in_dec String.string_dec s symbols) as [Hin | Hout].
  - destruct (quote s) as [[returncode stdout] |].
    + destruct (returncode =? 0) eqn:Hcode.
      * apply Z.eqb_eq in Hcode. subst returncode.
        destruct (loads stdout) as [d |] eqn:Hloads.
        -- split.
           ++ intros H. injection H as <-. split; [exact Hin |].
              exists stdout. now split.
           ++ intros (_ & out & Hq & Hl). injection Hq as <-. congruence.
        -- split; [discriminate |].
           intros (_ & out & Hq & Hl). injection Hq as <-. congruence.
      * apply Z.eqb_neq in Hcode. split; [discriminate |].
        intros (_ & out & Hq & _). injection Hq as Hzero _. congruence.
    + split; [discriminate |]. intros (_ & out & Hq & _). discriminate.
  - split; [discriminate | tauto].
Qed.

End FeedFacts.

(** ** scripts/fetch_news.py: dictionaries built in loops *)

Section DictFacts.

Import FetchNews.
Local Open Scope string_scope.

Context {V : Type}.

Lemma dict_get_set_eq (key : string) (v : V) (d : list (string * V)) :
  dict_get key (dict_set key v d) = Some v.
Proof.
  induction d as [| [k w] d IH]; simpl.
  - now rewrite String.eqb_refl.
  - destruct (String.eqb key k) eqn:Hk; simpl; rewrite Hk; [reflexivity | exact IH].
Qed.

Lemma dict_get_set_ne (key other : string) (v : V) (d : list (string * V)) :
  key <> other -> dict_get other (dict_set key v d) = dict_get other d.
Proof.
  intros Hne. induction d as [| [k w] d IH]; simpl.
  - apply String.eqb_neq in Hne. rewrite String.eqb_sym in Hne. now rewrite Hne.
  - destruct (String.eqb key k) eqn:Hk; simpl.
    + apply String.eqb_eq in Hk. subst k.
      assert (Ho : String.eqb other key = false)
        by (apply String.eqb_neq; congruence).
      now rewrite Ho.
    + destruct (String.eqb other k); [reflexivity | exact IH].
Qed.

Lemma dict_get_missing (key : string) (d : list (string * V)) :
  dict_get key d = None <-> ~ In key (map fst d).
Proof.
  induction d as [| [k w] d IH]; simpl.
  - tauto.
  - destruct (String.eqb key k) eqn:Hk.
    + apply String.eqb_eq in Hk. subst k. split; [discriminate | tauto].
    + apply String.eqb_neq in Hk. rewrite IH. split.
      * intros H [-> | Hin]; tauto.
      * tauto.
Qed.

(** Setting a key that the dictionary does not have adds it at the end. *)
Lemma dict_set_fresh (key : string) (v : V) (d : list (string * V)) :
  dict_get key d = None -> dict_set key v d = (d ++ [(key, v)])%list.
Proof.
  induction d as [| [k w] d IH]; simpl; [reflexivity |].
  destruct (String.eqb key k); [discriminate |].
  intros H. now rewrite IH.
Qed.

End DictFacts.

Section SourceFacts.

Import FetchNews.
Local Open Scope string_scope.
Local Open Scope Z_scope.

Variable web : string -> option (list item).

Lemma fetch_rss_length (url : string) (limit : Z) :
  0 <= limit -> Z.of_nat (List.length (fetch_rss web url limit)) <= limit.
Proof.
  intros Hlimit. unfold fetch_rss. destruct (web url) as [items |]; [| simpl; lia].
  rewrite length_map, slice_to_length.
  apply Z.leb_le in Hlimit. rewrite Hlimit. lia.
Qed.

Lemma fetch_rss_member (url : string) (limit : Z) (a : dict) :
  In a (fetch_rss web url limit) -> exists i, a = article_of i.
Proof.
  unfold fetch_rss. destruct (web url) as [items |]; [| intros []].
  intros Ha. apply in_map_iff in Ha. destruct Ha as (i & <- & _). now exists i.
Qed.

(** X19. The articles that [fetch_all_news] collects for a source: each
    one comes from a feed of the source other than the entry "name", is an
    article of that feed's URL with the key "feed" added at its end, and
    carries the name of that feed there. With [limit] not negative there
    are at most [limit] articles per feed, so at most [limit] times the
    number of feeds. *)
Theorem source_articles_tagged (limit : Z) (feeds : list (string * string)) :
  (forall a,
     In a (source_articles web limit feeds) ->
     exists feed_name feed_url i,
       In (feed_name, feed_url) feeds
       /\ feed_name <> "name"
       /\ In (article_of i) (fetch_rss web feed_url limit)
       /\ a = (article_of i ++ [("feed", JStr feed_name)])%list
       /\ dict_get "feed" a = Some (JStr feed_name))
  /\ (0 <= limit ->
      Z.of_nat (List.length (source_articles web limit feeds))
      <= limit * Z.of_nat (List.length
                             (List.filter
                                (fun feed => negb (String.eqb (fst feed) "name"))
                                feeds))).
Proof.
  split.
  - intros a Ha. unfold source_articles in Ha. apply in_flat_map in Ha.
    destruct Ha as ([feed_name feed_url] & Hfeed & Ha).
    destruct (String.eqb feed_name "name") eqn:Hname; [destruct Ha |].
    apply String.eqb_neq in Hname.
    apply in_map_iff in Ha. destruct Ha as (a0 & <- & Ha0).
    destruct (fetch_rss_member _ _ _ Ha0) as (i & ->).
    exists feed_name, feed_url, i.
    split; [exact Hfeed | split; [exact Hname | split; [exact Ha0 |]]].
    split; [reflexivity |]. reflexivity.
  - intros Hlimit. unfold source_articles.
    induction feeds as [| [feed_name feed_url] feeds IH]; [simpl; lia |].
    cbn [flat_map List.filter fst]. rewrite length_app.
    destruct (String.eqb feed_name "name"); cbn [negb].
    + cbn [List.length]. rewrite Nat.add_0_l. exact IH.
    + rewrite length_map. cbn [List.length].
      rewrite Nat2Z.inj_add, Nat2Z.inj_succ, Z.mul_succ_r, Z.add_comm.
      apply Z.add_le_mono; [exact IH | now apply fetch_rss_length].
Qed.

(** The entry of a source in [news['sources']]. *)
Local Abbreviation source_entry limit source :=
  (fst source,
   JObj [("name", JStr (default (fst source) (dict_get "name" (snd source))));
         ("articles", JArr (map JObj (source_articles web limit (snd source))))]).

Lemma collect_sources_loop (limit : Z)
    (rss_feeds : list (string * list (string * string)))
    (news_sources : list (string * json)) :
  NoDup (map fst news_sources ++ map fst rss_feeds) ->
  fold_left
    (fun news_sources source =>
       let '(source_id, feeds) := source in
       dict_set source_id
         (JObj [("name", JStr (default source_id (dict_get "name" feeds)));
                ("articles", JArr (map JObj (source_articles web limit feeds)))])
         news_sources)
    rss_feeds news_sources
  = (news_sources ++ map (fun source => source_entry limit source) rss_feeds)%list.
Proof.
  revert news_sources.
  induction rss_feeds as [| [source_id feeds] rss_feeds IH];
    intros news_sources Hnodup.
  - cbn. now rewrite app_nil_r.
  - cbn [fold_left map fst snd].
    assert (Hfresh : dict_get source_id news_sources = None).
    { apply dict_get_missing. intros Hin.
      apply NoDup_app in Hnodup. destruct Hnodup as (_ & Hdisj & _).
      apply (Hdisj source_id); [now apply list_elem_of_In |].
      apply list_elem_of_In. now left. }
    rewrite (dict_set_fresh _ _ _ Hfresh), IH.
    + now rewrite <- app_assoc.
    + rewrite map_app. cbn [map fst]. rewrite <- app_assoc. exact Hnodup.
Qed.

(** X20. With the sources of the configuration under different
    identifiers, [news['sources']] has one entry per configured source, in
    the order of the configuration: the entry of a source is its display
    name, which is the entry "name" of its feeds or else its identifier,
    and its collected articles. *)
Theorem collect_sources_entries (limit : Z)
    (rss_feeds : list (string * list (string * string))) :
  NoDup (map fst rss_feeds) ->
  collect_sources web limit rss_feeds
  = map (fun source =>
           (fst source,
            JObj [("name", JStr (default (fst source) (dict_get "name" (snd source))));
                  ("articles",
                   JArr (map JObj (source_articles web limit (snd source))))]))
      rss_feeds
  /\ map fst (collect_sources web limit rss_feeds) = map fst rss_feeds.
Proof.
  intros Hnodup. unfold collect_sources.
  rewrite collect_sources_loop by exact Hnodup. cbn [app].
  split; [reflexivity |]. rewrite map_map. reflexivity.
Qed.

(** X21. Choosing the headline feed of a source fails (with IndexError)
    exactly when the source has no non-empty "top" feed, no non-empty
    "markets" feed and fewer than two entries; a non-empty "top" feed is
    taken before everything else, and a non-empty "markets" feed when
    "top" is missing or empty. *)
Theorem headline_feed_choice (feeds : list (string * string)) :
  (headline_feed feeds = None
   <-> nonempty (dict_get "top" feeds) = false
       /\ nonempty (dict_get "markets" feeds) = false
       /\ (List.length feeds < 2)%nat)
  /\ (forall url, dict_get "top" feeds = Some url -> url <> "" ->
        headline_feed feeds = Some url)
  /\ (forall url, nonempty (dict_get "top" feeds) = false ->
        dict_get "markets" feeds = Some url -> url <> "" ->
        headline_feed feeds = Some url).
Proof.
  unfold headline_feed. split; [| split].
  - destruct (nonempty (dict_get "top" feeds)) eqn:Htop.
    { destruct (dict_get "top" feeds); [| discriminate].
      split; [discriminate | intros [H _]; discriminate]. }
    destruct (nonempty (dict_get "markets" feeds)) eqn:Hmarkets.
    { destruct (dict_get "markets" feeds); [| discriminate].
      split; [discriminate | intros (_ & H & _); discriminate]. }
    rewrite nth_error_None, length_map. split.
    + intros H. repeat split. lia.
    + intros (_ & _ & H). lia.
  - intros url Hurl Hne. rewrite Hurl. simpl.
    apply String.eqb_neq in Hne. now rewrite Hne.
  - intros url Htop Hurl Hne. rewrite Htop, Hurl. simpl.
    apply String.eqb_neq in Hne. now rewrite Hne.
Qed.

Lemma headlines_from_fails (rss_feeds : list (string * list (string * string)))
    (wanted : list string) (acc : list dict) :
  headlines_from web rss_feeds wanted acc = None
  <-> exists source feeds,
        In source wanted /\ dict_get source rss_feeds = Some feeds
        /\ headline_feed feeds = None.
Proof.
  revert acc. induction wanted as [| source rest IH]; intros acc; cbn [headlines_from].
  - split; [discriminate | intros (s & f & [] & _)].
  - destruct (dict_get source rss_feeds) as [feeds |] eqn:Hsource.
    + destruct (headline_feed feeds) as [url |] eqn:Hfeed.
      * rewrite IH. split.
        -- intros (s & f & Hin & Hs & Hf). exists s, f. split; [now right | tauto].
        -- intros (s & f & [<- | Hin] & Hs & Hf); [congruence |].
           exists s, f. tauto.
      * split; [| reflexivity]. intros _. exists source, feeds.
        split; [now left | tauto].
    + rewrite IH. split.
      * intros (s & f & Hin & Hs & Hf). exists s, f. split; [now right | tauto].
      * intros (s & f & [<- | Hin] & Hs & Hf); [congruence |].
        exists s, f. tauto.
Qed.

Lemma headlines_from_succeeds (rss_feeds : list (string * list (string * string)))
    (wanted : list string) (acc hs : list dict) :
  headlines_from web rss_feeds wanted acc = Some hs ->
  (List.length hs <= List.length acc + 5 * List.length wanted)%nat
  /\ forall h, In h hs ->
       In h acc \/ exists s, dict_get "source" h = Some (JStr s).
Proof.
  revert acc. induction wanted as [| source rest IH]; intros acc; cbn [headlines_from].
  - intros H. injection H as <-. split; [lia | tauto].
  - destruct (dict_get source rss_feeds) as [feeds |].
    + destruct (headline_feed feeds) as [url |]; [| discriminate].
      intros H. apply IH in H. destruct H as [Hlen Htag].
      rewrite length_app, length_map in Hlen.
      pose proof (fetch_rss_length url 5 ltac:(lia)) as Hfive.
      split; [unfold dict in *; cbn [List.length]; lia |].
      intros h Hh. destruct (Htag h Hh) as [Hacc | Hsrc]; [| now right].
      apply in_app_iff in Hacc. destruct Hacc as [Hacc | Hnew]; [now left |].
      right. apply in_map_iff in Hnew. destruct Hnew as (a & <- & _).
      eexists. apply dict_get_set_eq.
    + intros H. apply IH in H. destruct H as [Hlen Htag].
      split; [cbn [List.length]; lia | exact Htag].
Qed.

(** X22. The headlines of [fetch_market_news] come from CNBC and Yahoo,
    five at most from each, so ten at most in all, and every headline
    carries a "source" tag. Building them fails exactly when one of the two
    sources is configured and choosing its feed fails. Without either
    source there are no headlines. *)
Theorem headlines_bounded (rss_feeds : list (string * list (string * string))) :
  (headlines web rss_feeds = None
   <-> (exists feeds, dict_get "cnbc" rss_feeds = Some feeds
                      /\ headline_feed feeds = None)
       \/ (exists feeds, dict_get "yahoo" rss_feeds = Some feeds
                         /\ headline_feed feeds = None))
  /\ (forall hs,
        headlines web rss_feeds = Some hs ->
        (List.length hs <= 10)%nat
        /\ forall h, In h hs -> exists s, dict_get "source" h = Some (JStr s))
  /\ (dict_get "cnbc" rss_feeds = None -> dict_get "yahoo" rss_feeds = None ->
      headlines web rss_feeds = Some []).
Proof.
  unfold headlines. split; [| split].
  - rewrite headlines_from_fails. split.
    + intros (s & f & [<- | [<- | []]] & Hs & Hf); [left | right]; eauto.
    + intros [(f & Hs & Hf) | (f & Hs & Hf)].
      * exists "cnbc", f. split; [now left | tauto].
      * exists "yahoo", f. split; [right; now left | tauto].
  - intros hs H. apply headlines_from_succeeds in H. destruct H as [Hlen Htag].
    split; [cbn [List.length] in Hlen; lia |].
    intros h Hh. destruct (Htag h Hh) as [[] | Hsrc]. exact Hsrc.
  - intros Hcnbc Hyahoo. cbn [headlines_from]. now rewrite Hcnbc, Hyahoo.
Qed.

End SourceFacts.

Section QuoteLoops.

Import FetchNews.
Local Open Scope string_scope.
Local Open Scope Z_scope.

Variable quote : string -> option (Z * string).
Variable loads : string -> option json.

(** The quote of a single symbol. *)
Lemma fetch_market_data_single (symbol : string) :
  fetch_market_data quote loads [symbol] !! symbol
  = match quote symbol with
    | Some (returncode, stdout) => if returncode =? 0 then loads stdout else None
    | None => None
    end.
Proof.
  unfold fetch_market_data. rewrite fetch_market_data_step, lookup_empty.
  destruct (in_dec String.string_dec symbol [symbol]) as [_ | Hout];
    [| exfalso; apply Hout; now left].
  now destruct (match quote symbol with Some _ => _ | None => _ end).
Qed.

(** The entry of an index in the market overview. *)
#[warnings="-inconsistent-scopes"]
Local Abbreviation index_entry config symbol data :=
  (JObj [("name", JStr (default symbol (dict_get symbol (index_names config))));
         ("data", data)]).

Lemma market_indices_loop (config : market) (symbols : list string)
    (listed : dict) (s : string) :
  dict_get s
    (fold_left
       (fun listed symbol =>
          let data := fetch_market_data quote loads [symbol] in
          match data !! symbol with
          | Some d => dict_set symbol (index_entry config symbol d) listed
          | None => listed
          end)
       symbols listed)
  = match (if in_dec String.string_dec s symbols
           then fetch_market_data quote loads [s] !! s else None) with
    | Some d => Some (index_entry config s d)
    | None => dict_get s listed
    end.
Proof.
  revert listed. induction symbols as [| symbol rest IH]; intros listed.
  - reflexivity.
  - cbn [fold_left]. rewrite IH. clear IH. cbv zeta.
    destruct (decide (symbol = s)) as [-> | Hne].
    + destruct (in_dec String.string_dec s (s :: rest)) as [_ | Hout];
        [| exfalso; apply Hout; now left].
      destruct (fetch_market_data quote loads [s] !! s) as [d |];
        [| now destruct (in_dec String.string_dec s rest)].
      destruct (in_dec String.string_dec s rest); [reflexivity |].
      apply dict_get_set_eq.
    + assert (Hstep : dict_get s
                        match fetch_market_data quote loads [symbol] !! symbol with
                        | Some d => dict_set symbol (index_entry config symbol d) listed
                        | None => listed
                        end = dict_get s listed).
      { destruct (fetch_market_data quote loads [symbol] !! symbol);
          [now apply dict_get_set_ne | reflexivity]. }
      rewrite Hstep.
      destruct (in_dec String.string_dec s rest) as [Hrest | Hrest];
        destruct (in_dec String.string_dec s (symbol :: rest)) as [[H | H] | Hout];
        try reflexivity; try congruence; try tauto.
      exfalso. apply Hout. now right.
Qed.

(** X23. The market overview lists an index exactly when it is one of
    the configured indices of the market and its quote could be fetched
    (the tool ended with code 0 and printed JSON that parses); the entry
    holds the parsed quote under "data" and, under "name", the configured
    name of the index or, without one, its symbol. *)
Theorem market_indices_listed (config : market) (symbol : string) (entry : json) :
  dict_get symbol (market_indices quote loads config) = Some entry
  <-> In symbol (indices config)
      /\ exists stdout data,
           quote symbol = Some (0, stdout) /\ loads stdout = Some data
           /\ entry = JObj [("name",
                             JStr (default symbol
                                     (dict_get symbol (index_names config))));
                            ("data", data)].
Proof.
  unfold market_indices. rewrite market_indices_loop.
  destruct (in_dec String.string_dec symbol (indices config)) as [Hin | Hout].
  - rewrite fetch_market_data_single.
    destruct (quote symbol) as [[returncode stdout] |].
    + destruct (returncode =? 0) eqn:Hcode.
      * apply Z.eqb_eq in Hcode. subst returncode.
        destruct (loads stdout) as [d |] eqn:Hloads.
        -- split.
           ++ intros H. injection H as <-. split; [exact Hin |].
              exists stdout, d. repeat split. exact Hloads.
           ++ intros (_ & out & d' & Hq & Hl & ->). injection Hq as <-.
              rewrite Hloads in Hl. now injection Hl as <-.
        -- split; [discriminate |].
           intros (_ & out & d' & Hq & Hl & _). injection Hq as <-. congruence.
      * apply Z.eqb_neq in Hcode. split; [discriminate |].
        intros (_ & out & d' & Hq & _). injection Hq as Hzero _. congruence.
    + split; [discriminate |]. intros (_ & out & d' & Hq & _). discriminate.
  - split; [discriminate | tauto].
Qed.

Variable web : string -> option (list item).

(** The entry of a stock in the portfolio news. *)
#[warnings="-inconsistent-scopes"]
Local Abbreviation stock_entry limit symbol :=
  (JObj [("quote",
          default (JObj []) (fetch_market_data quote loads [symbol] !! symbol));
         ("articles", JArr (map JObj (fetch_ticker_news web symbol limit)))]).

Lemma portfolio_stocks_loop (limit : Z) (symbols : list string) (stocks : dict)
    (s : string) :
  dict_get s
    (fold_left
       (fun stocks symbol =>
          if String.eqb symbol "" then stocks
          else
            let articles := fetch_ticker_news web symbol limit in
            let quotes := fetch_market_data quote loads [symbol] in
            dict_set symbol
              (JObj [("quote", default (JObj []) (quotes !! symbol));
                     ("articles", JArr (map JObj articles))])
              stocks)
       symbols stocks)
  = if in_dec String.string_dec s symbols
    then if String.eqb s "" then dict_get s stocks else Some (stock_entry limit s)
    else dict_get s stocks.
Proof.
  revert stocks. induction symbols as [| symbol rest IH]; intros stocks.
  - reflexivity.
  - cbn [fold_left]. rewrite IH. clear IH. cbv zeta.
    destruct (decide (symbol = s)) as [-> | Hne].
    + destruct (in_dec String.string_dec s (s :: rest)) as [_ | Hout];
        [| exfalso; apply Hout; now left].
      destruct (String.eqb s "") eqn:Hempty;
        [now destruct (in_dec String.string_dec s rest) |].
      destruct (in_dec String.string_dec s rest); [reflexivity |].
      apply dict_get_set_eq.
    + assert (Hstep : dict_get s
                        (if String.eqb symbol "" then stocks
                         else dict_set symbol (stock_entry limit symbol) stocks)
                      = dict_get s stocks).
      { destruct (String.eqb symbol ""); [reflexivity |].
        now apply dict_get_set_ne. }
      rewrite Hstep.
      destruct (in_dec String.string_dec s rest) as [Hrest | Hrest];
        destruct (in_dec String.string_dec s (symbol :: rest)) as [[H | H] | Hout];
        try reflexivity; try congruence; try tauto.
      exfalso. apply Hout. now right.
Qed.

Lemma split_commas_nonempty (s : string) : split_commas s <> [].
Proof.
  destruct s as [| c s]; [discriminate |]. cbn [split_commas].
  destruct (Ascii.eqb c ","); [discriminate |].
  destruct (split_commas s); discriminate.
Qed.

(** Joining the fields with commas gives the string back. *)
Lemma split_commas_join (s : string) : String.concat "," (split_commas s) = s.
Proof.
  induction s as [| c s IH]; [reflexivity |]. cbn [split_commas].
  destruct (Ascii.eqb c ",") eqn:Hc.
  - apply Ascii.eqb_eq in Hc. subst c.
    pose proof (split_commas_nonempty s) as Hne.
    destruct (split_commas s) as [| field fields]; [congruence |].
    change (String.concat "," ("" :: field :: fields))
      with (String "," (String.concat "," (field :: fields))).
    now rewrite IH.
  - pose proof (split_commas_nonempty s) as Hne.
    destruct (split_commas s) as [| field fields]; [congruence |].
    rewrite <- IH. destruct fields; reflexivity.
Qed.

(** There is one field more than there are commas. *)
Lemma split_commas_length (s : string) :
  List.length (split_commas s)
  = S (count_occ ascii_dec (list_ascii_of_string s) ","%char).
Proof.
  induction s as [| c s IH]; [reflexivity |]. cbn [split_commas list_ascii_of_string].
  destruct (Ascii.eqb c ",") eqn:Hc.
  - apply Ascii.eqb_eq in Hc. subst c.
    rewrite count_occ_cons_eq by reflexivity. cbn [List.length]. now rewrite IH.
  - apply Ascii.eqb_neq in Hc. rewrite count_occ_cons_neq by exact Hc.
    rewrite <- IH. pose proof (split_commas_nonempty s) as Hne.
    destruct (split_commas s); [congruence | reflexivity].
Qed.

Variable strip : string -> string.

(** X24. [fetch_portfolio_news] ends the process with status 1 when the
    portfolio script fails. Otherwise the stripped output is cut at its
    commas, so that joining the symbols with commas gives it back, and a
    stock is reported exactly for every symbol that is not empty, with its
    quote (an empty object when there is none) and its articles. The
    number of stocks in the header counts the empty symbols too: it is one
    more than the number of commas, and 1 for an empty output, which has no
    stock. *)
Theorem fetch_portfolio_news_stocks (limit returncode : Z) (stdout : string) :
  (returncode <> 0 ->
     fetch_portfolio_news strip web quote loads limit (returncode, stdout) = None)
  /\ exists stocks,
       fetch_portfolio_news strip web quote loads limit (0, stdout)
       = Some (List.length (split_commas (strip stdout)), stocks)
       /\ String.concat "," (split_commas (strip stdout)) = strip stdout
       /\ List.length (split_commas (strip stdout))
          = S (count_occ ascii_dec (list_ascii_of_string (strip stdout)) ","%char)
       /\ (forall symbol entry,
             dict_get symbol stocks = Some entry
             <-> symbol <> ""
                 /\ In symbol (split_commas (strip stdout))
                 /\ entry
                    = JObj [("quote",
                             default (JObj [])
                               (fetch_market_data quote loads [symbol] !! symbol));
                            ("articles",
                             JArr (map JObj (fetch_ticker_news web symbol limit)))])
       /\ (strip stdout = "" ->
           List.length (split_commas (strip stdout)) = 1%nat /\ stocks = []).
Proof.
  split.
  - intros Hcode. unfold fetch_portfolio_news.
    apply Z.eqb_neq in Hcode. now rewrite Hcode.
  - eexists. split; [reflexivity |].
    split; [apply split_commas_join | split; [apply split_commas_length | split]].
    + intros symbol entry. unfold portfolio_stocks.
      rewrite portfolio_stocks_loop. cbn [dict_get].
      destruct (in_dec String.string_dec symbol (split_commas (strip stdout)))
        as [Hin | Hout].
      * destruct (String.eqb symbol "") eqn:Hempty.
        -- apply String.eqb_eq in Hempty. split; [discriminate | tauto].
        -- apply String.eqb_neq in Hempty. split.
           ++ intros H. injection H as <-. tauto.
           ++ intros (_ & _ & ->). reflexivity.
      * split; [discriminate | tauto].
    + intros Hempty. rewrite Hempty. split; reflexivity.
Qed.

End QuoteLoops.

(** ** scripts/briefing.py *)

Section BriefingFacts.

Import Briefing.
Local Open Scope string_scope.
Local Open Scope list_scope.
Local Open Scope Z_scope.

(** X25. The subprocess that generates the briefing always gets a
    timeout of at least one second: 300 seconds without a deadline, and
    with a deadline [d] five seconds more than [d], or than one second when
    [d] is smaller. The timeout is thus never shorter than the deadline
    plus five seconds; for a deadline of zero or less, a budget for which
    [compute_deadline] gives no deadline at all, it is six seconds. *)
Theorem subprocess_timeout_covers_deadline (a : args) :
  1 <= subprocess_timeout a
  /\ (deadline a = None -> subprocess_timeout a = 300)
  /\ (forall d,
        deadline a = Some d ->
        subprocess_timeout a = Z.max 1 d + 5
        /\ d + 5 <= subprocess_timeout a
        /\ 6 <= subprocess_timeout a
        /\ (1 <= d -> subprocess_timeout a = d + 5)
        /\ (d <= 0 ->
            subprocess_timeout a = 6
            /\ forall now, Utils.compute_deadline now (Some d) = None)).
Proof.
  unfold subprocess_timeout. destruct (deadline a) as [d0 |].
  - split; [lia | split; [discriminate |]].
    intros d H. injection H as <-.
    repeat split; try lia.
    intros now. unfold Utils.compute_deadline.
    assert (Hle : (d0 <=? 0) = true) by (apply Z.leb_le; assumption).
    now rewrite Hle.
  - split; [lia | split; [reflexivity | discriminate]].
Qed.

Lemma subprocess_timeout_covers_deadline_witness :
  subprocess_timeout
    {| time := None; style := "briefing"; lang := "en"; send := false;
       group := "120363421796203667@g.us"; json := false; deadline := Some 20;
       llm := false; model := "claude"; fast := false; debug := false |}
  = 25
  /\ subprocess_timeout
       {| time := None; style := "briefing"; lang := "en"; send := false;
          group := "120363421796203667@g.us"; json := false; deadline := Some 0;
          llm := false; model := "claude"; fast := false; debug := false |}
     = 6.
Proof.
  split.
  - pose (a := {| time := None; style := "briefing"; lang := "en"; send := false;
                  group := "120363421796203667@g.us"; json := false;
                  deadline := Some 20; llm := false; model := "claude";
                  fast := false; debug := false |}).
    destruct (subprocess_timeout_covers_deadline a) as (_ & _ & H).
    destruct (H 20 eq_refl) as (_ & _ & _ & Hd & _). apply Hd. lia.
  - pose (a := {| time := None; style := "briefing"; lang := "en"; send := false;
                  group := "120363421796203667@g.us"; json := false;
                  deadline := Some 0; llm := false; model := "claude";
                  fast := false; debug := false |}).
    destruct (subprocess_timeout_covers_deadline a) as (_ & _ & H).
    destruct (H 0 eq_refl) as (_ & _ & _ & _ & Hd). apply Hd. lia.
Defined.

(** The decimal numeral of an integer reads back as the integer. *)
Lemma str_reads_back (n : Z) :
  option_map Z.of_int (NilZero.int_of_string (str n)) = Some n.
Proof.
  unfold str. rewrite NilZero.isi.
  - cbn [option_map]. now rewrite DecimalZ.of_to.
  - destruct n; [discriminate | |]; cbn [Z.to_int]; try discriminate.
    intros H. injection H as H.
    now apply DecimalPos.Unsigned.to_uint_nonnil in H.
  - destruct n; [discriminate | |]; cbn [Z.to_int]; try discriminate.
    intros H. injection H as H.
    now apply DecimalPos.Unsigned.to_uint_nonnil in H.
Qed.

(** X26. The command line of the briefing generator always starts with
    the interpreter, the script and the options [--time], [--style] and
    [--lang] with their values. A deadline follows them directly as
    [--deadline] and its decimal numeral, which reads back as the same
    integer. The model is passed only together with [--llm], right after
    it; without [--llm] the chosen model does not change the command. *)
Theorem summarize_cmd_options (executable script : string) (a : args)
    (briefing_time : string) :
  let cmd := summarize_cmd executable script a briefing_time in
  firstn 8 cmd
  = [executable; script; "--time"; briefing_time; "--style"; style a;
     "--lang"; lang a]
  /\ List.length cmd
     = (8 + (match deadline a with Some _ => 2 | None => 0 end)
        + (if fast a then 1 else 0)
        + (if llm a then 3 else 0) + (if debug a then 1 else 0)
        + (if json a then 1 else 0))%nat
  /\ (forall d,
        deadline a = Some d ->
        nth_error cmd 8 = Some "--deadline"
        /\ nth_error cmd 9 = Some (str d)
        /\ option_map Z.of_int (NilZero.int_of_string (str d)) = Some d)
  /\ (llm a = true ->
      exists before after,
        cmd = before ++ ["--llm"; "--model"; model a] ++ after)
  /\ (llm a = false ->
      forall other_model,
        summarize_cmd executable script
          {| time := time a; style := style a; lang := lang a; send := send a;
             group := group a; json := json a; deadline := deadline a;
             llm := false; model := other_model; fast := fast a;
             debug := debug a |} briefing_time
        = cmd).
Proof.
  intros cmd. subst cmd. unfold summarize_cmd.
  split; [| split; [| split; [| split]]].
  - destruct (deadline a), (fast a), (llm a), (debug a), (json a); reflexivity.
  - destruct (deadline a), (fast a), (llm a), (debug a), (json a); reflexivity.
  - intros d Hd. rewrite Hd.
    split; [| split; [| apply str_reads_back]];
      destruct (fast a), (llm a), (debug a), (json a); reflexivity.
  - intros Hllm. rewrite Hllm.
    exists ([executable; script; "--time"; briefing_time; "--style"; style a;
             "--lang"; lang a]
            ++ (match deadline a with
                | Some d => ["--deadline"; str d]
                | None => []
                end)
            ++ (if fast a then ["--fast"] else [])),
           ((if debug a then ["--debug"] else [])
            ++ (if json a then ["--json"] else [])).
    destruct (deadline a), (fast a), (debug a), (json a); reflexivity.
  - intros Hllm other_model. cbn [deadline fast llm debug json style lang model].
    now rewrite Hllm.
Qed.

End BriefingFacts.

Section BriefingSend.

Import Briefing.
Local Open Scope string_scope.
Local Open Scope list_scope.
Local Open Scope Z_scope.

(** The briefing type passed to the generator is always "morning"
    or "evening" when [--time] is absent or one of these two: a given
    [--time] is used as it is, and without it the clock decides, morning
    before 12 o'clock and evening from 12 o'clock on. *)
Theorem briefing_time_choice (a : args) (hour : Z) :
  (forall t, time a = Some t -> t <> "" -> briefing_time a hour = t)
  /\ (time a = None ->
      (hour < 12 -> briefing_time a hour = "morning")
      /\ (12 <= hour -> briefing_time a hour = "evening"))
  /\ (time a = None \/ time a = Some "morning" \/ time a = Some "evening" ->
      briefing_time a hour = "morning" \/ briefing_time a hour = "evening").
Proof.
  unfold briefing_time. split; [| split].
  - intros t Ht Hne. rewrite Ht. cbn [FetchNews.nonempty default].
    apply String.eqb_neq in Hne. now rewrite Hne.
  - intros Ht. rewrite Ht. cbn [FetchNews.nonempty]. split; intros Hh.
    + apply Z.ltb_lt in Hh. now rewrite Hh.
    + apply Z.ltb_ge in Hh. now rewrite Hh.
  - intros [Ht | [Ht | Ht]]; rewrite Ht; cbn;
      [destruct (hour <? 12) | |]; tauto.
Qed.

Lemma briefing_time_choice_witness :
  briefing_time
    {| time := None; style := "briefing"; lang := "en"; send := false;
       group := "120363421796203667@g.us"; json := false; deadline := None;
       llm := false; model := "claude"; fast := false; debug := false |} 7
  = "morning"
  /\ briefing_time
       {| time := Some "evening"; style := "briefing"; lang := "en"; send := false;
          group := "120363421796203667@g.us"; json := false; deadline := None;
          llm := false; model := "claude"; fast := false; debug := false |} 7
     = "evening".
Proof.
  split.
  - pose (a := {| time := None; style := "briefing"; lang := "en"; send := false;
                  group := "120363421796203667@g.us"; json := false;
                  deadline := None; llm := false; model := "claude";
                  fast := false; debug := false |}).
    destruct (briefing_time_choice a 7) as (_ & Hclock & _).
    destruct (Hclock eq_refl) as [Hmorning _]. apply Hmorning. lia.
  - pose (a := {| time := Some "evening"; style := "briefing"; lang := "en";
                  send := false; group := "120363421796203667@g.us";
                  json := false; deadline := None; llm := false;
                  model := "claude"; fast := false; debug := false |}).
    destruct (briefing_time_choice a 7) as (Hgiven & _).
    apply (Hgiven "evening"); [reflexivity | discriminate].
Defined.

Variable strip : string -> string.
Variable loads : string -> loaded.

(** X27. [generate_and_send] calls [send_to_whatsapp] only when
    [--send] is given, the group is not empty and the generator ended with
    code 0, and then with that group. Without [--json] the message is the
    stripped output of the generator; with [--json] it is the value under
    "summary" of the output parsed as a JSON object, and only when that
    value is true as a Python value. Whenever a message is sent, the
    briefing was printed and is returned. *)
Theorem whatsapp_send_conditions (a : args) (run : completed)
    (message : FetchNews.json) (target : string) :
  sent (snd (generate_and_send strip loads a run)) = Some (message, target) ->
  send a = true /\ target = group a /\ target <> ""
  /\ exists stdout stderr,
       run = Completed 0 stdout stderr
       /\ printed (snd (generate_and_send strip loads a run)) = Some (strip stdout)
       /\ fst (generate_and_send strip loads a run) = Returned (strip stdout)
       /\ (json a = false -> message = FetchNews.JStr (strip stdout))
       /\ (json a = true ->
           FetchNews.truthy message = true
           /\ exists data,
                loads (strip stdout) = Loaded (FetchNews.JObj data)
                /\ FetchNews.dict_get "summary" data = Some message).
Proof.
  unfold generate_and_send. destruct run as [| returncode stdout stderr];
    [discriminate |].
  destruct (returncode =? 0) eqn:Hcode; cbn [negb]; [| discriminate].
  apply Z.eqb_eq in Hcode. subst returncode.
  destruct (send a) eqn:Hsend; cbn [andb]; [| discriminate].
  destruct (String.eqb (group a) "") eqn:Hgroup; cbn [negb]; [discriminate |].
  apply String.eqb_neq in Hgroup.
  destruct (json a) eqn:Hjson.
  - destruct (loads (strip stdout)) as [[| | | | | data] | |] eqn:Hloads;
      try discriminate.
    destruct (FetchNews.dict_get "summary" data) as [m |] eqn:Hsummary;
      cbn [default from_option id].
    + destruct (FetchNews.truthy m) eqn:Htruthy;
        [| intros H; cbn in H; discriminate H].
      cbn [snd sent fst printed]. intros H. injection H as <- <-.
      split; [reflexivity | split; [reflexivity | split; [exact Hgroup |]]].
      exists stdout, stderr. repeat split; try discriminate; try assumption.
      exists data. now split.
    + intros H. cbn in H. discriminate H.
  - cbn [snd sent fst printed]. intros H. injection H as <- <-.
    split; [reflexivity | split; [reflexivity | split; [exact Hgroup |]]].
    exists stdout, stderr. repeat split; discriminate.
Qed.

(** What the send block of [generate_and_send] does with the stripped
    output [briefing] under [--send] with a group and [--json]. *)
Lemma send_json_block (a : args) (stdout stderr : string) :
  send a = true -> group a <> "" -> json a = true ->
  generate_and_send strip loads a (Completed 0 stdout stderr)
  = match loads (strip stdout) with
    | Loaded (FetchNews.JObj data) =>
        let message :=
          default (FetchNews.JStr "") (FetchNews.dict_get "summary" data) in
        if FetchNews.truthy message then
          (Returned (strip stdout),
           {| printed := Some (strip stdout); sent := Some (message, group a) |})
        else
          (Returned (strip stdout),
           {| printed := Some (strip stdout); sent := None |})
    | Loaded _ => (Raised, {| printed := Some (strip stdout); sent := None |})
    | JSONDecodeError =>
        (Returned (strip stdout),
         {| printed := Some (strip stdout); sent := None |})
    | OtherError => (Raised, {| printed := Some (strip stdout); sent := None |})
    end.
Proof.
  intros Hsend Hgroup Hjson. unfold generate_and_send. cbn [Z.eqb negb].
  apply String.eqb_neq in Hgroup. now rewrite Hsend, Hgroup, Hjson.
Qed.

(** Without a message to parse the call prints and returns. *)
Lemma send_plain_block (a : args) (stdout stderr : string) :
  send a = false \/ group a = "" \/ json a = false ->
  fst (generate_and_send strip loads a (Completed 0 stdout stderr))
  = Returned (strip stdout)
  /\ printed (snd (generate_and_send strip loads a (Completed 0 stdout stderr)))
     = Some (strip stdout).
Proof.
  intros H. unfold generate_and_send. cbn [Z.eqb negb].
  destruct (send a) eqn:Hsend; cbn [andb]; [| now split].
  destruct (String.eqb (group a) "") eqn:Hgroup; cbn [negb]; [now split |].
  apply String.eqb_neq in Hgroup.
  destruct (json a) eqn:Hjson; [| now split].
  destruct H as [H | [H | H]]; congruence.
Qed.

(** X28. When the generator ends with a code other than 0, the process
    exits with status 1 and nothing is printed to standard output or sent.
    When it ends with code 0 the stripped output is printed, also when
    nothing is sent. An exception leaves [generate_and_send] exactly when
    running the generator raises, or when a message is to be sent with
    [--json] and either the output parses as JSON that is not an object
    or [json.loads] raises another exception than JSONDecodeError; in
    these cases the briefing was printed before. A JSONDecodeError alone
    is caught: the briefing is returned and nothing is sent. *)
Theorem generate_and_send_endings (a : args) (run : completed) :
  (forall returncode stdout stderr,
     run = Completed returncode stdout stderr -> returncode <> 0 ->
     generate_and_send strip loads a run
     = (Exit 1, {| printed := None; sent := None |}))
  /\ (forall stdout stderr,
     run = Completed 0 stdout stderr ->
     printed (snd (generate_and_send strip loads a run)) = Some (strip stdout))
  /\ (fst (generate_and_send strip loads a run) = Raised
      <-> run = RunRaises
          \/ exists stdout stderr,
               run = Completed 0 stdout stderr
               /\ send a = true /\ group a <> "" /\ json a = true
               /\ (loads (strip stdout) = OtherError
                   \/ exists v,
                        loads (strip stdout) = Loaded v
                        /\ (forall data, v <> FetchNews.JObj data)))
  /\ (forall stdout stderr,
      run = Completed 0 stdout stderr ->
      loads (strip stdout) = JSONDecodeError ->
      fst (generate_and_send strip loads a run) = Returned (strip stdout)
      /\ (json a = true ->
          sent (snd (generate_and_send strip loads a run)) = None))
  /\ (forall status,
      fst (generate_and_send strip loads a run) = Exit status ->
      status = 1 /\ sent (snd (generate_and_send strip loads a run)) = None).
Proof.
  destruct run as [| returncode stdout stderr].
  { split; [discriminate | split; [discriminate | split; [| split]]].
    - split; [now left | reflexivity].
    - discriminate.
    - cbn. discriminate. }
  destruct (Z.eq_dec returncode 0) as [-> | Hcode].
  2:{ assert (Hexit : generate_and_send strip loads a
                        (Completed returncode stdout stderr)
                      = (Exit 1, {| printed := None; sent := None |})).
      { unfold generate_and_send. apply Z.eqb_neq in Hcode. now rewrite Hcode. }
      rewrite Hexit.
      split; [reflexivity | split; [| split; [| split]]].
      - intros o e H. injection H as H _ _. congruence.
      - cbn [fst]. split; [discriminate |].
        intros [H | (o & e & H & _)]; [discriminate |].
        injection H as H _ _. congruence.
      - intros o e H. injection H as H _ _. congruence.
      - cbn [fst snd sent]. intros status H. injection H as <-. now split. }
  split; [intros r o e H Hne; injection H as <- _ _; congruence |].
  assert (Hcases : (send a = true /\ group a <> "" /\ json a = true)
                   \/ (send a = false \/ group a = "" \/ json a = false)).
  { destruct (send a); [| tauto]. destruct (json a); [| tauto].
    destruct (String.eqb (group a) "") eqn:Hgroup;
      [apply String.eqb_eq in Hgroup | apply String.eqb_neq in Hgroup]; tauto. }
  destruct Hcases as [(Hsend & Hgroup & Hjson) | Hplain].
  - rewrite (send_json_block a stdout stderr Hsend Hgroup Hjson).
    destruct (loads (strip stdout)) as [v | |] eqn:Hloads.
    + assert (Hobject : (exists data, v = FetchNews.JObj data)
                        \/ forall data, v <> FetchNews.JObj data).
      { destruct v; try (right; discriminate). left. eauto. }
      destruct Hobject as [(data & ->) | Hother].
      * cbv zeta.
        destruct (FetchNews.truthy
                    (default (FetchNews.JStr "")
                       (FetchNews.dict_get "summary" data)));
          cbn [fst snd printed sent].
        all: split; [intros o e H; now injection H as <- _ |].
        all: split; [| split; [intros o e Hrun H; injection Hrun as <- _; congruence | discriminate]].
        all: split; [discriminate |].
        all: intros [H | (o & e & H & _ & _ & _ & Hbad)]; [discriminate |].
        all: injection H as <- _; rewrite Hloads in Hbad.
        all: destruct Hbad as [H' | (v & H' & Hno)]; [discriminate |].
        all: injection H' as <-; exfalso; now apply (Hno data).
      * assert (Hraised :
          match v with
          | FetchNews.JObj data =>
              let message :=
                default (FetchNews.JStr "") (FetchNews.dict_get "summary" data) in
              if FetchNews.truthy message then
                (Returned (strip stdout),
                 {| printed := Some (strip stdout);
                    sent := Some (message, group a) |})
              else
                (Returned (strip stdout),
                 {| printed := Some (strip stdout); sent := None |})
          | _ => (Raised, {| printed := Some (strip stdout); sent := None |})
          end = (Raised, {| printed := Some (strip stdout); sent := None |})).
        { destruct v; try reflexivity. exfalso. now apply (Hother members). }
        rewrite Hraised. cbn [fst snd printed sent].
        split; [intros o e H; now injection H as <- _ |].
        split; [| split; [intros o e Hrun H; injection Hrun as <- _; congruence | discriminate]].
        split; [| reflexivity].
        intros _. right. exists stdout, stderr.
        repeat split; try assumption. right. exists v. now split.
    + cbn [fst snd printed sent].
      split; [intros o e H; now injection H as <- _ |].
      split; [| split; [| discriminate]].
      * split; [discriminate |].
        intros [H | (o & e & H & _ & _ & _ & Hbad)]; [discriminate |].
        injection H as <- _. rewrite Hloads in Hbad.
        destruct Hbad as [H' | (v & H' & _)]; discriminate.
      * intros o e H _. injection H as <- _. now split.
    + cbn [fst snd printed sent].
      split; [intros o e H; now injection H as <- _ |].
      split; [| split; [intros o e Hrun H; injection Hrun as <- _; congruence | discriminate]].
      split; [| reflexivity].
      intros _. right. exists stdout, stderr. repeat split; try assumption.
      now left.
  - destruct (send_plain_block a stdout stderr Hplain) as [Hreturned Hprinted].
    split; [intros o e H; injection H as <- _; exact Hprinted |].
    split; [| split].
    + rewrite Hreturned. split; [discriminate |].
      intros [H | (o & e & _ & Hs & Hg & Hj & _)]; [discriminate |].
      destruct Hplain as [H | [H | H]]; congruence.
    + intros o e H _. injection H as <- _. split; [exact Hreturned |].
      intros Hj. unfold generate_and_send. cbn [Z.eqb negb].
      destruct (send a) eqn:Hsend; cbn [andb]; [| reflexivity].
      destruct (String.eqb (group a) "") eqn:Hgroup; cbn [negb]; [reflexivity |].
      apply String.eqb_neq in Hgroup.
      destruct Hplain as [H | [H | H]]; congruence.
    + rewrite Hreturned. discriminate.
Qed.

(** X29. [ensure_venv] replaces the process exactly when the bootstrap
    variable is not "1", the process does not run in a virtual environment
    and the interpreter of the local venv exists. The new process runs that
    interpreter on the same arguments, in the same environment with the
    bootstrap variable set to "1", and so a process started in that
    environment returns from [ensure_venv] at once: it is never replaced a
    second time. *)
Theorem ensure_venv_execs_once (p : process) :
  ((exists path args env, ensure_venv p = Execvpe path args env)
   <-> environ p !! "FINANCE_NEWS_VENV_BOOTSTRAPPED" <> Some "1"
       /\ prefix p = base_prefix p
       /\ venv_python_exists p = true)
  /\ (forall path args env,
        ensure_venv p = Execvpe path args env ->
        path = venv_python p
        /\ args = venv_python p :: argv p
        /\ env !! "FINANCE_NEWS_VENV_BOOTSTRAPPED" = Some "1"
        /\ (forall name, name <> "FINANCE_NEWS_VENV_BOOTSTRAPPED" ->
              env !! name = environ p !! name)
        /\ (forall next, environ next = env -> ensure_venv next = Proceed)).
Proof.
  unfold ensure_venv.
  destruct (decide (environ p !! "FINANCE_NEWS_VENV_BOOTSTRAPPED" = Some "1"))
    as [Hset | Hunset].
  { split; [| discriminate].
    split; [intros (? & ? & ? & H); discriminate | tauto]. }
  destruct (String.eqb (prefix p) (base_prefix p)) eqn:Hprefix; cbn [negb].
  2:{ apply String.eqb_neq in Hprefix. split; [| discriminate].
      split; [intros (? & ? & ? & H); discriminate | tauto]. }
  apply String.eqb_eq in Hprefix.
  destruct (venv_python_exists p) eqn:Hexists; cbn [negb].
  2:{ split; [| discriminate].
      split; [intros (? & ? & ? & H); discriminate |].
      intros (_ & _ & H). discriminate. }
  split.
  - split; [tauto | intros _; eauto].
  - intros path args env H. injection H as <- <- <-.
    split; [reflexivity | split; [reflexivity | split; [| split]]].
    + apply lookup_insert_eq.
    + intros name Hname. now rewrite lookup_insert_ne.
    + intros next Henv. rewrite Henv, lookup_insert_eq.
      now destruct (decide (Some "1" = Some "1")).
Qed.

End BriefingSend.

(** ** The further properties on the sample data *)

Section FurtherExamples.

Import FetchNews.
Local Open Scope string_scope.
Local Open Scope list_scope.
Local Open Scope Z_scope.


(** Two of the three items of the sample feed. *)
Lemma fetch_rss_articles_witness :
  List.length (fetch_rss Examples.web "https://example.com/top.xml" 2) = 2%nat
  /\ fetch_rss Examples.web "https://example.com/down.xml" 2 = []
  /\ List.length (fetch_rss Examples.web "https://example.com/top.xml" (-1)) = 2%nat.
Proof.
  destruct (fetch_rss_articles Examples.web "https://example.com/top.xml" 2)
    as (_ & _ & Hok & _).
  destruct (fetch_rss_articles Examples.web "https://example.com/down.xml" 2)
    as (_ & Hdown & _).
  destruct (fetch_rss_articles Examples.web "https://example.com/top.xml" (-1))
    as (_ & _ & Hneg & _).
  destruct (Hok Examples.feed_items eq_refl) as (Hlen & _).
  destruct (Hneg Examples.feed_items eq_refl) as (_ & Hdrop & _).
  split; [apply Hlen; lia | split; [now apply Hdown | apply Hdrop; lia]].
Defined.

(** The quotes of three symbols, one of which fails. *)
Lemma fetch_market_data_lookup_witness :
  fetch_market_data Examples.quote_tool Examples.loads ["^GSPC"; "^DJI"; "AAPL"]
    !! "AAPL" = Some (JNum 190).
Proof.
  apply fetch_market_data_lookup. split; [right; right; now left |].
  exists "190". split; reflexivity.
Defined.

(** The articles of the sample source: its "top" feed answers, its
    "world" feed does not. *)
Lemma source_articles_tagged_witness :
  (Z.of_nat (List.length (source_articles Examples.web 2 Examples.cnbc_feeds))
   <= 2 * 2)
  /\ List.length (source_articles Examples.web 2 Examples.cnbc_feeds) = 2%nat.
Proof.
  destruct (source_articles_tagged Examples.web 2 Examples.cnbc_feeds)
    as [_ Hcount].
  split; [apply Hcount; lia | reflexivity].
Defined.

Lemma collect_sources_entries_witness :
  map fst (collect_sources Examples.web 2 (rss_feeds Examples.config))
  = ["cnbc"; "yahoo"].
Proof.
  apply (collect_sources_entries Examples.web 2 (rss_feeds Examples.config)).
  cbn. repeat constructor; rewrite ?list_elem_of_In; simpl; intuition discriminate.
Defined.

Lemma headline_feed_choice_witness :
  headline_feed Examples.cnbc_feeds = Some "https://example.com/top.xml"
  /\ headline_feed Examples.yahoo_feeds = Some "https://example.com/markets.xml"
  /\ headline_feed [("name", "CNBC")] = None.
Proof.
  destruct (headline_feed_choice Examples.cnbc_feeds) as (_ & Htop & _).
  destruct (headline_feed_choice Examples.yahoo_feeds) as (_ & _ & Hmarkets).
  destruct (headline_feed_choice [("name", "CNBC")]) as (Hfail & _).
  split; [| split].
  - apply Htop; [reflexivity | discriminate].
  - apply Hmarkets; [reflexivity | reflexivity | discriminate].
  - apply Hfail. repeat split. simpl. lia.
Defined.

Lemma headlines_bounded_witness :
  headlines Examples.web [("cnbc", [("name", "CNBC")])] = None
  /\ headlines Examples.web [("reuters", Examples.cnbc_feeds)] = Some [].
Proof.
  destruct (headlines_bounded Examples.web [("cnbc", [("name", "CNBC")])])
    as (Hfail & _).
  destruct (headlines_bounded Examples.web [("reuters", Examples.cnbc_feeds)])
    as (_ & _ & Hnone).
  split.
  - apply Hfail. left. exists [("name", "CNBC")]. split; reflexivity.
  - apply Hnone; reflexivity.
Defined.

(** The S&P 500 has a quote and a configured name. *)
Lemma market_indices_listed_witness :
  dict_get "^GSPC" (market_indices Examples.quote_tool Examples.loads Examples.us_market)
  = Some (JObj [("name", JStr "S&P 500"); ("data", JNum 5000)]).
Proof.
  apply market_indices_listed. split; [now left |].
  exists "5000", (JNum 5000). repeat split.
Defined.

(** A portfolio of two symbols with an empty field between them. *)
Lemma fetch_portfolio_news_stocks_witness :
  fetch_portfolio_news Examples.strip Examples.web Examples.quote_tool
    Examples.loads 2 (1, "") = None
  /\ exists stocks,
       fetch_portfolio_news Examples.strip Examples.web Examples.quote_tool
         Examples.loads 2 (0, "AAPL,,MSFT") = Some (3%nat, stocks)
       /\ map fst stocks = ["AAPL"; "MSFT"].
Proof.
  destruct (fetch_portfolio_news_stocks Examples.quote_tool Examples.loads
              Examples.web Examples.strip 2 1 "") as [Hfail _].
  split; [apply Hfail; lia |].
  eexists. split; reflexivity.
Defined.

End FurtherExamples.

Section BriefingExamples.

Import Briefing.
Local Open Scope string_scope.
Local Open Scope list_scope.
Local Open Scope Z_scope.

Lemma summarize_cmd_options_witness :
  summarize_cmd "python3" "summarize.py" Examples.send_json_args "morning"
  = ["python3"; "summarize.py"; "--time"; "morning"; "--style"; "briefing";
     "--lang"; "en"; "--deadline"; "20"; "--llm"; "--model"; "gemini"; "--json"]
  /\ nth_error (summarize_cmd "python3" "summarize.py" Examples.send_json_args
                  "morning") 9
     = Some (str 20).
Proof.
  destruct (summarize_cmd_options "python3" "summarize.py" Examples.send_json_args
              "morning") as (_ & _ & Hdeadline & _).
  destruct (Hdeadline 20 eq_refl) as (_ & Hnumeral & _).
  split; [reflexivity | exact Hnumeral].
Defined.

(** With [--send --json], the summary of the generated object is sent;
    an output that is a number raises. *)
Lemma whatsapp_send_conditions_witness :
  sent (snd (generate_and_send Examples.strip Examples.loads_briefing
               Examples.send_json_args (Completed 0 "BRIEFING" "")))
  = Some (FetchNews.JStr "Markets up", "120363421796203667@g.us")
  /\ send Examples.send_json_args = true.
Proof.
  assert (H : sent (snd (generate_and_send Examples.strip Examples.loads_briefing
                           Examples.send_json_args (Completed 0 "BRIEFING" "")))
              = Some (FetchNews.JStr "Markets up", "120363421796203667@g.us"))
    by reflexivity.
  destruct (whatsapp_send_conditions Examples.strip Examples.loads_briefing
              Examples.send_json_args (Completed 0 "BRIEFING" "") _ _ H)
    as (Hsend & _).
  split; [exact H | exact Hsend].
Defined.

(** A failed generator ends the process with status 1; with
    [--send --json] an output that is a number raises, and so does an
    output that [json.loads] gives up on. *)
Lemma generate_and_send_endings_witness :
  generate_and_send Examples.strip Examples.loads_briefing Examples.send_json_args
    (Completed 2 "" "boom")
  = (Exit 1, {| printed := None; sent := None |})
  /\ fst (generate_and_send Examples.strip Examples.loads_briefing
            Examples.send_json_args (Completed 0 "42" ""))
     = Raised
  /\ fst (generate_and_send Examples.strip Examples.loads_briefing
            Examples.send_json_args (Completed 0 "DEEP" ""))
     = Raised.
Proof.
  destruct (generate_and_send_endings Examples.strip Examples.loads_briefing
              Examples.send_json_args (Completed 2 "" "boom")) as (Hexit & _).
  destruct (generate_and_send_endings Examples.strip Examples.loads_briefing
              Examples.send_json_args (Completed 0 "42" ""))
    as (_ & _ & Hraise & _).
  destruct (generate_and_send_endings Examples.strip Examples.loads_briefing
              Examples.send_json_args (Completed 0 "DEEP" ""))
    as (_ & _ & Hdeep & _).
  split; [| split].
  - apply (Hexit 2 "" "boom"); [reflexivity | lia].
  - apply Hraise. right. exists "42", "".
    repeat split; try discriminate. right. exists (FetchNews.JNum 42).
    split; [reflexivity | discriminate].
  - apply Hdeep. right. exists "DEEP", "".
    repeat split; try discriminate. now left.
Defined.

(** The sample process is replaced once; the process it starts goes
    on. *)
Lemma ensure_venv_execs_once_witness :
  ensure_venv Examples.fresh_process
  = Execvpe "/repo/venv/bin/python3"
      ["/repo/venv/bin/python3"; "briefing.py"; "--send"]
      (<["FINANCE_NEWS_VENV_BOOTSTRAPPED" := "1"]> (<["HOME" := "/home/user"]> ∅))
  /\ ensure_venv
       {| environ := <["FINANCE_NEWS_VENV_BOOTSTRAPPED" := "1"]>
                       (<["HOME" := "/home/user"]> ∅);
          prefix := "/usr"; base_prefix := "/usr";
          argv := ["briefing.py"; "--send"];
          venv_python := "/repo/venv/bin/python3";
          venv_python_exists := true |}
     = Proceed.
Proof.
  assert (H : ensure_venv Examples.fresh_process
              = Execvpe "/repo/venv/bin/python3"
                  ["/repo/venv/bin/python3"; "briefing.py"; "--send"]
                  (<["FINANCE_NEWS_VENV_BOOTSTRAPPED" := "1"]>
                     (<["HOME" := "/home/user"]> ∅)))
    by reflexivity.
  destruct (ensure_venv_execs_once Examples.fresh_process) as [_ Hexec].
  destruct (Hexec _ _ _ H) as (_ & _ & _ & _ & Hnext).
  split; [exact H | now apply Hnext].
Defined.

End BriefingExamples.
